(** * Workflow execution engine of the Clary AI API

    A shallow embedding of [api/app/ml/agents/workflow_executor.py] and of
    the status query of [api/app/services/workflow_service.py], with the
    properties of the engine stated and proved over it. *)

From Stdlib Require Import Floats.PrimFloat Ascii.
From Stdlib Require Uint63.
From stdpp Require Import gmap strings list relations pretty.

Set Warnings "-register-all,-clear-no-such-hyp".

(** ** Python values, exceptions and dictionaries *)

(** The exceptions the modelled code raises.  [py_str] is [str(e)]. *)
Inductive exn :=
  | ValueError (msg : string)
  | KeyError (key : string)
  | TypeError (msg : string)
  | AttributeError (msg : string)
  | RecursionError
  | ExternalError (msg : string).

Inductive py (A : Type) :=
  | Ok (a : A)
  | Raise (e : exn).
Arguments Ok {A} a.
Arguments Raise {A} e.

#[global] Instance py_ret : MRet py := λ A a, Ok a.

#[global] Instance py_bind : MBind py := λ A B k m,
  match m with
  | Ok a => k a
  | Raise e => Raise e
  end.

(** [str(KeyError(k))] is the repr of the key; for a key without quotes or
    escapes that is the key between single quotes. *)
Definition py_str (e : exn) : string :=
  match e with
  | ValueError m | TypeError m | AttributeError m | ExternalError m => m
  | KeyError k => "'" +:+ k +:+ "'"
  | RecursionError => "maximum recursion depth exceeded"
  end.


(** A Python [dict] with string keys: an association list in insertion
    order, each key at most once. *)
Abbreviation dict V := (list (string * V)).

Fixpoint dict_get {V} (d : dict V) (k : string) : option V :=
  match d with
  | [] => None
  | (k', v) :: d' => if decide (k' = k) then Some v else dict_get d' k
  end.

(** [d[k] = v]: an existing key keeps its position. *)
Fixpoint dict_set {V} (d : dict V) (k : string) (v : V) : dict V :=
  match d with
  | [] => [(k, v)]
  | (k', v') :: d' =>
      if decide (k' = k) then (k, v) :: d' else (k', v') :: dict_set d' k v
  end.

Definition dict_keys {V} (d : dict V) : list string := d.*1.

(** JSON-like payloads: task parameters and results. *)
Inductive value :=
  | VNone
  | VBool (b : bool)
  | VInt (z : Z)
  | VFloat (f : float)
  | VStr (s : string)
  | VList (l : list value)
  | VDict (d : dict value).

(** Python truthiness ([bool(v)], [if v], [not v]). *)
Definition truthy (v : value) : bool :=
  match v with
  | VNone => false
  | VBool b => b
  | VInt z => negb (z =? 0)%Z
  | VFloat f => negb (PrimFloat.eqb f 0%float)
  | VStr s => negb (String.eqb s "")
  | VList l => negb (bool_decide (l = []))
  | VDict d => negb (bool_decide (d = []))
  end.

(** ** Data model ([app.models.workflow]) *)

Inductive TaskStatus := PENDING | RUNNING | COMPLETED | FAILED.

Inductive TaskType :=
  | PREPROCESS
  | EXTRACT_TEXT
  | ANALYZE_LAYOUT
  | UNDERSTAND_DOCUMENT
  | EXTRACT_FIELDS
  | EXTRACT_TABLES
  | VALIDATE_RESULTS
  | POSTPROCESS.

#[global] Instance TaskStatus_eq_dec : EqDecision TaskStatus.
Proof. solve_decision. Defined.

#[global] Instance TaskType_eq_dec : EqDecision TaskType.
Proof. solve_decision. Defined.

(** [TaskStatus.value] *)
Definition status_value (s : TaskStatus) : string :=
  match s with
  | PENDING => "pending"
  | RUNNING => "running"
  | COMPLETED => "completed"
  | FAILED => "failed"
  end.

(** A datetime is kept as its [isoformat()] text. *)
Abbreviation datetime := string (only parsing).

(** A task row.  [dependencies] lists the [dependency_task_id] of each of
    the task's [TaskDependency] rows, in relationship order. *)
Record Task := mkTask {
  task_id : string;
  task_type : TaskType;
  status : TaskStatus;
  params : dict value;
  result : option (dict value);
  error : option string;
  started_at : option datetime;
  completed_at : option datetime;
  updated_at : option datetime;
  dependencies : list string;
}.

Record Workflow := mkWorkflow {
  wf_id : string;
  wf_document_id : string;
  wf_status : TaskStatus;
  wf_error : option string;
  wf_created_at : option datetime;
  wf_updated_at : option datetime;
  wf_completed_at : option datetime;
  wf_tasks : list Task;
}.

(** ** Execution order ([WorkflowExecutor._get_execution_order]) *)

(** The mutable state of the topological sort: the two sets and the list. *)
Record visit_state := mkVisit {
  visited : gset string;
  temp_visited : gset string;
  order : list Task;
}.

(** [tasks_by_id = {task.id: task for task in workflow.tasks}] *)
Definition build_tasks_by_id (tasks : list Task) : dict Task :=
  foldl (λ d t, dict_set d (task_id t) t) [] tasks.

(** A Python [set] of ids is kept as the list of its elements in the order
    the set iterates them; [set_add] is [s.add(x)].  CPython's iteration
    order of a set of strings depends on the hash seed: the model takes
    insertion order, and the results below hold for every dependency list,
    hence for every enumeration of the set. *)
Definition set_add (x : string) (s : list string) : list string :=
  if decide (x ∈ s) then s else s ++ [x].

(** [dependencies = {task.id: set() ...}] followed by the loop that adds
    every [dependency.dependency_task_id]. *)
Definition build_dependencies (tasks : list Task) : dict (list string) :=
  let init := foldl (λ d t, dict_set d (task_id t) []) [] tasks in
  foldl
    (λ d t,
       foldl
         (λ d dep, dict_set d (task_id t)
                     (set_add dep (default [] (dict_get d (task_id t)))))
         d (dependencies t))
    init tasks.

Definition circular_msg : string :=
  "Circular dependency detected in workflow tasks".

(** A [for] loop whose body may raise or exhaust the recursion budget. *)
Fixpoint for_each {A S} (body : A → S → option (py S)) (l : list A) (s : S)
  : option (py S) :=
  match l with
  | [] => Some (Ok s)
  | a :: l' =>
      match body a s with
      | Some (Ok s') => for_each body l' s'
      | r => r
      end
  end.

(** The nested function [visit]; [fuel] bounds the recursion depth and
    [None] means the bound was reached. *)
Fixpoint visit (fuel : nat) (tasks_by_id : dict Task)
    (deps : dict (list string)) (tid : string) (st : visit_state)
  : option (py visit_state) :=
  match fuel with
  | O => None
  | S fuel' =>
      if decide (tid ∈ temp_visited st) then
        Some (Raise (ValueError circular_msg))
      else if decide (tid ∈ visited st) then Some (Ok st)
      else
        let st1 := mkVisit (visited st) ({[tid]} ∪ temp_visited st) (order st) in
        match dict_get deps tid with
        | None => Some (Raise (KeyError tid))
        | Some ds =>
            match for_each (visit fuel' tasks_by_id deps) ds st1 with
            | Some (Ok st2) =>
                match dict_get tasks_by_id tid with
                | None => Some (Raise (KeyError tid))
                | Some t =>
                    Some (Ok (mkVisit ({[tid]} ∪ visited st2)
                                      (temp_visited st2 ∖ {[tid]})
                                      (order st2 ++ [t])))
                end
            | r => r
            end
        end
  end.

(** The loop [for task_id in tasks_by_id: if task_id not in visited: ...]. *)
Definition visit_roots (fuel : nat) (tasks_by_id : dict Task)
    (deps : dict (list string)) (st : visit_state) : option (py visit_state) :=
  for_each
    (λ tid st, if decide (tid ∈ visited st) then Some (Ok st)
               else visit fuel tasks_by_id deps tid st)
    (dict_keys tasks_by_id) st.

(** [_get_execution_order]: the recursion of [visit] is at most one frame
    per task deep, so the budget below is never reached
    ([get_execution_order_no_recursion_error]).  The interpreter's own
    limit on the depth of the stack (1000 frames by default) is not
    modelled: a workflow has one task per processing stage. *)
Definition _get_execution_order (workflow : Workflow) : py (list Task) :=
  let tasks_by_id := build_tasks_by_id (wf_tasks workflow) in
  let deps := build_dependencies (wf_tasks workflow) in
  match visit_roots (S (length (wf_tasks workflow))) tasks_by_id deps
          (mkVisit ∅ ∅ []) with
  | None => Raise RecursionError
  | Some (Raise e) => Raise e
  | Some (Ok st) => Ok (reverse (order st))
  end.

(** *** Dependency relation of a task list *)

(** [depends_on tasks a b]: the task with id [a] lists [b] as a dependency. *)
Definition depends_on (tasks : list Task) (a b : string) : Prop :=
  ∃ t, t ∈ tasks ∧ task_id t = a ∧ b ∈ dependencies t.

Definition has_cycle (tasks : list Task) : Prop :=
  ∃ a, tc (depends_on tasks) a a.

(** Every dependency id names a task of the same workflow. *)
Definition deps_closed (tasks : list Task) : Prop :=
  ∀ t d, t ∈ tasks → d ∈ dependencies t → d ∈ task_id <$> tasks.

(** ** Python operations on payload values *)

Definition type_name (v : value) : string :=
  match v with
  | VNone => "NoneType"
  | VBool _ => "bool"
  | VInt _ => "int"
  | VFloat _ => "float"
  | VStr _ => "str"
  | VList _ => "list"
  | VDict _ => "dict"
  end.

Definition no_attribute (v : value) (attr : string) : exn :=
  AttributeError
    ("'" +:+ type_name v +:+ "' object has no attribute '" +:+ attr +:+ "'").

(** [v.get(k, dflt)]: only a dict has the method. *)
Definition py_get (v : value) (k : string) (dflt : value) : py value :=
  match v with
  | VDict d => Ok (default dflt (dict_get d k))
  | _ => Raise (no_attribute v "get")
  end.

(** [d.get(k, dflt)] on a value known to be a dict. *)
Definition dict_get_or (d : dict value) (k : string) (dflt : value) : value :=
  default dflt (dict_get d k).

(** [for x in l: body] over a list, in the [py] monad. *)
Fixpoint py_fold {A S} (body : S → A → py S) (s : S) (l : list A) : py S :=
  match l with
  | [] => Ok s
  | a :: l' => s' ← body s a; py_fold body s' l'
  end.

(** [[f(x) for x in l]] *)
Fixpoint py_map {A B} (f : A → py B) (l : list A) : py (list B) :=
  match l with
  | [] => Ok []
  | a :: l' => b ← f a; bs ← py_map f l'; Ok (b :: bs)
  end.

(** ** Characters of a text

    A text is kept as the bytes of its UTF-8 encoding; the characters of
    the Python [str] are its code points, which [re] and [float] work
    on. *)

(** Inside a multi-byte sequence: the continuation bytes still to come,
    the bits read so far, and the bytes read so far, last one first. *)
Record utf8_state := mkUtf8 {
  more : nat;
  bits : N;
  seen : list N;
}.

(** A byte that is not part of a well-formed sequence stands for itself,
    as the lone surrogate U+DC80 to U+DCFF that Python's
    [surrogateescape] gives it; no such byte occurs in the encoding of a
    [str]. *)
Definition escape (b : N) : N := (0xDC00 + b)%N.

Definition is_cont (b : N) : bool := ((0x80 <=? b) && (b <=? 0xBF))%N.

(** What a byte starts when no sequence is open. *)
Definition utf8_start (b : N) : list N * option utf8_state :=
  if (b <? 0x80)%N then ([b], None)
  else if ((0xC2 <=? b) && (b <=? 0xDF))%N
       then ([], Some (mkUtf8 1 (b - 0xC0) [b]))
  else if ((0xE0 <=? b) && (b <=? 0xEF))%N
       then ([], Some (mkUtf8 2 (b - 0xE0) [b]))
  else if ((0xF0 <=? b) && (b <=? 0xF4))%N
       then ([], Some (mkUtf8 3 (b - 0xF0) [b]))
  else ([escape b], None).

(** Shortest form, no surrogate, at most U+10FFFF. *)
Definition scalar_ok (len : nat) (cp : N) : bool :=
  match len with
  | 2 => (0x80 <=? cp)%N
  | 3 => ((0x800 <=? cp) && negb ((0xD800 <=? cp) && (cp <=? 0xDFFF)))%N
  | 4 => ((0x10000 <=? cp) && (cp <=? 0x10FFFF))%N
  | _ => false
  end.

Fixpoint utf8_decode (st : option utf8_state) (s : string) : list N :=
  match s with
  | EmptyString =>
      match st with
      | Some q => escape <$> reverse (seen q)
      | None => []
      end
  | String c s' =>
      let b := N_of_ascii c in
      match st with
      | Some q =>
          if is_cont b then
            let bits' := (bits q * 64 + (b - 0x80))%N in
            match more q with
            | S (S m) => utf8_decode (Some (mkUtf8 (S m) bits' (b :: seen q))) s'
            | _ =>
                (if scalar_ok (S (length (seen q))) bits' then [bits']
                 else escape <$> reverse (b :: seen q))
                ++ utf8_decode None s'
            end
          else
            (escape <$> reverse (seen q))
            ++ (utf8_start b).1 ++ utf8_decode (utf8_start b).2 s'
      | None => (utf8_start b).1 ++ utf8_decode (utf8_start b).2 s'
      end
  end.

(** The characters of a text. *)
Definition code_points (s : string) : list N := utf8_decode None s.

(** The characters of a text as one-character texts: a byte that is not
    a continuation byte begins a character. *)
Fixpoint characters (s : string) : list string :=
  match s with
  | EmptyString => []
  | String c s' =>
      let continued :=
        match s' with
        | String c' _ => is_cont (N_of_ascii c')
        | EmptyString => false
        end in
      match characters s' with
      | ch :: chs =>
          if continued then String c ch :: chs
          else String c EmptyString :: ch :: chs
      | [] => [String c EmptyString]
      end
  end.

(** The elements a [for] loop sees: list items, the characters of a
    string, the keys of a dict. *)
Definition py_iter (v : value) : py (list value) :=
  match v with
  | VList l => Ok l
  | VStr s => Ok (VStr <$> characters s)
  | VDict d => Ok (VStr <$> dict_keys d)
  | _ => Raise (TypeError ("'" +:+ type_name v +:+ "' object is not iterable"))
  end.

(** ** Regular expressions ([re.fullmatch])

    Patterns and texts are [str], so [re] works on code points: [\d] is a
    decimal digit of any script and [\s] any Unicode white space. *)

Inductive regex :=
  | ReNone
  | ReEps
  | ReSym (p : N → bool)
  | ReSeq (r1 r2 : regex)
  | ReAlt (r1 r2 : regex)
  | ReStar (r : regex).

Fixpoint nullable (r : regex) : bool :=
  match r with
  | ReNone => false
  | ReEps => true
  | ReSym _ => false
  | ReSeq r1 r2 => nullable r1 && nullable r2
  | ReAlt r1 r2 => nullable r1 || nullable r2
  | ReStar _ => true
  end.

(** Brzozowski derivative. *)
Fixpoint deriv (c : N) (r : regex) : regex :=
  match r with
  | ReNone | ReEps => ReNone
  | ReSym p => if p c then ReEps else ReNone
  | ReSeq r1 r2 =>
      if nullable r1 then ReAlt (ReSeq (deriv c r1) r2) (deriv c r2)
      else ReSeq (deriv c r1) r2
  | ReAlt r1 r2 => ReAlt (deriv c r1) (deriv c r2)
  | ReStar r1 => ReSeq (deriv c r1) (ReStar r1)
  end.

Fixpoint fullmatch (r : regex) (s : list N) : bool :=
  match s with
  | [] => nullable r
  | c :: s' => fullmatch (deriv c r) s'
  end.

Definition ReChr (c : ascii) : regex := ReSym (N.eqb (N_of_ascii c)).
Definition ReOpt (r : regex) : regex := ReAlt ReEps r.
Definition RePlus (r : regex) : regex := ReSeq r (ReStar r).

Fixpoint ReRep (n : nat) (r : regex) : regex :=
  match n with
  | O => ReEps
  | S n' => ReSeq r (ReRep n' r)
  end.

(** A literal text, character by character. *)
Definition ReLit (s : string) : regex :=
  foldr (λ c r, ReSeq (ReSym (N.eqb c)) r) ReEps (code_points s).

Definition in_ranges (ranges : list (N * N)) (c : N) : bool :=
  existsb (λ r, (r.1 <=? c) && (c <=? r.2))%N ranges.

(** The decimal digits (category Nd) of Unicode 14.0, which CPython 3.11
    has: the ASCII digits and those of sixty other scripts and styles. *)
Definition decimal_digits : list (N * N) :=
  [ (48, 57); (1632, 1641); (1776, 1785); (1984, 1993); (2406, 2415);
    (2534, 2543); (2662, 2671); (2790, 2799); (2918, 2927); (3046, 3055);
    (3174, 3183); (3302, 3311); (3430, 3439); (3558, 3567); (3664, 3673);
    (3792, 3801); (3872, 3881); (4160, 4169); (4240, 4249); (6112, 6121);
    (6160, 6169); (6470, 6479); (6608, 6617); (6784, 6793); (6800, 6809);
    (6992, 7001); (7088, 7097); (7232, 7241); (7248, 7257); (42528, 42537);
    (43216, 43225); (43264, 43273); (43472, 43481); (43504, 43513);
    (43600, 43609); (44016, 44025); (65296, 65305); (66720, 66729);
    (68912, 68921); (69734, 69743); (69872, 69881); (69942, 69951);
    (70096, 70105); (70384, 70393); (70736, 70745); (70864, 70873);
    (71248, 71257); (71360, 71369); (71472, 71481); (71904, 71913);
    (72016, 72025); (72784, 72793); (73040, 73049); (73120, 73129);
    (92768, 92777); (92864, 92873); (93008, 93017); (120782, 120831);
    (123200, 123209); (123632, 123641); (125264, 125273);
    (130032, 130041) ]%N.

(** The white space of [str.isspace]. *)
Definition white_space : list (N * N) :=
  [ (9, 13); (28, 32); (133, 133); (160, 160); (5760, 5760); (8192, 8202);
    (8232, 8233); (8239, 8239); (8287, 8287); (12288, 12288) ]%N.

Definition is_digit (c : N) : bool := in_ranges decimal_digits c.
Definition is_space (c : N) : bool := in_ranges white_space c.

Definition re_d : regex := ReSym is_digit.
Definition re_s : regex := ReSym is_space.

(** Case-insensitive literal letter. *)
Definition ReLetter (lower upper : ascii) : regex :=
  ReAlt (ReChr lower) (ReChr upper).

Definition re_seq (rs : list regex) : regex := foldr ReSeq ReEps rs.

(** [date_patterns] of [_is_valid_date]. *)
Definition date_patterns : list regex :=
  [ re_seq [ReRep 4 re_d; ReLit "-"; ReRep 2 re_d; ReLit "-"; ReRep 2 re_d];
    re_seq [ReRep 2 re_d; ReLit "/"; ReRep 2 re_d; ReLit "/"; ReRep 4 re_d];
    re_seq [ReRep 2 re_d; ReLit "-"; ReRep 2 re_d; ReLit "-"; ReRep 4 re_d];
    re_seq [ReRep 2 re_d; ReLit "."; ReRep 2 re_d; ReLit "."; ReRep 4 re_d] ].

(** [\d+(\.\d{2})?] *)
Definition re_amount : regex :=
  ReSeq (RePlus re_d) (ReOpt (ReSeq (ReLit ".") (ReRep 2 re_d))).

(** [currency_patterns] of [_is_valid_currency]. *)
Definition currency_patterns : list regex :=
  [ re_seq [ReLit "$"; re_amount];
    re_seq [re_amount; ReStar re_s; ReLit "USD"];
    re_seq [ReLit "€"; re_amount];
    re_seq [re_amount; ReStar re_s; ReLit "EUR"];
    re_seq [ReLit "£"; re_amount];
    re_seq [re_amount; ReStar re_s; ReLit "GBP"];
    re_amount ].

(** The text [float()] accepts: white space around an optionally signed
    decimal number (digits may be grouped by single underscores), [inf],
    [infinity] or [nan] in any case. *)
Definition re_digitpart : regex :=
  ReSeq re_d (ReStar (ReSeq (ReOpt (ReLit "_")) re_d)).

Definition re_sign : regex := ReAlt (ReLit "+") (ReLit "-").

Definition re_float : regex :=
  let number :=
    ReAlt (re_seq [ReOpt re_digitpart; ReLit "."; re_digitpart])
          (ReSeq re_digitpart (ReOpt (ReLit "."))) in
  let exponent := re_seq [ReLetter "e" "E"; ReOpt re_sign; re_digitpart] in
  let inf :=
    re_seq [ReLetter "i" "I"; ReLetter "n" "N"; ReLetter "f" "F";
            ReOpt (re_seq [ReLetter "i" "I"; ReLetter "n" "N"; ReLetter "i" "I";
                           ReLetter "t" "T"; ReLetter "y" "Y"])] in
  let nan := re_seq [ReLetter "n" "N"; ReLetter "a" "A"; ReLetter "n" "N"] in
  re_seq [ReStar re_s; ReOpt re_sign;
          ReAlt (ReSeq number (ReOpt exponent)) (ReAlt inf nan);
          ReStar re_s].

(** [value.replace(",", "")] *)
Fixpoint remove_commas (s : string) : string :=
  match s with
  | EmptyString => EmptyString
  | String c s' =>
      if Ascii.eqb c "," then remove_commas s' else String c (remove_commas s')
  end.

(** The error of [re.fullmatch] on a value that is not a text, as
    CPython 3.11 words it. *)
Definition not_a_string (v : value) : exn :=
  TypeError
    ("expected string or bytes-like object, got '" +:+ type_name v +:+ "'").

(** [_is_valid_date]: [re.fullmatch] raises [TypeError] on a non-string. *)
Definition _is_valid_date (v : value) : py bool :=
  match v with
  | VStr s => Ok (existsb (λ r, fullmatch r (code_points s)) date_patterns)
  | _ => Raise (not_a_string v)
  end.

Definition _is_valid_currency (v : value) : py bool :=
  match v with
  | VStr s => Ok (existsb (λ r, fullmatch r (code_points s)) currency_patterns)
  | _ => Raise (not_a_string v)
  end.

(** [_is_valid_number]: only [ValueError] and [TypeError] are caught, so
    the missing [replace] of a non-string propagates. *)
Definition _is_valid_number (v : value) : py bool :=
  match v with
  | VStr s => Ok (fullmatch re_float (code_points (remove_commas s)))
  | _ => Raise (no_attribute v "replace")
  end.

(** ** Validation of extraction results *)

(** One entry of the field tables of [_get_fields_to_extract]. *)
Record FieldDef := mkField {
  fd_name : string;
  fd_type : string;
  fd_required : bool;
}.

(** One entry of [_get_tables_to_extract]; a column is its name and type. *)
Record TableDef := mkTable {
  td_name : value;
  td_required : bool;
  td_columns : list (value * string);
}.

(** [v == s] for a string literal [s]. *)
Definition is_str (v : value) (s : string) : bool :=
  match v with
  | VStr s' => String.eqb s' s
  | _ => false
  end.

(** [_get_fields_to_extract(document_understanding)]: the validation stage
    passes no template id, so the fields come from the document type. *)
Definition _get_fields_to_extract (document_understanding : dict value)
  : list FieldDef :=
  let document_type :=
    dict_get_or document_understanding "document_type" (VStr "unknown") in
  if is_str document_type "invoice" then
    [ mkField "invoice_number" "string" true;
      mkField "date" "date" true;
      mkField "due_date" "date" false;
      mkField "total_amount" "currency" true;
      mkField "tax_amount" "currency" false;
      mkField "vendor_name" "string" true;
      mkField "vendor_address" "string" false;
      mkField "customer_name" "string" true;
      mkField "customer_address" "string" false ]
  else if is_str document_type "receipt" then
    [ mkField "receipt_number" "string" false;
      mkField "date" "date" true;
      mkField "total_amount" "currency" true;
      mkField "tax_amount" "currency" false;
      mkField "merchant_name" "string" true;
      mkField "merchant_address" "string" false;
      mkField "payment_method" "string" false ]
  else if is_str document_type "contract" then
    [ mkField "contract_number" "string" false;
      mkField "date" "date" true;
      mkField "effective_date" "date" false;
      mkField "expiration_date" "date" false;
      mkField "party_1" "string" true;
      mkField "party_2" "string" true;
      mkField "contract_type" "string" false;
      mkField "contract_value" "currency" false ]
  else
    [ mkField "title" "string" false;
      mkField "date" "date" false;
      mkField "author" "string" false ].

(** The table inferred from entry [i] of the understanding's [tables]. *)
Definition inferred_table (i : nat) (table : value) : py TableDef :=
  name ← py_get table "name" (VStr ("table_" +:+ pretty i));
  columns ← py_get table "columns" (VList []);
  cols ← py_iter columns;
  Ok (mkTable name false ((λ col, (col, "string")) <$> cols)).

(** [_get_tables_to_extract(document_understanding)], again without a
    template id. *)
Definition _get_tables_to_extract (document_understanding : dict value)
  : py (list TableDef) :=
  let document_type :=
    dict_get_or document_understanding "document_type" (VStr "unknown") in
  if is_str document_type "invoice" then
    Ok [ mkTable (VStr "line_items") true
           [ (VStr "description", "string"); (VStr "quantity", "number");
             (VStr "unit_price", "currency"); (VStr "total", "currency") ] ]
  else if is_str document_type "receipt" then
    Ok [ mkTable (VStr "items") true
           [ (VStr "description", "string"); (VStr "quantity", "number");
             (VStr "price", "currency") ] ]
  else
    let tables := dict_get_or document_understanding "tables" (VList []) in
    if truthy tables then
      items ← py_iter tables;
      py_map (λ '(i, table), inferred_table i table) (imap pair items)
    else Ok [].

(** The dict [validation_result] while it is built. *)
Record Validation := mkValidation {
  valid : bool;
  errors : list string;
  warnings : list string;
}.

Definition validation_value (v : Validation) : value :=
  VDict [ ("valid", VBool (valid v));
          ("errors", VList (VStr <$> errors v));
          ("warnings", VList (VStr <$> warnings v)) ].

Definition add_error (v : Validation) (msg : string) : Validation :=
  mkValidation false (errors v ++ [msg]) (warnings v).

Definition add_warning (v : Validation) (msg : string) : Validation :=
  mkValidation (valid v) (errors v) (warnings v ++ [msg]).

(** [name not in d or not d[name].get(key)] *)
Definition missing_or_empty (d : dict value) (name key : string) : py bool :=
  match dict_get d name with
  | None => Ok true
  | Some entry => x ← py_get entry key VNone; Ok (negb (truthy x))
  end.

Definition required_field_msg (name : string) : string :=
  "Required field '" +:+ name +:+ "' is missing or empty".

Definition required_table_msg (name : string) : string :=
  "Required table '" +:+ name +:+ "' is missing or empty".

Definition invalid_format_msg (name kind text : string) : string :=
  "Field '" +:+ name +:+ "' has invalid " +:+ kind +:+ " format: " +:+ text.

(** Body of the loop "Validate required fields". *)
Definition check_required_field (fields_result : dict value)
    (acc : Validation) (fd : FieldDef) : py Validation :=
  if fd_required fd then
    missing ← missing_or_empty fields_result (fd_name fd) "value";
    Ok (if missing : bool then add_error acc (required_field_msg (fd_name fd))
        else acc)
  else Ok acc.

(** Body of the loop "Validate required tables".  A required table always
    has a literal string name; [x not in d] on an unhashable name raises. *)
Definition check_required_table (tables_result : dict value)
    (acc : Validation) (td : TableDef) : py Validation :=
  if td_required td then
    match td_name td with
    | VStr name =>
        missing ← missing_or_empty tables_result name "rows";
        Ok (if missing : bool then add_error acc (required_table_msg name)
            else acc)
    | other => Raise (TypeError ("unhashable type: '" +:+ type_name other +:+ "'"))
    end
  else Ok acc.

(** The text of a value inside an f-string, for the strings that reach it. *)
Definition value_text (v : value) : string :=
  match v with
  | VStr s => s
  | _ => ""
  end.

(** Body of the loop "Validate field types". *)
Definition check_field_type (fields_result : dict value)
    (acc : Validation) (fd : FieldDef) : py Validation :=
  match dict_get fields_result (fd_name fd) with
  | None => Ok acc
  | Some entry =>
      v ← py_get entry "value" VNone;
      if truthy v then
        if String.eqb (fd_type fd) "date" then
          ok ← _is_valid_date v;
          Ok (if ok : bool then acc
              else add_warning acc
                     (invalid_format_msg (fd_name fd) "date" (value_text v)))
        else if String.eqb (fd_type fd) "currency" then
          ok ← _is_valid_currency v;
          Ok (if ok : bool then acc
              else add_warning acc
                     (invalid_format_msg (fd_name fd) "currency" (value_text v)))
        else if String.eqb (fd_type fd) "number" then
          ok ← _is_valid_number v;
          Ok (if ok : bool then acc
              else add_warning acc
                     (invalid_format_msg (fd_name fd) "number" (value_text v)))
        else Ok acc
      else Ok acc
  end.

(** [_validate_extraction_results] *)
Definition _validate_extraction_results
    (fields_result tables_result understanding_result : dict value)
  : py value :=
  let validation_result := mkValidation true [] [] in
  let fields_to_extract := _get_fields_to_extract understanding_result in
  v1 ← py_fold (check_required_field fields_result) validation_result
         fields_to_extract;
  tables_to_extract ← _get_tables_to_extract understanding_result;
  v2 ← py_fold (check_required_table tables_result) v1 tables_to_extract;
  v3 ← py_fold (check_field_type fields_result) v2 fields_to_extract;
  Ok (validation_value v3).

(** ** Task executors *)

Definition find_task (tasks : list Task) (tid : string) : option Task :=
  List.find (λ t, bool_decide (task_id t = tid)) tasks.

(** [_get_dependency_task]: the first dependency of the given type.  The
    relationship [dependency.dependency_task] is the task row with the
    dependency's id; on a dangling id it is [None], whose [task_type]
    does not exist. *)
Fixpoint dependency_of_type (tasks : list Task) (deps : list string)
    (ty : TaskType) : py (option Task) :=
  match deps with
  | [] => Ok None
  | d :: deps' =>
      match find_task tasks d with
      | None => Raise (no_attribute VNone "task_type")
      | Some t =>
          if decide (task_type t = ty) then Ok (Some t)
          else dependency_of_type tasks deps' ty
      end
  end.

Definition _get_dependency_task (tasks : list Task) (task : Task)
    (ty : TaskType) : py (option Task) :=
  dependency_of_type tasks (dependencies task) ty.

(** The recurring guard
    [if not dep_task or not dep_task.result: raise ValueError(msg)]. *)
Definition dependency_result (tasks : list Task) (task : Task)
    (ty : TaskType) (msg : string) : py (dict value) :=
  dep ← _get_dependency_task tasks task ty;
  match dep with
  | Some t =>
      match result t with
      | Some (kv :: r) => Ok (kv :: r)
      | _ => Raise (ValueError msg)
      end
  | None => Raise (ValueError msg)
  end.

(** [_format_extraction_results] *)
Definition format_field (acc : dict value) (item : string * value)
  : py (dict value) :=
  let '(field_name, field_data) := item in
  v ← py_get field_data "value" VNone;
  c ← py_get field_data "confidence" (VFloat 0);
  let entry := [("value", v); ("confidence", c)] in
  let entry :=
    match field_data with
    | VDict d =>
        match dict_get d "bounding_box" with
        | Some bb => dict_set entry "bounding_box" bb
        | None => entry
        end
    | _ => entry
    end in
  Ok (dict_set acc field_name (VDict entry)).

Definition format_table (acc : dict value) (item : string * value)
  : py (dict value) :=
  let '(table_name, table_data) := item in
  h ← py_get table_data "headers" (VList []);
  r ← py_get table_data "rows" (VList []);
  c ← py_get table_data "confidence" (VFloat 0);
  Ok (dict_set acc table_name
        (VDict [("headers", h); ("rows", r); ("confidence", c)])).

(** [v.items()] *)
Definition py_items (v : value) : py (dict value) :=
  match v with
  | VDict d => Ok d
  | _ => Raise (no_attribute v "items")
  end.

Definition _format_extraction_results (validation_result : dict value)
  : py (dict value) :=
  let document_type := dict_get_or validation_result "document_type" (VStr "unknown") in
  let fields := dict_get_or validation_result "fields" (VDict []) in
  let tables := dict_get_or validation_result "tables" (VDict []) in
  let validation := dict_get_or validation_result "validation" (VDict []) in
  let confidence := dict_get_or validation_result "confidence" (VFloat 0) in
  field_items ← py_items fields;
  formatted_fields ← py_fold format_field [] field_items;
  table_items ← py_items tables;
  formatted_tables ← py_fold format_table [] table_items;
  is_valid ← py_get validation "valid" (VBool true);
  errs ← py_get validation "errors" (VList []);
  warns ← py_get validation "warnings" (VList []);
  Ok [ ("document_type", document_type);
       ("fields", VDict formatted_fields);
       ("tables", VDict formatted_tables);
       ("validation",
        VDict [("valid", is_valid); ("errors", errs); ("warnings", warns)]);
       ("confidence", confidence) ].

(** [_execute_postprocess_task].  The update of the workflow's document
    row (status and serialized results) touches no task or workflow field
    and is left out. *)
Definition _execute_postprocess_task (tasks : list Task) (task : Task)
  : py (dict value) :=
  validation_result ←
    dependency_result tasks task VALIDATE_RESULTS "Validation task result not found";
  _format_extraction_results validation_result.

Section executors.
(** Python's float arithmetic is taken as given: [py_sum l] is [sum(l)]
    and [py_truediv x n] is [x / n] for the length [n] of a list. *)
Variable py_sum : list value → py value.
Variable py_truediv : value → nat → py value.

(** [_calculate_confidence] *)
Definition _calculate_confidence (fields_result tables_result : dict value)
  : py value :=
  field_confidences ←
    py_map (λ field, py_get field "confidence" (VFloat 0)) fields_result.*2;
  table_confidences ←
    py_map (λ table, py_get table "confidence" (VFloat 0)) tables_result.*2;
  let all_confidences := field_confidences ++ table_confidences in
  match all_confidences with
  | [] => Ok (VFloat 0)
  | _ => total ← py_sum all_confidences;
         py_truediv total (length all_confidences)
  end.

(** The dict [combined_result]. *)
Definition combined_result
    (fields_result tables_result understanding_result : dict value)
    (validation_result : value) : py (dict value) :=
  confidence ← _calculate_confidence fields_result tables_result;
  Ok [ ("document_type",
        dict_get_or understanding_result "document_type" (VStr "unknown"));
       ("fields", VDict fields_result);
       ("tables", VDict tables_result);
       ("validation", validation_result);
       ("confidence", confidence) ].

(** [_execute_validate_results_task].  [llm] is what
    [reasoning_engine.initialize()] followed by
    [reasoning_engine.validate_extraction(...)] does: the value returned or
    the exception raised; any exception of the [try] block leads to the
    basic validation of the [except] block. *)
Definition _execute_validate_results_task (tasks : list Task) (task : Task)
    (llm : py value) : py (dict value) :=
  fields_result ←
    dependency_result tasks task EXTRACT_FIELDS "Field extraction task result not found";
  tables_result ←
    dependency_result tasks task EXTRACT_TABLES "Table extraction task result not found";
  understanding_result ←
    dependency_result tasks task UNDERSTAND_DOCUMENT
      "Document understanding task result not found";
  text_result ←
    dependency_result tasks task EXTRACT_TEXT "Text extraction task result not found";
  let basic :=
    validation_result ←
      _validate_extraction_results fields_result tables_result understanding_result;
    combined_result fields_result tables_result understanding_result
      validation_result in
  let attempt :=
    validation_result ← llm;
    validation_result ←
      (if truthy validation_result then Ok validation_result
       else _validate_extraction_results fields_result tables_result
              understanding_result);
    combined_result fields_result tables_result understanding_result
      validation_result in
  match attempt with
  | Ok r => Ok r
  | Raise _ => basic
  end.

(** What the environment contributes to one executor call: the outcome of
    the external processor behind the first six task types, and the
    outcome of the LLM validation call. *)
Record Oracle := mkOracle {
  external : py (dict value);
  llm_validation : py value;
}.

(** [await self.task_executors[task.task_type](task)].  The executors of
    the first six types wrap external processors (OCR, layout, LLM); their
    outcome is the oracle's. *)
Definition run_executor (tasks : list Task) (task : Task) (o : Oracle)
  : py (dict value) :=
  match task_type task with
  | VALIDATE_RESULTS =>
      _execute_validate_results_task tasks task (llm_validation o)
  | POSTPROCESS => _execute_postprocess_task tasks task
  | _ => external o
  end.

End executors.

(** ** The engine: task state and [_execute_task] *)

(** Modelled from the spec: [Task.can_execute] of [app.models.workflow],
    which is not among the sources.  The spec's [CanRun]: true iff the
    status is Pending and every dependency task's status is Completed.
    A dependency id that names no task of the workflow counts as not
    completed. *)
Definition can_execute (tasks : list Task) (t : Task) : bool :=
  bool_decide (status t = PENDING) &&
  forallb
    (λ d, match find_task tasks d with
          | Some t' => bool_decide (status t' = COMPLETED)
          | None => false
          end)
    (dependencies t).

(** The three assignments [_execute_task] makes to a task. *)
Definition mark_running (now : datetime) (t : Task) : Task :=
  mkTask (task_id t) (task_type t) RUNNING (params t) (result t) (error t)
    (Some now) (completed_at t) (updated_at t) (dependencies t).

Definition mark_completed (r : dict value) (now : datetime) (t : Task) : Task :=
  mkTask (task_id t) (task_type t) COMPLETED (params t) (Some r) (error t)
    (started_at t) (Some now) (updated_at t) (dependencies t).

Definition mark_failed (msg : string) (now : datetime) (t : Task) : Task :=
  mkTask (task_id t) (task_type t) FAILED (params t) (result t) (Some msg)
    (started_at t) (completed_at t) (Some now) (dependencies t).

(** A task object is shared by [workflow.tasks] and the coroutine that
    runs it; with ids unique (the primary key) an assignment to the object
    is an update of the row with its id. *)
Definition update_task (tid : string) (f : Task → Task) (tasks : list Task)
  : list Task :=
  (λ t, if decide (task_id t = tid) then f t else t) <$> tasks.

Definition set_tasks (w : Workflow) (tasks : list Task) : Workflow :=
  mkWorkflow (wf_id w) (wf_document_id w) (wf_status w) (wf_error w)
    (wf_created_at w) (wf_updated_at w) (wf_completed_at w) tasks.

Definition workflow_running (now : datetime) (w : Workflow) : Workflow :=
  mkWorkflow (wf_id w) (wf_document_id w) RUNNING (wf_error w)
    (wf_created_at w) (Some now) (wf_completed_at w) (wf_tasks w).

Definition workflow_completed (now : datetime) (w : Workflow) : Workflow :=
  mkWorkflow (wf_id w) (wf_document_id w) COMPLETED (wf_error w)
    (wf_created_at w) (wf_updated_at w) (Some now) (wf_tasks w).

Definition workflow_failed (msg : string) (now : datetime) (w : Workflow)
  : Workflow :=
  mkWorkflow (wf_id w) (wf_document_id w) FAILED (Some msg)
    (wf_created_at w) (Some now) (wf_completed_at w) (wf_tasks w).

Definition opt_str (o : option string) : value :=
  match o with
  | Some s => VStr s
  | None => VNone
  end.

(** [_get_workflow_results] *)
Definition _get_workflow_results (w : Workflow) : dict value :=
  let summary :=
    [ ("status", VStr (status_value (wf_status w)));
      ("error", opt_str (wf_error w));
      ("completed_at", opt_str (wf_completed_at w)) ] in
  match List.find
          (λ t, bool_decide (task_type t = POSTPROCESS) &&
                bool_decide (status t = COMPLETED))
          (wf_tasks w) with
  | Some postprocess_task =>
      match result postprocess_task with
      | Some (kv :: r) => kv :: r
      | _ => summary
      end
  | None => summary
  end.

(** ** The engine: [execute_workflow] as a transition system

    [execute_workflow] starts one coroutine per task of the execution
    order and awaits them with [asyncio.gather].  A coroutine runs
    [_execute_task_with_semaphore]; the places where it can be suspended
    cut it into the steps below, and any interleaving of the steps of
    different coroutines that asyncio can produce is a sequence of
    events. *)

(** Where a task's coroutine stands. *)
Inductive CoroPc :=
  | Queued                          (* before [async with semaphore] *)
  | Holding                         (* semaphore acquired, [_execute_task] not begun *)
  | Awaiting                        (* task Running, inside [await executor(task)] *)
  | Leaving (raised : option exn)   (* [_execute_task] over, semaphore still held *)
  | Finished (raised : option exn).

(** Where [execute_workflow] itself stands. *)
Inductive MainPc :=
  | Gathering
  | Returned (v : dict value)
  | Raised (e : exn).

Record ExecState := mkExec {
  workflow : Workflow;
  sem_value : nat;
  coros : dict CoroPc;
  gather_exception : option exn;
  main : MainPc;
}.

Section engine.
Variable py_sum : list value → py value.
Variable py_truediv : value → nat → py value.

Inductive Event :=
  | Acquire (tid : string)
  | Begin (tid : string) (now : datetime)
  | Finish (tid : string) (o : Oracle) (now : datetime)
  | Release (tid : string)
  | Resume (now : datetime).

Definition set_coro (s : ExecState) (tid : string) (pc : CoroPc) : dict CoroPc :=
  dict_set (coros s) tid pc.

(** [_execute_task] up to [await executor(task)]: the guard, then the
    transition to Running.  A task that cannot be executed is left alone
    and the coroutine returns normally. *)
Definition begin_task (s : ExecState) (t : Task) (now : datetime) : ExecState :=
  let tasks := wf_tasks (workflow s) in
  if can_execute tasks t then
    mkExec (set_tasks (workflow s) (update_task (task_id t) (mark_running now) tasks))
      (sem_value s) (set_coro s (task_id t) Awaiting)
      (gather_exception s) (main s)
  else
    mkExec (workflow s) (sem_value s) (set_coro s (task_id t) (Leaving None))
      (gather_exception s) (main s).

(** [_execute_task] from the executor's outcome on: Completed with the
    result, or Failed with the error, which is raised again. *)
Definition finish_task (s : ExecState) (t : Task) (o : Oracle) (now : datetime)
  : ExecState :=
  let tasks := wf_tasks (workflow s) in
  match run_executor py_sum py_truediv tasks t o with
  | Ok r =>
      mkExec (set_tasks (workflow s)
                (update_task (task_id t) (mark_completed r now) tasks))
        (sem_value s) (set_coro s (task_id t) (Leaving None))
        (gather_exception s) (main s)
  | Raise e =>
      mkExec (set_tasks (workflow s)
                (update_task (task_id t) (mark_failed (py_str e) now) tasks))
        (sem_value s) (set_coro s (task_id t) (Leaving (Some e)))
        (gather_exception s) (main s)
  end.

Definition all_finished_ok (cs : dict CoroPc) : bool :=
  forallb (λ c, match c.2 with Finished None => true | _ => false end) cs.

(** The continuation of [execute_workflow] after [await asyncio.gather]:
    [gather] hands over the first exception a coroutine ended with, or
    returns once all have ended. *)
Definition resume_main (s : ExecState) (now : datetime) : option ExecState :=
  match main s with
  | Gathering =>
      match gather_exception s with
      | Some e =>
          Some (mkExec (workflow_failed (py_str e) now (workflow s))
                  (sem_value s) (coros s) (gather_exception s) (Raised e))
      | None =>
          if all_finished_ok (coros s) then
            let w := workflow_completed now (workflow s) in
            Some (mkExec w (sem_value s) (coros s) None
                    (Returned (_get_workflow_results w)))
          else None
      end
  | _ => None
  end.

(** One step; [None] when the event is not enabled in [s]. *)
Definition step (s : ExecState) (ev : Event) : option ExecState :=
  match ev with
  | Acquire tid =>
      match dict_get (coros s) tid, sem_value s with
      | Some Queued, S n =>
          Some (mkExec (workflow s) n (set_coro s tid Holding)
                  (gather_exception s) (main s))
      | _, _ => None
      end
  | Begin tid now =>
      match dict_get (coros s) tid, find_task (wf_tasks (workflow s)) tid with
      | Some Holding, Some t => Some (begin_task s t now)
      | _, _ => None
      end
  | Finish tid o now =>
      match dict_get (coros s) tid, find_task (wf_tasks (workflow s)) tid with
      | Some Awaiting, Some t => Some (finish_task s t o now)
      | _, _ => None
      end
  | Release tid =>
      match dict_get (coros s) tid with
      | Some (Leaving raised) =>
          Some (mkExec (workflow s) (S (sem_value s))
                  (set_coro s tid (Finished raised))
                  (match gather_exception s with
                   | Some e => Some e
                   | None => raised
                   end)
                  (main s))
      | _ => None
      end
  | Resume now => resume_main s now
  end.

Fixpoint run (s : ExecState) (evs : list Event) : option ExecState :=
  match evs with
  | [] => Some s
  | ev :: evs' =>
      match step s ev with
      | Some s' => run s' evs'
      | None => None
      end
  end.

(** [execute_workflow] up to [await asyncio.gather(...)]: the lookup (a
    missing workflow raises before anything is written), the transition to
    Running, and the execution order; an exception of
    [_get_execution_order] is handled by the [except] block at once.
    [now] and [later] are the two readings of the clock. *)
Definition execute_workflow_start (db : gmap string Workflow)
    (workflow_id : string) (max_concurrency : nat) (now later : datetime)
  : py ExecState :=
  match db !! workflow_id with
  | None => Raise (ValueError ("Workflow not found: " +:+ workflow_id))
  | Some w =>
      let w := workflow_running now w in
      match _get_execution_order w with
      | Ok tasks =>
          Ok (mkExec w max_concurrency
                ((λ t, (task_id t, Queued)) <$> tasks) None Gathering)
      | Raise e =>
          Ok (mkExec (workflow_failed (py_str e) later w) max_concurrency
                [] None (Raised e))
      end
  end.

(** [_execute_task] run without interruption, as when the executor never
    suspends: what the call does to the tasks, and whether it raises. *)
Definition _execute_task (tasks : list Task) (t : Task) (o : Oracle)
    (now later : datetime) : list Task * py unit :=
  if can_execute tasks t then
    let tasks := update_task (task_id t) (mark_running now) tasks in
    match run_executor py_sum py_truediv tasks (mark_running now t) o with
    | Ok r => (update_task (task_id t) (mark_completed r later) tasks, Ok tt)
    | Raise e =>
        (update_task (task_id t) (mark_failed (py_str e) later) tasks, Raise e)
    end
  else (tasks, Ok tt).

End engine.

(** ** Status query ([workflow_service.get_workflow_status]) *)

Definition count_status (st : TaskStatus) (tasks : list Task) : nat :=
  length (filter (λ t, status t = st) tasks).

Definition float_of_nat (n : nat) : float :=
  PrimFloat.of_uint63 (Uint63.of_Z (Z.of_nat n)).

(** [(completed / total) * 100], or the integer [0] for an empty workflow. *)
Definition progress_of (completed total : nat) : value :=
  if (0 <? total)%nat then
    VFloat (PrimFloat.mul (PrimFloat.div (float_of_nat completed) (float_of_nat total))
              (float_of_nat 100))
  else VInt 0.

Definition get_workflow_status (db : gmap string Workflow)
    (workflow_id : string) : dict value :=
  match db !! workflow_id with
  | None =>
      [ ("workflow_id", VStr workflow_id); ("status", VStr "not_found") ]
  | Some w =>
      let tasks := wf_tasks w in
      let task_counts :=
        [ ("total", VInt (Z.of_nat (length tasks)));
          ("pending", VInt (Z.of_nat (count_status PENDING tasks)));
          ("running", VInt (Z.of_nat (count_status RUNNING tasks)));
          ("completed", VInt (Z.of_nat (count_status COMPLETED tasks)));
          ("failed", VInt (Z.of_nat (count_status FAILED tasks))) ] in
      [ ("workflow_id", VStr workflow_id);
        ("document_id", VStr (wf_document_id w));
        ("status", VStr (status_value (wf_status w)));
        ("created_at", opt_str (wf_created_at w));
        ("updated_at", opt_str (wf_updated_at w));
        ("completed_at", opt_str (wf_completed_at w));
        ("error", opt_str (wf_error w));
        ("task_counts", VDict task_counts);
        ("progress", progress_of (count_status COMPLETED tasks) (length tasks)) ]
  end.

(** ** The executors of the processing stages

    Each executor checks its parameters and the results of its
    dependencies, calls an external processor and checks what comes back.
    The external calls are parameters: a function from the arguments of
    the call to the value returned or the exception raised. *)

Definition missing_document_path : exn :=
  ValueError "Document path not specified in task parameters".

(** [document_path = task.params.get("document_path")] with the guard
    [if not document_path: raise ValueError(...)]. *)
Definition document_path_of (task : Task) : py value :=
  let document_path := dict_get_or (params task) "document_path" VNone in
  if truthy document_path then Ok document_path
  else Raise missing_document_path.

(** The guard [if not result or "text" not in result: raise ValueError(msg)]. *)
Definition require_text (msg : string) (r : dict value) : py (dict value) :=
  match r with
  | [] => Raise (ValueError msg)
  | _ => if decide ("text" ∈ dict_keys r) then Ok r else Raise (ValueError msg)
  end.

(** The guard [if not result: raise ValueError(msg)]. *)
Definition require_nonempty (msg : string) (r : dict value) : py (dict value) :=
  match r with
  | [] => Raise (ValueError msg)
  | _ => Ok r
  end.

(** [_execute_preprocess_task]; [process] is
    [DocumentPreprocessor().process]. *)
Definition _execute_preprocess_task (process : value → py (dict value))
    (task : Task) : py (dict value) :=
  document_path ← document_path_of task;
  preprocess_result ← process document_path;
  require_text "Invalid preprocessing result: missing text" preprocess_result.

Definition image_extensions : list string :=
  [".png"; ".jpg"; ".jpeg"; ".tiff"; ".bmp"; ".gif"].

(** [_execute_extract_text_task]; [extension] is
    [os.path.splitext(document_path)[1].lower()], [pdf] and [ocr] are the
    two text extractors. *)
Definition _execute_extract_text_task (extension : value → py string)
    (pdf ocr : value → py (dict value)) (tasks : list Task) (task : Task)
  : py (dict value) :=
  document_path ← document_path_of task;
  preprocess_result ←
    dependency_result tasks task PREPROCESS "Preprocess task result not found";
  ext ← extension document_path;
  text_result ←
    (if String.eqb ext ".pdf" then pdf document_path
     else if bool_decide (ext ∈ image_extensions) then ocr document_path
     else
       match dict_get preprocess_result "text" with
       | Some text =>
           Ok [ ("text", text);
                ("pages", VList [VDict [("text", text); ("page", VInt 1)]]) ]
       | None => Raise (KeyError "text")
       end);
  require_text "Invalid text extraction result: missing text" text_result.

(** [_execute_analyze_layout_task]; [process] is
    [LayoutProcessor().process]. *)
Definition _execute_analyze_layout_task
    (process : value → dict value → py (dict value))
    (tasks : list Task) (task : Task) : py (dict value) :=
  document_path ← document_path_of task;
  text_result ←
    dependency_result tasks task EXTRACT_TEXT "Text extraction task result not found";
  layout_result ← process document_path text_result;
  layout_result ← require_nonempty "Invalid layout analysis result" layout_result;
  preprocess_result ←
    dependency_result tasks task PREPROCESS "Preprocess task result not found";
  let enhanced_layout :=
    dict_set layout_result "document_type"
      (dict_get_or preprocess_result "document_type" (VStr "unknown")) in
  let enhanced_layout :=
    dict_set enhanced_layout "structure"
      (dict_get_or preprocess_result "structure" (VDict [])) in
  Ok (dict_set enhanced_layout "elements"
        (dict_get_or preprocess_result "elements" (VList []))).

(** [_execute_understand_document_task]; [understand] is
    [reasoning_engine.initialize()] followed by
    [reasoning_engine.understand_document(...)], given the text and the
    layout results. *)
Definition _execute_understand_document_task
    (understand : dict value → dict value → py (dict value))
    (tasks : list Task) (task : Task) : py (dict value) :=
  document_path ← document_path_of task;
  let template_id := dict_get_or (params task) "template_id" VNone in
  layout_result ←
    dependency_result tasks task ANALYZE_LAYOUT "Layout analysis task result not found";
  text_result ←
    dependency_result tasks task EXTRACT_TEXT "Text extraction task result not found";
  understanding_result ← understand text_result layout_result;
  understanding_result ←
    require_nonempty "Invalid document understanding result" understanding_result;
  Ok (if truthy template_id
      then dict_set understanding_result "template_id" template_id
      else understanding_result).

(** The three results both extraction stages read before anything else. *)
Definition extraction_inputs (tasks : list Task) (task : Task)
  : py (dict value * dict value * dict value) :=
  understanding_result ←
    dependency_result tasks task UNDERSTAND_DOCUMENT
      "Document understanding task result not found";
  layout_result ←
    dependency_result tasks task ANALYZE_LAYOUT "Layout analysis task result not found";
  text_result ←
    dependency_result tasks task EXTRACT_TEXT "Text extraction task result not found";
  Ok (understanding_result, layout_result, text_result).

(** [_execute_extract_fields_task]; [extract] is [_get_fields_to_extract]
    (which may read a template) followed by the calls of the reasoning
    engine, given the understanding, layout and text results and the
    template id. *)
Definition _execute_extract_fields_task
    (extract : dict value → dict value → dict value → value → py (dict value))
    (tasks : list Task) (task : Task) : py (dict value) :=
  document_path ← document_path_of task;
  let template_id := dict_get_or (params task) "template_id" VNone in
  '(understanding_result, layout_result, text_result) ←
    extraction_inputs tasks task;
  extraction_result ←
    extract understanding_result layout_result text_result template_id;
  require_nonempty "Invalid field extraction result" extraction_result.

(** Whether [_get_tables_to_extract(understanding_result, template_id)] is
    a non-empty list.  [template_tables] gives the decoded [tables] of the
    template with the given id, when there is such a template, it has
    tables and they decode. *)
Definition has_tables_to_extract (template_tables : value → option value)
    (understanding_result : dict value) (template_id : value) : py bool :=
  match (if truthy template_id then template_tables template_id else None) with
  | Some tables => Ok (truthy tables)
  | None =>
      tables ← _get_tables_to_extract understanding_result;
      Ok (negb (bool_decide (tables = [])))
  end.

(** [_execute_extract_tables_task]; [extract] is the calls of the
    reasoning engine, whose result may be [None]. *)
Definition _execute_extract_tables_task
    (template_tables : value → option value)
    (extract : dict value → dict value → dict value → py (option (dict value)))
    (tasks : list Task) (task : Task) : py (dict value) :=
  document_path ← document_path_of task;
  let template_id := dict_get_or (params task) "template_id" VNone in
  '(understanding_result, layout_result, text_result) ←
    extraction_inputs tasks task;
  some ← has_tables_to_extract template_tables understanding_result template_id;
  if some : bool then
    extraction_result ← extract understanding_result layout_result text_result;
    match extraction_result with
    | Some r => Ok r
    | None => Raise (ValueError "Invalid table extraction result")
    end
  else Ok [].

(** ** Workflow creation ([workflow_service.create_workflow]) *)

(** A task row as [_create_tasks] builds it: Pending, nothing recorded
    yet.  The columns [workflow_id] and [priority] are not read by the
    executor and are left out. *)
Definition created_task (i : string) (ty : TaskType) (ps : dict value) : Task :=
  mkTask i ty PENDING ps None None None None None [].

(** [_create_tasks]; the function does not use [options]. *)
Definition _create_tasks (workflow_id document_path : string)
    (template_id : option string) : list Task :=
  let path := [("document_path", VStr document_path)] in
  let path_template :=
    [("document_path", VStr document_path);
     ("template_id", opt_str template_id)] in
  [ created_task (workflow_id +:+ "_preprocess") PREPROCESS path;
    created_task (workflow_id +:+ "_extract_text") EXTRACT_TEXT path;
    created_task (workflow_id +:+ "_analyze_layout") ANALYZE_LAYOUT path;
    created_task (workflow_id +:+ "_understand_document") UNDERSTAND_DOCUMENT
      path_template;
    created_task (workflow_id +:+ "_extract_fields") EXTRACT_FIELDS path_template;
    created_task (workflow_id +:+ "_extract_tables") EXTRACT_TABLES path_template;
    created_task (workflow_id +:+ "_validate_results") VALIDATE_RESULTS [];
    created_task (workflow_id +:+ "_postprocess") POSTPROCESS [] ].

(** The rows (dependent, dependency) that [_create_task_dependencies] adds;
    [workflow_id] is [tasks[0].workflow_id]. *)
Definition _create_task_dependencies (workflow_id : string)
  : list (string * string) :=
  [ (workflow_id +:+ "_extract_text", workflow_id +:+ "_preprocess");
    (workflow_id +:+ "_analyze_layout", workflow_id +:+ "_extract_text");
    (workflow_id +:+ "_understand_document", workflow_id +:+ "_analyze_layout");
    (workflow_id +:+ "_extract_fields", workflow_id +:+ "_understand_document");
    (workflow_id +:+ "_extract_tables", workflow_id +:+ "_understand_document");
    (workflow_id +:+ "_validate_results", workflow_id +:+ "_extract_fields");
    (workflow_id +:+ "_validate_results", workflow_id +:+ "_extract_tables");
    (workflow_id +:+ "_postprocess", workflow_id +:+ "_validate_results") ].

(** The relationship [task.dependencies]: the dependency rows whose
    dependent is the task, in the order they were added. *)
Definition with_dependencies (rows : list (string * string)) (t : Task) : Task :=
  mkTask (task_id t) (task_type t) (status t) (params t) (result t) (error t)
    (started_at t) (completed_at t) (updated_at t)
    (filter (λ r, r.1 = task_id t) rows).*2.

(** The workflow [create_workflow] stores, as the executor loads it. *)
Definition created_workflow (workflow_id document_id document_path : string)
    (template_id : option string) : Workflow :=
  mkWorkflow workflow_id document_id PENDING None None None None
    (with_dependencies (_create_task_dependencies workflow_id)
       <$> _create_tasks workflow_id document_path template_id).

(** [create_workflow]: [documents] maps a document id to its file path,
    [uuid_hex] is [uuid.uuid4().hex].  The update of the document row is
    left out. *)
Definition create_workflow (documents : gmap string string)
    (db : gmap string Workflow) (uuid_hex document_id : string)
    (template_id : option string) : py (string * gmap string Workflow) :=
  match documents !! document_id with
  | None => Raise (ValueError ("Document not found: " +:+ document_id))
  | Some file_path =>
      let workflow_id := "wf_" +:+ String.substring 0 10 uuid_hex in
      Ok (workflow_id,
          <[workflow_id :=
              created_workflow workflow_id document_id file_path template_id]> db)
  end.

(** ** Instances used by the examples *)

(** Float arithmetic on lists of floats: [sum] adds from the left starting
    at zero, [/] divides by the length. *)
Definition example_sum (l : list value) : py value :=
  total ←
    py_fold
      (λ acc v, match v with
                | VFloat f => Ok (PrimFloat.add acc f)
                | _ => Raise (TypeError "unsupported operand type(s) for +")
                end)
      0%float l;
  Ok (VFloat total).

Definition example_truediv (v : value) (n : nat) : py value :=
  match v, n with
  | VFloat f, S _ => Ok (VFloat (PrimFloat.div f (float_of_nat n)))
  | VFloat _, O => Raise (ExternalError "float division by zero")
  | _, _ => Raise (TypeError "unsupported operand type(s) for /")
  end.

Definition new_task (i : string) (ty : TaskType) (ds : list string) : Task :=
  mkTask i ty PENDING [] None None None None None ds.

Definition new_workflow (i : string) (tasks : list Task) : Workflow :=
  mkWorkflow i "doc_1" PENDING None None None None tasks.

(** Two stages: text extraction depends on preprocessing. *)
Definition preprocess_1 : Task := new_task "wf_1_preprocess" PREPROCESS [].

Definition extract_text_1 : Task :=
  new_task "wf_1_extract_text" EXTRACT_TEXT ["wf_1_preprocess"].

Definition two_stage_workflow : Workflow :=
  new_workflow "wf_1" [preprocess_1; extract_text_1].

(** Two tasks that depend on each other. *)
Definition cyclic_workflow : Workflow :=
  new_workflow "wf_2"
    [ new_task "wf_2_preprocess" PREPROCESS ["wf_2_extract_text"];
      new_task "wf_2_extract_text" EXTRACT_TEXT ["wf_2_preprocess"] ].

(** [sub in s] for strings. *)
Fixpoint mentions (s sub : string) : bool :=
  String.prefix sub s ||
  match s with
  | EmptyString => false
  | String _ s' => mentions s' sub
  end.

(** ** Notions used by the properties of the engine *)

Definition tasks_of (s : ExecState) : list Task := wf_tasks (workflow s).

(** The status of the task with a given id. *)
Definition status_of (s : ExecState) (tid : string) : option TaskStatus :=
  status <$> find_task (tasks_of s) tid.

(** The coroutine is inside [async with semaphore]. *)
Definition is_holder (pc : CoroPc) : bool :=
  match pc with
  | Holding | Awaiting | Leaving _ => true
  | Queued | Finished _ => false
  end.

Definition is_awaiting (pc : CoroPc) : bool :=
  match pc with
  | Awaiting => true
  | _ => false
  end.

Fixpoint count_pcs (P : CoroPc → bool) (cs : dict CoroPc) : nat :=
  match cs with
  | [] => 0
  | c :: cs' => (if P c.2 then 1 else 0) + count_pcs P cs'
  end.

(** The transitions of a task's status the claims call legal. *)
Definition legal_transition (a b : TaskStatus) : Prop :=
  (a = PENDING ∧ b = RUNNING) ∨
  (a = RUNNING ∧ b = COMPLETED) ∨
  (a = RUNNING ∧ b = FAILED).

(** The part of a task row the engine never writes. *)
Definition static (t : Task) : string * TaskType * list string :=
  (task_id t, task_type t, dependencies t).

(** What one sees of a state from outside: the workflow's status and
    error, the status of each task, and where [execute_workflow] stands. *)
Definition observe (s : ExecState)
  : TaskStatus * option string * list (string * TaskStatus) * MainPc :=
  (wf_status (workflow s), wf_error (workflow s),
   (λ t, (task_id t, status t)) <$> tasks_of s, main s).

(** Every task of a newly created workflow is Pending. *)
Definition fresh (tasks : list Task) : Prop :=
  Forall (λ t, status t = PENDING) tasks.

(** A task that has left Pending has all its dependencies Completed. *)
Definition started_after_deps (s : ExecState) : Prop :=
  ∀ a ta b, find_task (tasks_of s) a = Some ta → status ta ≠ PENDING →
            b ∈ dependencies ta → status_of s b = Some COMPLETED.

(** The coroutine of a Failed task ended [_execute_task] by raising. *)
Definition failed_raised (s : ExecState) : Prop :=
  ∀ k, status_of s k = Some FAILED →
       ∃ e, dict_get (coros s) k = Some (Leaving (Some e))
            ∨ dict_get (coros s) k = Some (Finished (Some e)).

(** What the outcome of [execute_workflow] says about the workflow. *)
Definition main_inv (s : ExecState) : Prop :=
  match main s with
  | Gathering => wf_status (workflow s) = RUNNING
  | Returned v =>
      wf_status (workflow s) = COMPLETED
      ∧ v = _get_workflow_results (workflow s)
      ∧ all_finished_ok (coros s) = true
  | Raised e =>
      wf_status (workflow s) = FAILED
      ∧ wf_error (workflow s) = Some (py_str e)
  end.

(** A Completed postprocess task carries a non-empty result. *)
Definition postprocess_results (tasks : list Task) : Prop :=
  ∀ t, t ∈ tasks → task_type t = POSTPROCESS → status t = COMPLETED →
       ∃ kv r, result t = Some (kv :: r).

(** [gather] has recorded an exception once a coroutine ended with one. *)
Definition gather_inv (s : ExecState) : Prop :=
  ∀ k e, dict_get (coros s) k = Some (Finished (Some e)) →
         is_Some (gather_exception s).

(** The warning a malformed value of a typed field produces. *)
Definition type_warning (fd : FieldDef) (text : string) : option string :=
  if String.eqb (fd_type fd) "date" then
    match _is_valid_date (VStr text) with
    | Ok false => Some (invalid_format_msg (fd_name fd) "date" text)
    | _ => None
    end
  else if String.eqb (fd_type fd) "currency" then
    match _is_valid_currency (VStr text) with
    | Ok false => Some (invalid_format_msg (fd_name fd) "currency" text)
    | _ => None
    end
  else if String.eqb (fd_type fd) "number" then
    match _is_valid_number (VStr text) with
    | Ok false => Some (invalid_format_msg (fd_name fd) "number" text)
    | _ => None
    end
  else None.

(** What it means for the validation record [vr] to carry the findings on
    the extracted [fields_result] and [tables_result]: every missing or
    empty required field or table has its error and makes the record
    invalid, and every non-empty text of a typed field that does not match
    its format has its warning. *)
Definition findings_recorded
    (fields_result tables_result understanding_result : dict value)
    (vr : Validation) : Prop :=
  (∀ fd, fd ∈ _get_fields_to_extract understanding_result →
     fd_required fd = true →
     missing_or_empty fields_result (fd_name fd) "value" = Ok true →
     valid vr = false ∧ required_field_msg (fd_name fd) ∈ errors vr)
  ∧ (∀ tds td name,
       _get_tables_to_extract understanding_result = Ok tds → td ∈ tds →
       td_required td = true → td_name td = VStr name →
       missing_or_empty tables_result name "rows" = Ok true →
       valid vr = false ∧ required_table_msg name ∈ errors vr)
  ∧ (∀ fd entry text msg, fd ∈ _get_fields_to_extract understanding_result →
       dict_get fields_result (fd_name fd) = Some (VDict entry) →
       dict_get entry "value" = Some (VStr text) → text ≠ "" →
       type_warning fd text = Some msg →
       msg ∈ warnings vr).

(** [execute_workflow] under a schedule: the start, then the events. *)
Definition run_workflow (py_sum : list value → py value)
    (py_truediv : value → nat → py value) (db : gmap string Workflow)
    (workflow_id : string) (max_concurrency : nat) (now later : datetime)
    (evs : list Event) : option ExecState :=
  match execute_workflow_start db workflow_id max_concurrency now later with
  | Ok s0 => run py_sum py_truediv s0 evs
  | Raise _ => None
  end.

(** Every coroutine has ended and [execute_workflow] is over. *)
Definition quiescent (s : ExecState) : bool :=
  forallb (λ c, match c.2 with Finished _ => true | _ => false end) (coros s)
  && match main s with Gathering => false | _ => true end.

(** ** Notions used by the proofs about the execution order *)

Definition deps_of (d : dict (list string)) (k : string) : list string :=
  default [] (dict_get d k).

Definition put_task (d : dict Task) t : dict Task := dict_set d (task_id t) t.

(** The initial dictionary of empty sets. *)
Definition put_empty (d : dict (list string)) t : dict (list string) :=
  dict_set d (task_id t) [].

(** One iteration of the inner loop: [dependencies[task.id].add(dep)]. *)
Definition add_dep t (d : dict (list string)) (dep : string)
  : dict (list string) :=
  dict_set d (task_id t) (set_add dep (default [] (dict_get d (task_id t)))).

Definition add_deps (d : dict (list string)) t : dict (list string) :=
  foldl (add_dep t) d (dependencies t).

(** [edge D a b]: [b] is in the dependency set of [a]. *)
Definition edge (D : dict (list string)) (a b : string) : Prop :=
  b ∈ deps_of D a.

(** Every element of [l] has all its dependencies strictly before it. *)
Definition deps_first (D : dict (list string)) (l : list string) : Prop :=
  ∀ l1 x l2, l = l1 ++ x :: l2 → ∀ d, edge D x d → d ∈ l1.

Definition order_ids (st : visit_state) : list string := task_id <$> order st.

Definition visit_inv (T : dict Task) (D : dict (list string))
    (st : visit_state) : Prop :=
  (∀ x, x ∈ visited st ↔ x ∈ order_ids st) ∧
  deps_first D (order_ids st) ∧
  NoDup (order_ids st) ∧
  (∀ t, t ∈ order st → dict_get T (task_id t) = Some t).

(** What a successful call of a loop body on [a] guarantees. *)
Definition good_body (T : dict Task) (D : dict (list string))
    (body : string → visit_state → option (py visit_state)) : Prop :=
  ∀ a s s', body a s = Some (Ok s') →
    temp_visited s' = temp_visited s ∧ visited s ⊆ visited s' ∧
    (∀ x, x ∈ visited s' → x ∈ visited s ∨ x ∉ temp_visited s) ∧
    a ∈ visited s' ∧ (visit_inv T D s → visit_inv T D s').

(** The call neither exhausts the budget nor raises anything but the
    circular-dependency error. *)
Definition no_failure (r : option (py visit_state)) : Prop :=
  match r with
  | None => False
  | Some (Raise e) => e = ValueError circular_msg
  | Some (Ok _) => True
  end.

(** What [_get_execution_order] can raise on the tasks [tasks]: the
    circular-dependency error, or the [KeyError] of a lookup with an id
    that names no task. *)
Definition order_error (tasks : list Task) (e : exn) : Prop :=
  e = ValueError circular_msg
  ∨ ∃ k, e = KeyError k ∧ k ∉ task_id <$> tasks.

(** ** Invariants of the transition system *)

(** A coroutine suspended in its executor has its task Running. *)
Definition awaiting_running (s : ExecState) : Prop :=
  ∀ k, dict_get (coros s) k = Some Awaiting → status_of s k = Some RUNNING.

(** The semaphore's value and its holders add up to the bound, and every
    Running task belongs to a coroutine suspended in its executor. *)
Definition concurrency_inv (n : nat) (s : ExecState) : Prop :=
  sem_value s + count_pcs is_holder (coros s) = n ∧
  ∀ t, t ∈ tasks_of s → status t = RUNNING →
       dict_get (coros s) (task_id t) = Some Awaiting.

(** ** Notions used by the further properties *)

(** *** Patterns *)

(** [accepts_char r c]: some symbol of [r] matches the character [c]. *)
Fixpoint accepts_char (r : regex) (c : N) : bool :=
  match r with
  | ReNone | ReEps => false
  | ReSym p => p c
  | ReSeq r1 r2 | ReAlt r1 r2 => accepts_char r1 c || accepts_char r2 c
  | ReStar r1 => accepts_char r1 c
  end.

(** A syntactic check that no string matches [r]. *)
Fixpoint matches_nothing (r : regex) : bool :=
  match r with
  | ReNone => true
  | ReEps | ReSym _ | ReStar _ => false
  | ReSeq r1 r2 => matches_nothing r1 || matches_nothing r2
  | ReAlt r1 r2 => matches_nothing r1 && matches_nothing r2
  end.

(** [c in s] for an ASCII character, which is one byte of the text. *)
Fixpoint has_char (c : ascii) (s : string) : bool :=
  match s with
  | EmptyString => false
  | String c' s' => Ascii.eqb c' c || has_char c s'
  end.

(** The length of every match of a pattern built from symbols by
    concatenation alone. *)
Fixpoint fixed_length (r : regex) : option nat :=
  match r with
  | ReEps => Some 0
  | ReSym _ => Some 1
  | ReSeq r1 r2 =>
      n1 ← fixed_length r1; n2 ← fixed_length r2; Some (n1 + n2)
  | _ => None
  end.

(** *** Validation *)

(** An error of the basic validation that names a required field or
    table which is missing or empty. *)
Definition genuine_error (fields_result tables_result understanding_result
    : dict value) (m : string) : Prop :=
  (∃ fd, fd ∈ _get_fields_to_extract understanding_result
         ∧ fd_required fd = true
         ∧ missing_or_empty fields_result (fd_name fd) "value" = Ok true
         ∧ m = required_field_msg (fd_name fd))
  ∨ (∃ tds td name,
       _get_tables_to_extract understanding_result = Ok tds ∧ td ∈ tds
       ∧ td_required td = true ∧ td_name td = VStr name
       ∧ missing_or_empty tables_result name "rows" = Ok true
       ∧ m = required_table_msg name).

(** The answer of the LLM validation that the stage takes over: the value
    returned, unless the call raises or returns a value that is falsy
    ([None], an empty dict). *)
Definition llm_answer (llm : py value) : option value :=
  match llm with
  | Ok v0 => if truthy v0 then Some v0 else None
  | Raise _ => None
  end.

(** The types of field whose values are checked against a format. *)
Definition format_checked (fd : FieldDef) : bool :=
  String.eqb (fd_type fd) "date" || String.eqb (fd_type fd) "currency"
  || String.eqb (fd_type fd) "number".

Definition is_text (v : value) : bool :=
  match v with
  | VStr _ => true
  | _ => false
  end.

(** *** The transition system *)

(** The number of steps a coroutine can still take. *)
Definition pc_rank (pc : CoroPc) : nat :=
  match pc with
  | Queued => 4
  | Holding => 3
  | Awaiting => 2
  | Leaving _ => 1
  | Finished _ => 0
  end.

(** An upper bound on the number of events that can still happen. *)
Definition steps_left (s : ExecState) : nat :=
  sum_list (pc_rank <$> (coros s).*2)
  + match main s with Gathering => 1 | _ => 0 end.

(** One step of a coroutine, with what it does to the semaphore. *)
Definition coro_move (old new : CoroPc) (sem sem' : nat) : Prop :=
  (old = Queued ∧ new = Holding ∧ sem = S sem')
  ∨ (old = Holding ∧ (new = Awaiting ∨ new = Leaving None) ∧ sem' = sem)
  ∨ (old = Awaiting ∧ (∃ r, new = Leaving r) ∧ sem' = sem)
  ∨ (∃ r, old = Leaving r ∧ new = Finished r ∧ sem' = S sem).

(** Every coroutine belongs to a task, and no two to the same. *)
Definition coros_inv (s : ExecState) : Prop :=
  NoDup (dict_keys (coros s))
  ∧ ∀ k, k ∈ dict_keys (coros s) → is_Some (find_task (tasks_of s) k).

(** *** The outcome of [execute_workflow] *)

(** A coroutine whose [_execute_task] raised [e] has its task Failed with
    the error [str(e)]. *)
Definition raised_failed (s : ExecState) : Prop :=
  ∀ k e, dict_get (coros s) k = Some (Leaving (Some e))
         ∨ dict_get (coros s) k = Some (Finished (Some e)) →
         ∃ t, find_task (tasks_of s) k = Some t ∧ status t = FAILED
              ∧ error t = Some (py_str e).

(** The exception [gather] has recorded is one a coroutine ended with. *)
Definition gathered_finished (s : ExecState) : Prop :=
  ∀ e, gather_exception s = Some e →
       ∃ k, dict_get (coros s) k = Some (Finished (Some e)).

(** What [execute_workflow] raises after waiting is what [gather] has
    recorded. *)
Definition raised_gathered (s : ExecState) : Prop :=
  ∀ e, main s = Raised e → gather_exception s = Some e.

(** A task that is Pending is as it was in [tasks]. *)
Definition pending_untouched (tasks : list Task) (s : ExecState) : Prop :=
  ∀ k t, find_task (tasks_of s) k = Some t → status t = PENDING →
         find_task tasks k = Some t.

(** [e] is the exception of a Failed task: its coroutine has ended with
    [e] and its row carries [str(e)] as the error. *)
Definition error_of_failed_task (s : ExecState) (e : exn) : Prop :=
  ∃ k t, dict_get (coros s) k = Some (Finished (Some e))
         ∧ find_task (tasks_of s) k = Some t
         ∧ status t = FAILED ∧ error t = Some (py_str e).

(** The first postprocess task of [workflow.tasks]. *)
Definition first_postprocess (tasks : list Task) : option Task :=
  List.find (λ t, bool_decide (task_type t = POSTPROCESS)) tasks.

(** [v] is the result of the first postprocess task, or the summary of
    the completed workflow when it has no postprocess task. *)
Definition returned_result (s : ExecState) (v : dict value) : Prop :=
  match first_postprocess (tasks_of s) with
  | Some t => result t = Some v
  | None =>
      v = [ ("status", VStr "completed");
            ("error", opt_str (wf_error (workflow s)));
            ("completed_at", opt_str (wf_completed_at (workflow s))) ]
  end.

(** A state of an execution with bound [n] in which every task is
    Completed. *)
Definition settled (n : nat) (s : ExecState) : Prop :=
  awaiting_running s ∧ raised_failed s ∧ gathered_finished s
  ∧ raised_gathered s ∧ main_inv s ∧ gather_inv s ∧ coros_inv s
  ∧ sem_value s + count_pcs is_holder (coros s) = n
  ∧ NoDup (task_id <$> tasks_of s)
  ∧ postprocess_results (tasks_of s)
  ∧ Forall (λ t, status t = COMPLETED) (tasks_of s).

(** *** Workflows built by the service *)

(** A task row with the given id, type and dependencies. *)
Definition is_stage (t : Task) (i : string) (ty : TaskType) (ds : list string)
  : Prop :=
  task_id t = i ∧ task_type t = ty ∧ dependencies t = ds.

(** The position of a stage in the pipeline of a created workflow. *)
Definition stage_rank (workflow_id x : string) : nat :=
  if decide (x = workflow_id +:+ "_preprocess") then 0
  else if decide (x = workflow_id +:+ "_extract_text") then 1
  else if decide (x = workflow_id +:+ "_analyze_layout") then 2
  else if decide (x = workflow_id +:+ "_understand_document") then 3
  else if decide (x = workflow_id +:+ "_extract_fields") then 4
  else if decide (x = workflow_id +:+ "_extract_tables") then 4
  else if decide (x = workflow_id +:+ "_validate_results") then 5
  else 6.

(** The messages with which the validation stage gives up on a
    dependency. *)
Definition validate_messages : list string :=
  [ "Field extraction task result not found";
    "Table extraction task result not found";
    "Document understanding task result not found" ].

(** ** Example workflows and schedules *)

Definition missing_path : exn :=
  ValueError "Document path not specified in task parameters".

(** The outcome of an external processor that raises [e]. *)
Definition raising (e : exn) : Oracle := mkOracle (Raise e) (Raise e).

Definition demo_db : gmap string Workflow :=
  {[ "wf_1" := two_stage_workflow ]}.

(** The schedule asyncio follows on [two_stage_workflow]: the coroutines
    start in execution order, so text extraction is looked at first and
    skipped, then preprocessing runs and its executor raises because the
    task has no [document_path] parameter. *)
Definition failing_schedule : list Event :=
  [ Acquire "wf_1_extract_text"; Begin "wf_1_extract_text" "t1";
    Release "wf_1_extract_text";
    Acquire "wf_1_preprocess"; Begin "wf_1_preprocess" "t2";
    Finish "wf_1_preprocess" (raising missing_path) "t3";
    Release "wf_1_preprocess";
    Resume "t4" ].

(** A workflow executed again after validation has completed: only the
    postprocess task is still Pending. *)
Definition validation_payload : dict value :=
  [ ("document_type", VStr "receipt");
    ("fields",
     VDict [ ("date", VDict [("value", VStr "31/12/24");
                             ("confidence", VFloat 0.5)]) ]);
    ("tables", VDict []);
    ("validation",
     VDict [ ("valid", VBool false);
             ("errors",
              VList [VStr "Required field 'total_amount' is missing or empty"]);
             ("warnings",
              VList [VStr "Field 'date' has invalid date format: 31/12/24"]) ]);
    ("confidence", VFloat 0.5) ].

Definition validate_done : Task :=
  mkTask "wf_3_validate_results" VALIDATE_RESULTS COMPLETED []
    (Some validation_payload) None (Some "t0") (Some "t0") None [].

Definition postprocess_3 : Task :=
  new_task "wf_3_postprocess" POSTPROCESS ["wf_3_validate_results"].

Definition resumed_workflow : Workflow :=
  new_workflow "wf_3" [validate_done; postprocess_3].

Definition resumed_db : gmap string Workflow :=
  {[ "wf_3" := resumed_workflow ]}.

(** The postprocess executor consults no external processor, so the
    oracle of its [Finish] event is not read. *)
Definition resumed_schedule : list Event :=
  [ Acquire "wf_3_postprocess"; Begin "wf_3_postprocess" "t1";
    Finish "wf_3_postprocess" (raising (ExternalError "model not loaded")) "t2";
    Release "wf_3_postprocess";
    Acquire "wf_3_validate_results"; Begin "wf_3_validate_results" "t3";
    Release "wf_3_validate_results";
    Resume "t4" ].

(** What [_format_extraction_results] makes of [validation_payload]. *)
Definition formatted_payload : dict value :=
  [ ("document_type", VStr "receipt");
    ("fields",
     VDict [ ("date", VDict [("value", VStr "31/12/24");
                             ("confidence", VFloat 0.5)]) ]);
    ("tables", VDict []);
    ("validation",
     VDict [ ("valid", VBool false);
             ("errors",
              VList [VStr "Required field 'total_amount' is missing or empty"]);
             ("warnings",
              VList [VStr "Field 'date' has invalid date format: 31/12/24"]) ]);
    ("confidence", VFloat 0.5) ].

(** A workflow whose validation stage is about to run: its four
    dependencies are Completed with their results. *)
Definition done_task (i : string) (ty : TaskType) (r : dict value) : Task :=
  mkTask i ty COMPLETED [] (Some r) None (Some "t0") (Some "t0") None [].

Definition receipt_fields : dict value :=
  [ ("date", VDict [("value", VStr "31/12/24"); ("confidence", VFloat 0.5)]);
    ("merchant_name", VDict [("value", VStr "Corner Shop");
                             ("confidence", VFloat 1)]) ].

Definition receipt_tables : dict value :=
  [ ("items", VDict [("rows", VList [VList [VStr "tea"; VStr "2.00"]]);
                     ("confidence", VFloat 1)]) ].

Definition validate_4 : Task :=
  new_task "wf_4_validate_results" VALIDATE_RESULTS
    [ "wf_4_extract_fields"; "wf_4_extract_tables";
      "wf_4_understand_document"; "wf_4_extract_text" ].

Definition validating_workflow : Workflow :=
  new_workflow "wf_4"
    [ done_task "wf_4_extract_text" EXTRACT_TEXT [("text", VStr "Corner Shop")];
      done_task "wf_4_understand_document" UNDERSTAND_DOCUMENT
        [("document_type", VStr "receipt")];
      done_task "wf_4_extract_fields" EXTRACT_FIELDS receipt_fields;
      done_task "wf_4_extract_tables" EXTRACT_TABLES receipt_tables;
      validate_4 ].

Definition validating_db : gmap string Workflow :=
  {[ "wf_4" := validating_workflow ]}.

(** The schedule asyncio follows on [validating_workflow]: validation is
    first in the execution order and runs (its LLM validation fails, so the
    basic validation is used); the four completed tasks are skipped. *)
Definition llm_down : Oracle := raising (ExternalError "model not loaded").

Definition validating_schedule : list Event :=
  [ Acquire "wf_4_validate_results"; Begin "wf_4_validate_results" "t1";
    Finish "wf_4_validate_results" llm_down "t2";
    Release "wf_4_validate_results";
    Acquire "wf_4_extract_tables"; Begin "wf_4_extract_tables" "t3";
    Release "wf_4_extract_tables";
    Acquire "wf_4_extract_fields"; Begin "wf_4_extract_fields" "t3";
    Release "wf_4_extract_fields";
    Acquire "wf_4_understand_document"; Begin "wf_4_understand_document" "t3";
    Release "wf_4_understand_document";
    Acquire "wf_4_extract_text"; Begin "wf_4_extract_text" "t3";
    Release "wf_4_extract_text";
    Resume "t4" ].

(** The basic validation of the receipt: the total is missing and the date
    is not in one of the accepted formats. *)
Definition receipt_validation : Validation :=
  mkValidation false
    ["Required field 'total_amount' is missing or empty"]
    ["Field 'date' has invalid date format: 31/12/24"].

(** *** Examples for the further properties *)

(** A workflow whose only task depends on a task that does not exist. *)
Definition postprocess_6 : Task :=
  new_task "wf_6_postprocess" POSTPROCESS ["wf_6_validate_results"].

Definition dangling_workflow : Workflow := new_workflow "wf_6" [postprocess_6].

(** The preprocessor returns a text. *)
Definition preprocessed : Oracle :=
  mkOracle (Ok [("text", VStr "Corner Shop")])
    (Raise (ExternalError "model not loaded")).

(** The schedule of [failing_schedule] with a preprocessing that
    succeeds: [execute_workflow] returns while text extraction, skipped
    before preprocessing had run, is still Pending. *)
Definition returning_schedule : list Event :=
  [ Acquire "wf_1_extract_text"; Begin "wf_1_extract_text" "t1";
    Release "wf_1_extract_text";
    Acquire "wf_1_preprocess"; Begin "wf_1_preprocess" "t2";
    Finish "wf_1_preprocess" preprocessed "t3";
    Release "wf_1_preprocess";
    Resume "t4" ].

(** A workflow as [create_workflow] stores it, and the schedule asyncio
    follows on it: the coroutines start in execution order, every stage
    but preprocessing is skipped, and preprocessing runs last. *)
Definition created_5 : Workflow :=
  created_workflow "wf_5" "doc_1" "receipt.txt" None.

Definition created_db : gmap string Workflow := {[ "wf_5" := created_5 ]}.

Definition skipped (tid : string) : list Event :=
  [Acquire tid; Begin tid "t1"; Release tid].

Definition created_schedule : list Event :=
  skipped "wf_5_postprocess" ++ skipped "wf_5_validate_results"
  ++ skipped "wf_5_extract_tables" ++ skipped "wf_5_extract_fields"
  ++ skipped "wf_5_understand_document" ++ skipped "wf_5_analyze_layout"
  ++ skipped "wf_5_extract_text"
  ++ [ Acquire "wf_5_preprocess"; Begin "wf_5_preprocess" "t2";
       Finish "wf_5_preprocess" preprocessed "t3";
       Release "wf_5_preprocess"; Resume "t4" ].

(** A letter, which has no table: the table extraction stage is running
    and the other stages the validation reads are Completed. *)
Definition tables_7 : Task :=
  mkTask "wf_7_extract_tables" EXTRACT_TABLES RUNNING
    [("document_path", VStr "letter.txt")] None None (Some "t1") None None
    ["wf_7_understand_document"; "wf_7_analyze_layout"; "wf_7_extract_text"].

Definition validate_7 : Task :=
  new_task "wf_7_validate_results" VALIDATE_RESULTS
    [ "wf_7_extract_fields"; "wf_7_extract_tables";
      "wf_7_understand_document"; "wf_7_extract_text" ].

Definition letter_fields : dict value :=
  [("title", VDict [("value", VStr "Offer"); ("confidence", VFloat 1)])].

Definition letter_tasks : list Task :=
  [ done_task "wf_7_extract_text" EXTRACT_TEXT [("text", VStr "Dear Sir")];
    done_task "wf_7_analyze_layout" ANALYZE_LAYOUT [("pages", VInt 1)];
    done_task "wf_7_understand_document" UNDERSTAND_DOCUMENT
      [("document_type", VStr "letter")];
    done_task "wf_7_extract_fields" EXTRACT_FIELDS letter_fields;
    tables_7;
    validate_7 ].

(** No template is stored, and the reasoning engine finds nothing. *)
Definition no_template (template_id : value) : option value := None.

Definition no_extraction (understanding layout text : dict value)
  : py (option (dict value)) := Ok None.

(** *** Examples for the limits of the claims *)

(** A receipt whose total was extracted as a number, not as a text. *)
Definition priced_fields : dict value :=
  [ ("date", VDict [("value", VStr "2024-12-31"); ("confidence", VFloat 1)]);
    ("total_amount", VDict [("value", VFloat 12.5); ("confidence", VFloat 1)]);
    ("merchant_name", VDict [("value", VStr "Corner Shop");
                             ("confidence", VFloat 1)]) ].

Definition validate_8 : Task :=
  new_task "wf_8_validate_results" VALIDATE_RESULTS
    [ "wf_8_extract_fields"; "wf_8_extract_tables";
      "wf_8_understand_document"; "wf_8_extract_text" ].

Definition priced_workflow : Workflow :=
  new_workflow "wf_8"
    [ done_task "wf_8_extract_text" EXTRACT_TEXT [("text", VStr "Corner Shop")];
      done_task "wf_8_understand_document" UNDERSTAND_DOCUMENT
        [("document_type", VStr "receipt")];
      done_task "wf_8_extract_fields" EXTRACT_FIELDS priced_fields;
      done_task "wf_8_extract_tables" EXTRACT_TABLES receipt_tables;
      validate_8 ].

Definition priced_db : gmap string Workflow := {[ "wf_8" := priced_workflow ]}.

Definition priced_schedule : list Event :=
  [ Acquire "wf_8_validate_results"; Begin "wf_8_validate_results" "t1";
    Finish "wf_8_validate_results" llm_down "t2";
    Release "wf_8_validate_results";
    Resume "t3" ].

(** An LLM validation that finds nothing wrong. *)
Definition llm_approval : value :=
  VDict [("valid", VBool true); ("errors", VList []); ("warnings", VList [])].

Definition llm_approves : Oracle :=
  mkOracle (Raise (ExternalError "not called")) (Ok llm_approval).

(** A workflow with a cycle between two of its tasks, and a first task
    that depends on a task that does not exist. *)
Definition ghost_workflow : Workflow :=
  new_workflow "wf_9"
    [ new_task "wf_9_preprocess" PREPROCESS ["wf_9_ghost"];
      new_task "wf_9_extract_text" EXTRACT_TEXT ["wf_9_analyze_layout"];
      new_task "wf_9_analyze_layout" ANALYZE_LAYOUT ["wf_9_extract_text"] ].

Definition ghost_db : gmap string Workflow := {[ "wf_9" := ghost_workflow ]}.

(** Two tasks that are Completed and depend on each other. *)
Definition knotted_workflow : Workflow :=
  new_workflow "wf_10"
    [ mkTask "wf_10_validate_results" VALIDATE_RESULTS COMPLETED []
        (Some validation_payload) None (Some "t0") (Some "t0") None
        ["wf_10_postprocess"];
      mkTask "wf_10_postprocess" POSTPROCESS COMPLETED []
        (Some formatted_payload) None (Some "t0") (Some "t0") None
        ["wf_10_validate_results"] ].

Definition knotted_db : gmap string Workflow := {[ "wf_10" := knotted_workflow ]}.

(** A workflow whose earlier run was interrupted while the fields were
    being extracted: that task is still Running, and the extraction of the
    tables, which has the same dependency, is Pending. *)
Definition interrupted_workflow : Workflow :=
  new_workflow "wf_11"
    [ done_task "wf_11_understand_document" UNDERSTAND_DOCUMENT
        [("document_type", VStr "receipt")];
      mkTask "wf_11_extract_fields" EXTRACT_FIELDS RUNNING [] None None
        (Some "t0") None None ["wf_11_understand_document"];
      new_task "wf_11_extract_tables" EXTRACT_TABLES
        ["wf_11_understand_document"] ].

Definition interrupted_db : gmap string Workflow :=
  {[ "wf_11" := interrupted_workflow ]}.

Definition interrupted_schedule : list Event :=
  [ Acquire "wf_11_extract_tables"; Begin "wf_11_extract_tables" "t1" ].

(** * Properties *)

(** ** Facts about the exception monad *)

Lemma bind_Ok {A B} (m : py A) (k : A → py B) b :
  m ≫= k = Ok b → ∃ a, m = Ok a ∧ k a = Ok b.
Proof. destruct m as [a|e]; [by exists a | done]. Qed.

Lemma bind_Ok_l {A B} (a : A) (k : A → py B) : Ok a ≫= k = k a.
Proof. done. Qed.

Lemma bind_Raise_l {A B} (e : exn) (k : A → py B) : Raise e ≫= k = Raise e.
Proof. done. Qed.

Ltac py_inv H :=
  repeat match type of H with
         | _ ≫= _ = Ok _ =>
             let a := fresh "a" in
             let Ha := fresh "Ha" in
             apply bind_Ok in H as (a & Ha & H)
         end.

(** ** Facts about dictionaries *)

Section dict_facts.
Context {V : Type}.
Implicit Types (d : dict V) (k : string) (v : V).

Lemma dict_get_set_eq d k v : dict_get (dict_set d k v) k = Some v.
Proof.
  induction d as [|[k' v'] d IH]; simpl.
  - by rewrite decide_True.
  - destruct (decide (k' = k)) as [->|Hne]; simpl.
    + by rewrite decide_True.
    + by rewrite decide_False.
Qed.

Lemma dict_get_set_ne d k k' v :
  k ≠ k' → dict_get (dict_set d k v) k' = dict_get d k'.
Proof.
  intros Hne. induction d as [|[k0 v0] d IH]; simpl.
  - by rewrite decide_False.
  - destruct (decide (k0 = k)) as [->|Hne0]; simpl.
    + by rewrite !decide_False.
    + by rewrite IH.
Qed.

Lemma dict_get_set d k k' v :
  dict_get (dict_set d k v) k' =
  if decide (k = k') then Some v else dict_get d k'.
Proof.
  destruct (decide (k = k')) as [->|?];
    [apply dict_get_set_eq | by apply dict_get_set_ne].
Qed.

Lemma dict_get_keys d k : is_Some (dict_get d k) ↔ k ∈ dict_keys d.
Proof.
  unfold dict_keys. induction d as [|[k' v'] d IH]; simpl.
  - split; [by intros [? ?] | by intros ?%elem_of_nil].
  - rewrite elem_of_cons. destruct (decide (k' = k)) as [->|Hne].
    + split; eauto.
    + rewrite IH. split; [by right | by intros [?|?]].
Qed.

Lemma dict_keys_set d k v :
  dict_keys (dict_set d k v) =
  if decide (k ∈ dict_keys d) then dict_keys d else dict_keys d ++ [k].
Proof.
  unfold dict_keys. induction d as [|[k' v'] d IH].
  - case_decide as Hin; [by apply elem_of_nil in Hin | done].
  - cbn [dict_set]. destruct (decide (k' = k)) as [->|Hne].
    + rewrite decide_True; [done | rewrite fmap_cons; by left].
    + rewrite !fmap_cons, IH. cbn [fst].
      destruct (decide (k ∈ d.*1)) as [Hin|Hnin].
      * rewrite decide_True; [done | by right].
      * rewrite decide_False; [done |].
        intros [?|?]%elem_of_cons; congruence.
Qed.

Lemma dict_keys_set_length d k v :
  length (dict_keys (dict_set d k v)) ≤ S (length (dict_keys d)).
Proof.
  rewrite dict_keys_set. case_decide; [lia |].
  rewrite List.length_app. simpl. lia.
Qed.

Lemma dict_keys_set_NoDup d k v :
  NoDup (dict_keys d) → NoDup (dict_keys (dict_set d k v)).
Proof.
  intros Hnd. rewrite dict_keys_set. case_decide; [done |].
  apply NoDup_app. split_and!; [done | | apply NoDup_singleton].
  intros x Hx ->%list_elem_of_singleton. done.
Qed.
End dict_facts.

(** ** The two dictionaries of [_get_execution_order] *)

Lemma set_add_elem x y s : y ∈ set_add x s ↔ y ∈ s ∨ y = x.
Proof.
  unfold set_add. case_decide as Hin.
  - split; [by left | by intros [?| ->]].
  - rewrite elem_of_app, list_elem_of_singleton. done.
Qed.

Section build_facts.
Implicit Types (tasks : list Task) (t : Task) (k : string).

Lemma put_tasks_keys tasks (d : dict Task) k :
  k ∈ dict_keys (foldl put_task d tasks) ↔
  k ∈ dict_keys d ∨ k ∈ task_id <$> tasks.
Proof.
  revert d. induction tasks as [|t tasks IH]; intros d; csimpl.
  - rewrite elem_of_nil. tauto.
  - rewrite IH, elem_of_cons. unfold put_task.
    rewrite dict_keys_set. case_decide as Hin.
    + split; [tauto | intros [?|[->|?]]; tauto].
    + rewrite elem_of_app, list_elem_of_singleton. tauto.
Qed.

Lemma put_tasks_get tasks (d : dict Task) k t :
  dict_get (foldl put_task d tasks) k = Some t →
  dict_get d k = Some t ∨ (t ∈ tasks ∧ task_id t = k).
Proof.
  revert d. induction tasks as [|t0 tasks IH]; intros d; simpl; [by left |].
  intros [Hget|[Hin Hid]]%IH.
  - unfold put_task in Hget. rewrite dict_get_set in Hget.
    case_decide as Heq; [| by left].
    right. injection Hget as ->. split; [by left | done].
  - right. split; [by right | done].
Qed.

Lemma put_tasks_NoDup tasks (d : dict Task) :
  NoDup (dict_keys d) → NoDup (dict_keys (foldl put_task d tasks)).
Proof.
  revert d. induction tasks as [|t tasks IH]; intros d Hnd; simpl; [done |].
  apply IH. by apply dict_keys_set_NoDup.
Qed.

Lemma put_tasks_length tasks (d : dict Task) :
  length (dict_keys (foldl put_task d tasks)) ≤
  length (dict_keys d) + length tasks.
Proof.
  revert d. induction tasks as [|t tasks IH]; intros d; simpl; [lia |].
  etrans; [apply IH |].
  pose proof (dict_keys_set_length d (task_id t) t). unfold put_task. lia.
Qed.

Lemma tasks_by_id_keys tasks k :
  k ∈ dict_keys (build_tasks_by_id tasks) ↔ k ∈ task_id <$> tasks.
Proof.
  unfold build_tasks_by_id. fold put_task. rewrite put_tasks_keys.
  simpl. rewrite elem_of_nil. tauto.
Qed.

Lemma tasks_by_id_get tasks k t :
  dict_get (build_tasks_by_id tasks) k = Some t →
  t ∈ tasks ∧ task_id t = k.
Proof.
  unfold build_tasks_by_id. fold put_task.
  intros [Hget|?]%put_tasks_get; [done | done].
Qed.

Lemma tasks_by_id_NoDup tasks : NoDup (dict_keys (build_tasks_by_id tasks)).
Proof. apply put_tasks_NoDup. constructor. Qed.

Lemma tasks_by_id_length tasks :
  length (dict_keys (build_tasks_by_id tasks)) ≤ length tasks.
Proof.
  unfold build_tasks_by_id. fold put_task.
  etrans; [apply put_tasks_length | simpl; lia].
Qed.

Lemma put_empty_keys tasks (d : dict (list string)) k :
  k ∈ dict_keys (foldl put_empty d tasks) ↔
  k ∈ dict_keys d ∨ k ∈ task_id <$> tasks.
Proof.
  revert d. induction tasks as [|t tasks IH]; intros d; csimpl.
  - rewrite elem_of_nil. tauto.
  - rewrite IH, elem_of_cons. unfold put_empty.
    rewrite dict_keys_set. case_decide as Hin.
    + split; [tauto | intros [?|[->|?]]; tauto].
    + rewrite elem_of_app, list_elem_of_singleton. tauto.
Qed.

Lemma put_empty_deps tasks (d : dict (list string)) k x :
  x ∈ deps_of (foldl put_empty d tasks) k → x ∈ deps_of d k.
Proof.
  revert d. induction tasks as [|t tasks IH]; intros d; simpl; [done |].
  intros Hx%IH. unfold deps_of, put_empty in Hx.
  rewrite dict_get_set in Hx. case_decide; [| done].
  by apply elem_of_nil in Hx.
Qed.

Lemma add_dep_fold_keys t ds (d : dict (list string)) k :
  k ∈ dict_keys d → k ∈ dict_keys (foldl (add_dep t) d ds).
Proof.
  revert d. induction ds as [|x ds IH]; intros d Hk; simpl; [done |].
  apply IH. unfold add_dep. rewrite dict_keys_set.
  case_decide; [done | apply elem_of_app; by left].
Qed.

Lemma add_dep_fold_keys_inv t ds (d : dict (list string)) k :
  k ∈ dict_keys (foldl (add_dep t) d ds) → k ∈ dict_keys d ∨ k = task_id t.
Proof.
  revert d. induction ds as [|x ds IH]; intros d; simpl; [by left |].
  intros [Hk| ->]%IH; [| by right].
  unfold add_dep in Hk. rewrite dict_keys_set in Hk.
  case_decide; [by left |].
  apply elem_of_app in Hk as [?| ->%list_elem_of_singleton]; [by left | by right].
Qed.

Lemma add_dep_fold_deps t ds (d : dict (list string)) k x :
  x ∈ deps_of (foldl (add_dep t) d ds) k ↔
  x ∈ deps_of d k ∨ (k = task_id t ∧ x ∈ ds).
Proof.
  revert d. induction ds as [|y ds IH]; intros d; simpl.
  - rewrite elem_of_nil. tauto.
  - rewrite IH, elem_of_cons. unfold deps_of at 1, add_dep at 1.
    rewrite dict_get_set. case_decide as Heq.
    + subst k. simpl. rewrite set_add_elem. unfold deps_of. tauto.
    + unfold deps_of. split; [intros [?|[? ?]]; [by left | done] |].
      intros [?|[? _]]; [by left | congruence].
Qed.

Lemma add_deps_fold_keys tasks (d : dict (list string)) k :
  (∀ t, t ∈ tasks → task_id t ∈ dict_keys d) →
  k ∈ dict_keys (foldl add_deps d tasks) ↔ k ∈ dict_keys d.
Proof.
  revert d. induction tasks as [|t tasks IH]; intros d Hd; simpl; [done |].
  assert (Ht : task_id t ∈ dict_keys d) by (apply Hd; by left).
  rewrite IH.
  - unfold add_deps. split; [| apply add_dep_fold_keys].
    intros [?| ->]%add_dep_fold_keys_inv; done.
  - intros t' Ht'. apply add_dep_fold_keys, Hd. by right.
Qed.

Lemma add_deps_fold_deps tasks (d : dict (list string)) k x :
  x ∈ deps_of (foldl add_deps d tasks) k ↔
  x ∈ deps_of d k ∨ depends_on tasks k x.
Proof.
  revert d. induction tasks as [|t tasks IH]; intros d; simpl.
  - split; [by left | intros [?|(t & Ht & _)]; [done |]].
    by apply elem_of_nil in Ht.
  - rewrite IH. unfold add_deps. rewrite add_dep_fold_deps.
    unfold depends_on. split.
    + intros [[?|[-> ?]]|(t' & ? & ? & ?)]; [by left | |].
      * right. exists t. split_and!; [by left | done | done].
      * right. exists t'. split_and!; [by right | done | done].
    + intros [?|(t' & [->|?]%elem_of_cons & <- & ?)].
      * left. by left.
      * left. by right.
      * right. by exists t'.
Qed.

Lemma dependencies_keys tasks k :
  k ∈ dict_keys (build_dependencies tasks) ↔ k ∈ task_id <$> tasks.
Proof.
  unfold build_dependencies. fold put_empty. fold add_dep. fold add_deps.
  rewrite add_deps_fold_keys.
  - rewrite put_empty_keys. simpl. rewrite elem_of_nil. tauto.
  - intros t Ht. apply put_empty_keys. right.
    apply list_elem_of_fmap. by exists t.
Qed.

Lemma dependencies_deps tasks k x :
  x ∈ deps_of (build_dependencies tasks) k ↔ depends_on tasks k x.
Proof.
  unfold build_dependencies. fold put_empty. fold add_dep. fold add_deps.
  rewrite add_deps_fold_deps. split; [| by right].
  intros [Hx%put_empty_deps|?]; [| done].
  by apply elem_of_nil in Hx.
Qed.
End build_facts.

(** ** Correctness of the depth-first traversal *)

Lemma deps_first_snoc D l x :
  deps_first D l → (∀ d, edge D x d → d ∈ l) → deps_first D (l ++ [x]).
Proof.
  intros Hl Hx l1 y l2 Heq d Hd.
  destruct (decide (l2 = [])) as [->|Hne].
  - apply app_inj_tail in Heq as [<- <-]. by apply Hx.
  - destruct (exists_last Hne) as (l2' & z & ->).
    rewrite app_comm_cons, app_assoc in Heq.
    apply app_inj_tail in Heq as [Heq _].
    by apply (Hl l1 y l2').
Qed.

Lemma deps_first_tc D l x y l1 l2 :
  deps_first D l → tc (edge D) x y → l = l1 ++ x :: l2 → y ∈ l1.
Proof.
  intros Hl Htc. revert l1 l2.
  induction Htc as [x y Hxy|x z y Hxz _ IH]; intros l1 l2 Heq.
  - by apply (Hl l1 x l2).
  - assert (Hz : z ∈ l1) by by apply (Hl l1 x l2).
    apply list_elem_of_split in Hz as (la & lb & ->).
    apply elem_of_app. left.
    apply (IH la (lb ++ x :: l2)). by rewrite Heq, <-app_assoc.
Qed.

(** A list with dependencies first contains no task on a cycle. *)
Lemma deps_first_acyclic D l a :
  deps_first D l → tc (edge D) a a → a ∉ l.
Proof.
  intros Hl Htc.
  assert (H : ∀ n l1 l2, length l1 = n → l = l1 ++ a :: l2 → False).
  { induction n as [n IH] using lt_wf_ind. intros l1 l2 Hn Heq.
    pose proof (deps_first_tc D l a a l1 l2 Hl Htc Heq) as Ha.
    apply list_elem_of_split in Ha as (la & lb & ->).
    apply (IH (length la)) with (l1 := la) (l2 := lb ++ a :: l2).
    - rewrite <-Hn, List.length_app. simpl. lia.
    - done.
    - by rewrite Heq, <-app_assoc. }
  intros (l1 & l2 & ->)%list_elem_of_split. by apply (H (length l1) l1 l2).
Qed.

Section traversal.
Context (T : dict Task) (D : dict (list string)).
Hypothesis T_ids : ∀ k t, dict_get T k = Some t → task_id t = k.

Lemma for_each_good body ds s s' :
  good_body T D body →
  for_each body ds s = Some (Ok s') →
  temp_visited s' = temp_visited s ∧ visited s ⊆ visited s' ∧
  (∀ x, x ∈ visited s' → x ∈ visited s ∨ x ∉ temp_visited s) ∧
  (∀ d, d ∈ ds → d ∈ visited s') ∧ (visit_inv T D s → visit_inv T D s').
Proof.
  intros Hbody. revert s. induction ds as [|d ds IH]; intros s; simpl.
  - intros [= ->]. split_and!; [done | done | by left | | done].
    by intros d ?%elem_of_nil.
  - destruct (body d s) as [[s1|e]|] eqn:Hd; [| done | done].
    intros Hrest. apply Hbody in Hd as (Ht1 & Hv1 & Hn1 & Hd1 & Hi1).
    apply IH in Hrest as (Ht2 & Hv2 & Hn2 & Hd2 & Hi2).
    split_and!.
    + congruence.
    + set_solver.
    + intros x [Hx|Hx]%Hn2; [by apply Hn1 | right; by rewrite <-Ht1].
    + intros d' [->|?]%elem_of_cons; [set_solver | by apply Hd2].
    + tauto.
Qed.

Lemma visit_good fuel : good_body T D (visit fuel T D).
Proof.
  induction fuel as [|fuel IH]; intros tid s s'; simpl; [done |].
  destruct (decide (tid ∈ temp_visited s)) as [|Hnt]; [done |].
  destruct (decide (tid ∈ visited s)) as [Hv|Hnv].
  { intros [= ->]. split_and!; [done | done | by left | done | done]. }
  destruct (dict_get D tid) as [ds|] eqn:HD; [| done].
  destruct (for_each _ ds _) as [[s2|e]|] eqn:Hloop; [| done | done].
  destruct (dict_get T tid) as [t|] eqn:HT; [| done].
  intros [= <-]. simpl.
  apply (for_each_good _ _ _ _ IH) in Hloop
    as (Ht2 & Hv2 & Hn2 & Hd2 & Hi2).
  simpl in *.
  assert (Hfresh : tid ∉ visited s2).
  { intros [?|Hx]%Hn2; [done |]. apply Hx. set_solver. }
  split_and!.
  - rewrite Ht2. set_solver.
  - set_solver.
  - intros x [->%elem_of_singleton|[?|Hx]%Hn2]%elem_of_union;
      [by right | by left | right; set_solver].
  - set_solver.
  - intros Hinv. destruct (Hi2 Hinv) as (Hvis & Hord & Hnd & Hfrom).
    unfold visit_inv, order_ids in *. simpl.
    rewrite fmap_app. simpl. rewrite (T_ids _ _ HT). split_and!.
    + intros x. rewrite elem_of_union, elem_of_singleton, elem_of_app,
        list_elem_of_singleton, Hvis. tauto.
    + apply deps_first_snoc; [done |].
      intros d Hd. apply Hvis, Hd2.
      unfold edge, deps_of in Hd. by rewrite HD in Hd.
    + apply NoDup_app. split_and!; [done | | apply NoDup_singleton].
      intros x Hx ->%list_elem_of_singleton. by apply Hfresh, Hvis.
    + intros t' [?| ->%list_elem_of_singleton]%elem_of_app; [by apply Hfrom |].
      by rewrite (T_ids _ _ HT).
Qed.

Lemma roots_body_good fuel :
  good_body T D (λ tid st, if decide (tid ∈ visited st) then Some (Ok st)
                           else visit fuel T D tid st).
Proof.
  intros tid s s'. case_decide as Hv.
  - intros [= ->]. split_and!; [done | done | by left | done | done].
  - apply visit_good.
Qed.

(** A successful traversal lists every key once, dependencies first. *)
Lemma visit_roots_ok fuel s' :
  visit_roots fuel T D (mkVisit ∅ ∅ []) = Some (Ok s') →
  (∀ k, k ∈ dict_keys T → k ∈ order_ids s') ∧
  deps_first D (order_ids s') ∧
  NoDup (order_ids s') ∧
  (∀ t, t ∈ order s' → dict_get T (task_id t) = Some t).
Proof.
  intros Hrun.
  apply (for_each_good _ _ _ _ (roots_body_good fuel)) in Hrun
    as (_ & _ & _ & Hall & Hinv).
  destruct Hinv as (Hvis & Hord & Hnd & Hfrom).
  { split_and!.
    - intros x. unfold order_ids. simpl. set_solver.
    - intros l1 x l2 Heq. by destruct l1.
    - constructor.
    - by intros t ?%elem_of_nil. }
  split_and!; [| done | done | done].
  intros k Hk. by apply Hvis, Hall.
Qed.
End traversal.

Lemma size_remove_lt (K temp : gset string) (x : string) :
  x ∈ K → x ∉ temp → size (K ∖ ({[x]} ∪ temp)) < size (K ∖ temp).
Proof.
  intros HK Hx. apply subset_size. split; [set_solver |].
  intros Hsub. assert (x ∈ K ∖ ({[x]} ∪ temp)) by (apply Hsub; set_solver).
  set_solver.
Qed.

Lemma size_list_to_set_le (l : list string) :
  size (list_to_set l : gset string) ≤ length l.
Proof.
  induction l as [|x l IH].
  - rewrite list_to_set_nil, size_empty. simpl. lia.
  - rewrite list_to_set_cons, size_union_alt, size_singleton. simpl.
    assert (size (list_to_set l ∖ {[x]} : gset string)
            ≤ size (list_to_set l : gset string))
      by (apply subseteq_size; set_solver).
    lia.
Qed.

Section traversal_total.
Context (T : dict Task) (D : dict (list string)).
Hypothesis T_ids : ∀ k t, dict_get T k = Some t → task_id t = k.
Hypothesis T_dom : ∀ k, k ∈ dict_keys T ↔ k ∈ dict_keys D.

(** A loop that does not return normally stopped inside one of its
    iterations, entered with the same [temp_visited]. *)
Lemma for_each_fail body ds s r :
  good_body T D body →
  (∀ s', r ≠ Some (Ok s')) →
  for_each body ds s = r →
  ∃ a s0, a ∈ ds ∧ temp_visited s0 = temp_visited s ∧ body a s0 = r.
Proof.
  intros Hbody Hr. revert s. induction ds as [|d ds IH]; intros s; simpl.
  - intros <-. by destruct (Hr s).
  - destruct (body d s) as [[s1|e]|] eqn:Hd.
    + intros (a & s0 & Ha & Ht & Hb)%IH.
      apply Hbody in Hd as (Ht1 & _). exists a, s0.
      split_and!; [by right | congruence | done].
    + intros <-. exists d, s. split_and!; [by left | done | done].
    + intros <-. exists d, s. split_and!; [by left | done | done].
Qed.

Lemma visit_raise_cycle fuel tid st m :
  (∀ x, x ∈ temp_visited st → tc (edge D) x tid) →
  visit fuel T D tid st = Some (Raise (ValueError m)) →
  ∃ c, tc (edge D) c c.
Proof.
  revert tid st. induction fuel as [|fuel IH]; intros tid st Hpath; simpl;
    [done |].
  destruct (decide (tid ∈ temp_visited st)) as [Hin|Hnt].
  { intros _. exists tid. by apply Hpath. }
  destruct (decide (tid ∈ visited st)) as [Hv|Hnv]; [done |].
  destruct (dict_get D tid) as [ds|] eqn:HD; [| done].
  destruct (for_each _ ds _) as [[s2|e]|] eqn:Hloop; [| | done].
  { by destruct (dict_get T tid). }
  intros [= ->].
  apply for_each_fail in Hloop as (a & s0 & Ha & Ht & Hb);
    [| by apply visit_good | done].
  apply (IH a s0); [| done].
  assert (Hedge : edge D tid a).
  { unfold edge, deps_of. by rewrite HD. }
  intros x. rewrite Ht. simpl.
  intros [->%elem_of_singleton|Hx]%elem_of_union.
  - by apply tc_once.
  - eapply tc_r; [by apply Hpath | done].
Qed.

Hypothesis D_closed : ∀ a b, edge D a b → b ∈ dict_keys D.

Lemma visit_total fuel tid st :
  tid ∈ dict_keys D →
  size ((list_to_set (dict_keys D) : gset string) ∖ temp_visited st) < fuel →
  no_failure (visit fuel T D tid st).
Proof.
  revert tid st. induction fuel as [|fuel IH]; intros tid st Hk Hsize;
    simpl; [lia |].
  destruct (decide (tid ∈ temp_visited st)) as [Hin|Hnt]; [done |].
  destruct (decide (tid ∈ visited st)) as [Hv|Hnv]; [done |].
  destruct (dict_get D tid) as [ds|] eqn:HD.
  2: { apply dict_get_keys in Hk as [? Hk]. congruence. }
  destruct (for_each _ ds _) as [[s2|e]|] eqn:Hloop.
  - destruct (dict_get T tid) as [t|] eqn:HT; [done |].
    apply T_dom, dict_get_keys in Hk as [? Hk]. congruence.
  - apply for_each_fail in Hloop as (a & s0 & Ha & Ht & Hb);
      [| by apply visit_good | done].
    change (no_failure (Some (Raise e))). rewrite <-Hb.
    apply IH.
    + apply (D_closed tid). unfold edge, deps_of. by rewrite HD.
    + rewrite Ht. simpl.
      pose proof (size_remove_lt (list_to_set (dict_keys D))
                    (temp_visited st) tid) as Hlt.
      rewrite elem_of_list_to_set in Hlt. specialize (Hlt Hk Hnt). lia.
  - apply for_each_fail in Hloop as (a & s0 & Ha & Ht & Hb);
      [| by apply visit_good | done].
    change (no_failure None). rewrite <-Hb.
    apply IH.
    + apply (D_closed tid). unfold edge, deps_of. by rewrite HD.
    + rewrite Ht. simpl.
      pose proof (size_remove_lt (list_to_set (dict_keys D))
                    (temp_visited st) tid) as Hlt.
      rewrite elem_of_list_to_set in Hlt. specialize (Hlt Hk Hnt). lia.
Qed.

Lemma visit_roots_total fuel :
  size (list_to_set (dict_keys D) : gset string) < fuel →
  no_failure (visit_roots fuel T D (mkVisit ∅ ∅ [])).
Proof.
  intros Hfuel. unfold visit_roots.
  destruct (for_each _ _ _) as [[s2|e]|] eqn:Hloop; [done | |].
  - apply for_each_fail in Hloop as (a & s0 & Ha & Ht & Hb);
      [| by apply roots_body_good | done].
    case_decide; [done |].
    change (no_failure (Some (Raise e))). rewrite <-Hb.
    apply visit_total; [by apply T_dom |].
    rewrite Ht. simpl. by rewrite difference_empty_L.
  - apply for_each_fail in Hloop as (a & s0 & Ha & Ht & Hb);
      [| by apply roots_body_good | done].
    case_decide; [done |].
    change (no_failure None). rewrite <-Hb.
    apply visit_total; [by apply T_dom |].
    rewrite Ht. simpl. by rewrite difference_empty_L.
Qed.

Lemma visit_roots_raise_cycle fuel m :
  visit_roots fuel T D (mkVisit ∅ ∅ []) = Some (Raise (ValueError m)) →
  ∃ c, tc (edge D) c c.
Proof.
  intros Hloop. unfold visit_roots in Hloop.
  apply for_each_fail in Hloop as (a & s0 & Ha & Ht & Hb);
    [| by apply roots_body_good | done].
  case_decide; [done |].
  apply visit_raise_cycle in Hb; [done |].
  intros x. rewrite Ht. simpl. set_solver.
Qed.
End traversal_total.

Section traversal_terminates.
Context (T : dict Task) (D : dict (list string)).
Hypothesis T_ids : ∀ k t, dict_get T k = Some t → task_id t = k.

(** The recursion is at most one frame per key deep. *)
Lemma visit_terminates fuel tid st :
  size ((list_to_set (dict_keys D) : gset string) ∖ temp_visited st) < fuel →
  visit fuel T D tid st ≠ None.
Proof.
  revert tid st. induction fuel as [|fuel IH]; intros tid st Hsize;
    simpl; [lia |].
  destruct (decide (tid ∈ temp_visited st)) as [Hin|Hnt]; [done |].
  destruct (decide (tid ∈ visited st)) as [Hv|Hnv]; [done |].
  destruct (dict_get D tid) as [ds|] eqn:HD; [| done].
  destruct (for_each _ ds _) as [[s2|e]|] eqn:Hloop; [| done |].
  { by destruct (dict_get T tid). }
  eapply for_each_fail in Hloop as (a & s0 & Ha & Ht & Hb);
    [| by apply visit_good | done].
  intros _. apply (IH a s0); [| done]. rewrite Ht. simpl.
  assert (Hk : tid ∈ dict_keys D) by (apply dict_get_keys; eauto).
  pose proof (size_remove_lt (list_to_set (dict_keys D))
                (temp_visited st) tid) as Hlt.
  rewrite elem_of_list_to_set in Hlt. specialize (Hlt Hk Hnt). lia.
Qed.

Lemma visit_roots_terminates fuel :
  size (list_to_set (dict_keys D) : gset string) < fuel →
  visit_roots fuel T D (mkVisit ∅ ∅ []) ≠ None.
Proof.
  intros Hfuel Hloop. unfold visit_roots in Hloop.
  eapply for_each_fail in Hloop as (a & s0 & Ha & Ht & Hb);
    [| by apply roots_body_good | done].
  case_decide; [done |].
  apply visit_terminates in Hb; [done |].
  rewrite Ht. simpl. by rewrite difference_empty_L.
Qed.
End traversal_terminates.

(** *** [_get_execution_order] as a whole *)

Lemma tc_impl {A} (R R' : relation A) a b :
  (∀ x y, R x y → R' x y) → tc R a b → tc R' a b.
Proof.
  intros HR. induction 1 as [x y ?|x y z ? _ IH].
  - apply tc_once. by apply HR.
  - eapply tc_l; [by apply HR | done].
Qed.

Lemma dependencies_size (tasks : list Task) :
  size (list_to_set (dict_keys (build_dependencies tasks)) : gset string)
  < S (length tasks).
Proof.
  pose proof (tasks_by_id_length tasks) as Hlen.
  pose proof (size_list_to_set_le (dict_keys (build_tasks_by_id tasks))) as Hle.
  assert (size (list_to_set (dict_keys (build_dependencies tasks)) : gset string)
          ≤ size (list_to_set (dict_keys (build_tasks_by_id tasks)) : gset string))
    as Hsize.
  { apply subseteq_size. intros k. rewrite !elem_of_list_to_set.
    by rewrite dependencies_keys, tasks_by_id_keys. }
  lia.
Qed.

Lemma for_each_raise_kind {A S} (body : A → S → option (py S)) l s e :
  (∀ a s0, body a s0 = Some (Raise e) →
     e = ValueError circular_msg ∨ ∃ k, e = KeyError k) →
  for_each body l s = Some (Raise e) →
  e = ValueError circular_msg ∨ ∃ k, e = KeyError k.
Proof.
  intros Hbody. revert s. induction l as [|a l IH]; intros s; simpl; [done |].
  destruct (body a s) as [[s1|e1]|] eqn:Ha; [by apply IH | | done].
  intros [= ->]. by eapply Hbody.
Qed.

Lemma visit_raise_kind fuel T D tid st e :
  visit fuel T D tid st = Some (Raise e) →
  e = ValueError circular_msg ∨ ∃ k, e = KeyError k.
Proof.
  revert tid st. induction fuel as [|fuel IH]; intros tid st; simpl; [done |].
  destruct (decide (tid ∈ temp_visited st)); [intros [= <-]; by left |].
  destruct (decide (tid ∈ visited st)); [done |].
  destruct (dict_get D tid) as [ds|]; [| intros [= <-]; right; by eexists].
  destruct (for_each _ ds _) as [[s2|e2]|] eqn:Hloop; [| | done].
  - destruct (dict_get T tid); [done | intros [= <-]; right; by eexists].
  - intros [= ->]. eapply for_each_raise_kind; [| done]. intros a s0. apply IH.
Qed.

Lemma get_execution_order_no_recursion_error (workflow : Workflow) :
  _get_execution_order workflow ≠ Raise RecursionError.
Proof.
  unfold _get_execution_order.
  destruct (visit_roots _ _ _ _) as [[s|e]|] eqn:Hrun; [done | |].
  - intros [= ->]. unfold visit_roots in Hrun.
    apply for_each_raise_kind in Hrun as [?|[? ?]]; [done | done |].
    intros a s0. case_decide; [done | apply visit_raise_kind].
  - exfalso. revert Hrun. apply visit_roots_terminates.
    + intros k t. apply tasks_by_id_get.
    + apply dependencies_size.
Qed.

Lemma build_closed (tasks : list Task) a b :
  deps_closed tasks →
  edge (build_dependencies tasks) a b →
  b ∈ dict_keys (build_dependencies tasks).
Proof.
  intros Hclosed (t & Ht & _ & Hb)%dependencies_deps.
  apply dependencies_keys. by apply (Hclosed t).
Qed.

Lemma build_no_failure (tasks : list Task) :
  deps_closed tasks →
  no_failure (visit_roots (S (length tasks)) (build_tasks_by_id tasks)
                (build_dependencies tasks) (mkVisit ∅ ∅ [])).
Proof.
  intros Hclosed. apply visit_roots_total.
  - intros k t. apply tasks_by_id_get.
  - intros k. by rewrite tasks_by_id_keys, dependencies_keys.
  - intros a b. by apply build_closed.
  - apply dependencies_size.
Qed.

(** With every dependency inside the workflow, a cycle always ends the
    computation with the circular-dependency [ValueError]. *)
Lemma get_execution_order_cycle (workflow : Workflow) :
  deps_closed (wf_tasks workflow) →
  has_cycle (wf_tasks workflow) →
  _get_execution_order workflow = Raise (ValueError circular_msg).
Proof.
  intros Hclosed [a Hcyc]. unfold _get_execution_order.
  pose proof (build_no_failure _ Hclosed) as Hnf.
  destruct (visit_roots _ _ _ _) as [[s|e]|] eqn:Hrun; simpl in Hnf;
    [| by subst | done].
  exfalso.
  apply visit_roots_ok in Hrun as (Hall & Hord & _ & _);
    [| intros k t; apply tasks_by_id_get].
  assert (Hedge : tc (edge (build_dependencies (wf_tasks workflow))) a a).
  { eapply tc_impl; [| exact Hcyc]. intros x y. apply dependencies_deps. }
  apply (deps_first_acyclic _ _ _ Hord Hedge), Hall, tasks_by_id_keys.
  assert (∃ b, depends_on (wf_tasks workflow) a b) as (b & t & Ht & <- & _).
  { inversion Hcyc; eauto. }
  apply list_elem_of_fmap. by exists t.
Qed.

(** Without a cycle the computation returns every task once, and every
    task is listed BEFORE the tasks it depends on. *)
Lemma get_execution_order_acyclic (workflow : Workflow) :
  deps_closed (wf_tasks workflow) →
  ¬ has_cycle (wf_tasks workflow) →
  ∃ l, _get_execution_order workflow = Ok l ∧
       (∀ t, t ∈ wf_tasks workflow → task_id t ∈ task_id <$> l) ∧
       (∀ t, t ∈ l → t ∈ wf_tasks workflow) ∧
       NoDup (task_id <$> l) ∧
       (∀ l1 t l2 d, l = l1 ++ t :: l2 →
          depends_on (wf_tasks workflow) (task_id t) d → d ∈ task_id <$> l2).
Proof.
  intros Hclosed Hacyc. unfold _get_execution_order.
  pose proof (build_no_failure _ Hclosed) as Hnf.
  destruct (visit_roots _ _ _ _) as [[s|e]|] eqn:Hrun; simpl in Hnf;
    [| | done].
  - apply visit_roots_ok in Hrun as (Hall & Hord & Hnd & Hfrom);
      [| intros k t; apply tasks_by_id_get].
    exists (reverse (order s)). unfold order_ids in *. split_and!.
    + done.
    + intros t Ht. rewrite fmap_reverse, elem_of_reverse.
      apply Hall, tasks_by_id_keys, list_elem_of_fmap. by exists t.
    + intros t Ht. rewrite elem_of_reverse in Ht.
      by apply Hfrom, tasks_by_id_get in Ht as [? _].
    + by rewrite fmap_reverse, reverse_Permutation.
    + intros l1 t l2 d Heq Hd.
      apply (f_equal reverse) in Heq.
      rewrite reverse_involutive, reverse_app, reverse_cons, <-app_assoc in Heq.
      simpl in Heq.
      assert (d ∈ task_id <$> reverse l2) as Hin.
      { apply (Hord (task_id <$> reverse l2) (task_id t) (task_id <$> reverse l1)).
        - by rewrite Heq, fmap_app, fmap_cons.
        - by apply dependencies_deps. }
      by rewrite fmap_reverse, elem_of_reverse in Hin.
  - subst e. exfalso. apply Hacyc.
    apply visit_roots_raise_cycle in Hrun as [c Hc].
    2: { intros k t. apply tasks_by_id_get. }
    2: { intros k. by rewrite tasks_by_id_keys, dependencies_keys. }
    2: { intros x y. by apply build_closed. }
    exists c. eapply tc_impl; [| exact Hc]. intros x y. apply dependencies_deps.
Qed.

(** ** C1: the execution order *)

(** C1 (the code departs from the claim).  On a workflow whose text
    extraction depends on preprocessing, [_get_execution_order] returns the
    dependent task first and its dependency last: the final [reversed]
    turns the dependencies-first order of the traversal around. *)
Theorem execution_order_lists_dependent_first :
  _get_execution_order two_stage_workflow = Ok [extract_text_1; preprocess_1]
  ∧ task_id preprocess_1 ∈ dependencies extract_text_1.
Proof. split; [by vm_compute | by apply list_elem_of_singleton]. Qed.

(** ** C9: the error raised on a cycle *)

(** C9 as stated fails: on two tasks that depend on each other the error
    is the [ValueError] with the fixed text, which mentions neither id. *)
Lemma cycle_error_names_no_task :
  has_cycle (wf_tasks cyclic_workflow)
  ∧ _get_execution_order cyclic_workflow = Raise (ValueError circular_msg)
  ∧ Forall (λ t, mentions circular_msg (task_id t) = false)
      (wf_tasks cyclic_workflow).
Proof.
  split_and!.
  - exists "wf_2_preprocess".
    apply tc_l with "wf_2_extract_text"; [| apply tc_once].
    + exists (new_task "wf_2_preprocess" PREPROCESS ["wf_2_extract_text"]).
      split_and!; [by left | done | by apply list_elem_of_singleton].
    + exists (new_task "wf_2_extract_text" EXTRACT_TEXT ["wf_2_preprocess"]).
      split_and!; [right; by left | done | by apply list_elem_of_singleton].
  - by vm_compute.
  - repeat constructor.
Qed.

(** C9 (amended).  When every dependency id names a task of the workflow
    and the dependency graph has a cycle, [_get_execution_order] raises
    [ValueError("Circular dependency detected in workflow tasks")]: a fixed
    message that names no task. *)
Theorem cycle_raises_circular_dependency (workflow : Workflow) :
  deps_closed (wf_tasks workflow) →
  has_cycle (wf_tasks workflow) →
  _get_execution_order workflow = Raise (ValueError circular_msg).
Proof. apply get_execution_order_cycle. Qed.

Lemma cyclic_workflow_closed : deps_closed (wf_tasks cyclic_workflow).
Proof.
  intros t d Ht Hd. simpl in Ht.
  repeat (apply elem_of_cons in Ht as [->|Ht]);
    try (by apply elem_of_nil in Ht);
    simpl in Hd; apply list_elem_of_singleton in Hd as ->; simpl.
  - right. by left.
  - by left.
Defined.

Lemma cyclic_workflow_has_cycle : has_cycle (wf_tasks cyclic_workflow).
Proof.
  exists "wf_2_preprocess".
  apply tc_l with "wf_2_extract_text"; [| apply tc_once].
  - exists (new_task "wf_2_preprocess" PREPROCESS ["wf_2_extract_text"]).
    split_and!; [by left | done | by apply list_elem_of_singleton].
  - exists (new_task "wf_2_extract_text" EXTRACT_TEXT ["wf_2_preprocess"]).
    split_and!; [right; by left | done | by apply list_elem_of_singleton].
Defined.

Lemma cycle_raises_circular_dependency_witness :
  deps_closed (wf_tasks cyclic_workflow)
  ∧ has_cycle (wf_tasks cyclic_workflow)
  ∧ _get_execution_order cyclic_workflow = Raise (ValueError circular_msg).
Proof.
  split_and!.
  - exact cyclic_workflow_closed.
  - exact cyclic_workflow_has_cycle.
  - apply (cycle_raises_circular_dependency cyclic_workflow).
    + exact cyclic_workflow_closed.
    + exact cyclic_workflow_has_cycle.
Defined.

(** ** C10: the status of an unknown workflow *)

(** C10.  For an id that is not in the store, [get_workflow_status] returns
    the payload with status "not_found" and the queried id, and
    [execute_workflow] raises [ValueError("Workflow not found: ...")]. *)
Theorem missing_workflow_status_not_found
    (db : gmap string Workflow) (workflow_id : string) :
  db !! workflow_id = None →
  get_workflow_status db workflow_id
    = [("workflow_id", VStr workflow_id); ("status", VStr "not_found")]
  ∧ ∀ max_concurrency now later,
      execute_workflow_start db workflow_id max_concurrency now later
      = Raise (ValueError ("Workflow not found: " +:+ workflow_id)).
Proof.
  intros Hnone. unfold get_workflow_status, execute_workflow_start.
  by rewrite Hnone.
Qed.

Lemma missing_workflow_status_not_found_witness :
  (∅ : gmap string Workflow) !! "wf_404" = None
  ∧ get_workflow_status ∅ "wf_404"
    = [("workflow_id", VStr "wf_404"); ("status", VStr "not_found")]
  ∧ ∀ max_concurrency now later,
      execute_workflow_start ∅ "wf_404" max_concurrency now later
      = Raise (ValueError "Workflow not found: wf_404").
Proof.
  split; [reflexivity |].
  apply (missing_workflow_status_not_found ∅ "wf_404"). reflexivity.
Defined.

(** ** Facts about task lookup and update *)

Lemma find_task_Some (tasks : list Task) tid t :
  find_task tasks tid = Some t → task_id t = tid ∧ t ∈ tasks.
Proof.
  unfold find_task. induction tasks as [|t0 tasks IH]; simpl; [done |].
  case_bool_decide as Hid.
  - intros [= ->]. split; [done | by left].
  - intros [? ?]%IH. split; [done | by right].
Qed.

Lemma find_task_None (tasks : list Task) tid :
  find_task tasks tid = None → tid ∉ task_id <$> tasks.
Proof.
  unfold find_task. induction tasks as [|t0 tasks IH]; csimpl.
  - intros _ ?%elem_of_nil. done.
  - case_bool_decide as Hid; [done |].
    intros Hnone%IH. intros [?|?]%elem_of_cons; congruence.
Qed.

Lemma find_task_unique (tasks : list Task) t :
  NoDup (task_id <$> tasks) → t ∈ tasks → find_task tasks (task_id t) = Some t.
Proof.
  unfold find_task. induction tasks as [|t0 tasks IH]; csimpl.
  - by intros _ ?%elem_of_nil.
  - intros [Hnin Hnd]%NoDup_cons [->|Hin]%elem_of_cons.
    + by rewrite bool_decide_eq_true_2.
    + rewrite bool_decide_eq_false_2; [by apply IH |].
      intros Heq. apply Hnin. rewrite Heq. apply list_elem_of_fmap. by exists t.
Qed.

Lemma find_task_update (tasks : list Task) tid f k :
  (∀ t, task_id (f t) = task_id t) →
  find_task (update_task tid f tasks) k
  = (λ t, if decide (task_id t = tid) then f t else t) <$> find_task tasks k.
Proof.
  intros Hf. unfold find_task, update_task.
  induction tasks as [|t0 tasks IH]; csimpl; [done |].
  destruct (decide (task_id t0 = tid)) as [Heq|Hne].
  - rewrite Hf. case_bool_decide; [| done].
    simpl. by rewrite decide_True.
  - case_bool_decide; [| done]. simpl. by rewrite decide_False.
Qed.

Lemma update_task_static (tasks : list Task) tid f :
  (∀ t, static (f t) = static t) →
  static <$> update_task tid f tasks = static <$> tasks.
Proof.
  intros Hf. unfold update_task. rewrite <-list_fmap_compose.
  apply list_fmap_ext. intros i t _. simpl. by case_decide.
Qed.

Lemma update_task_elem (tasks : list Task) tid f t' :
  t' ∈ update_task tid f tasks →
  ∃ t, t ∈ tasks ∧ t' = if decide (task_id t = tid) then f t else t.
Proof.
  unfold update_task. intros (t & -> & Ht)%list_elem_of_fmap. by exists t.
Qed.

Lemma update_task_cases (tasks : list Task) tid f t' :
  t' ∈ update_task tid f tasks →
  (∃ t, t ∈ tasks ∧ task_id t = tid ∧ t' = f t)
  ∨ (t' ∈ tasks ∧ task_id t' ≠ tid).
Proof.
  intros (t & Ht & ->)%update_task_elem.
  case_decide; [left; by exists t | by right].
Qed.

Lemma static_ids (tasks tasks' : list Task) :
  static <$> tasks' = static <$> tasks → task_id <$> tasks' = task_id <$> tasks.
Proof.
  intros Heq.
  assert (∀ l : list Task, task_id <$> l = (λ x, x.1.1) <$> (static <$> l)) as Hid.
  { intros l. rewrite <-list_fmap_compose. by apply list_fmap_ext. }
  by rewrite !Hid, Heq.
Qed.

(** ** C5: a cyclic dependency graph *)

Lemma for_each_raise_prop {A S} (P : exn → Prop)
    (body : A → S → option (py S)) l s e :
  (∀ a s0 e0, body a s0 = Some (Raise e0) → P e0) →
  for_each body l s = Some (Raise e) → P e.
Proof.
  intros Hbody. revert s. induction l as [|a l IH]; intros s; simpl; [done |].
  destruct (body a s) as [[s1|e1]|] eqn:Ha; [by apply IH | | done].
  intros [= ->]. by eapply Hbody.
Qed.

Lemma visit_raise_key fuel T D tid st e :
  visit fuel T D tid st = Some (Raise e) →
  e = ValueError circular_msg
  ∨ ∃ k, e = KeyError k ∧ (dict_get D k = None ∨ dict_get T k = None).
Proof.
  revert tid st e. induction fuel as [|fuel IH]; intros tid st e; simpl; [done |].
  destruct (decide (tid ∈ temp_visited st)); [intros [= <-]; by left |].
  destruct (decide (tid ∈ visited st)); [done |].
  destruct (dict_get D tid) as [ds|] eqn:HD;
    [| intros [= <-]; right; exists tid; auto].
  destruct (for_each _ ds _) as [[s2|e2]|] eqn:Hloop; [| | done].
  - destruct (dict_get T tid) eqn:HT; [done |].
    intros [= <-]. right. exists tid. auto.
  - intros [= ->].
    apply (for_each_raise_prop _ _ _ _ _ (λ a s0 e0, IH a s0 e0) Hloop).
Qed.

Lemma dict_get_None_keys {V} (d : dict V) k :
  dict_get d k = None → k ∉ dict_keys d.
Proof.
  intros Hget Hin%dict_get_keys. rewrite Hget in Hin. by destruct Hin.
Qed.

(** On a cycle [_get_execution_order] raises, whatever else is wrong with
    the dependencies. *)
Lemma get_execution_order_cycle_raises (workflow : Workflow) :
  has_cycle (wf_tasks workflow) →
  ∃ e, _get_execution_order workflow = Raise e
       ∧ order_error (wf_tasks workflow) e.
Proof.
  intros [a Hcyc].
  pose proof (get_execution_order_no_recursion_error workflow) as Hrec.
  unfold _get_execution_order in *.
  destruct (visit_roots _ _ _ _) as [[s|e]|] eqn:Hrun; [| | done].
  - exfalso.
    apply visit_roots_ok in Hrun as (Hall & Hord & _ & _);
      [| intros k t; apply tasks_by_id_get].
    assert (Hedge : tc (edge (build_dependencies (wf_tasks workflow))) a a).
    { eapply tc_impl; [| exact Hcyc]. intros x y. apply dependencies_deps. }
    apply (deps_first_acyclic _ _ _ Hord Hedge), Hall, tasks_by_id_keys.
    assert (∃ b, depends_on (wf_tasks workflow) a b) as (b & t & Ht & <- & _).
    { inversion Hcyc; eauto. }
    apply list_elem_of_fmap. by exists t.
  - exists e. split; [done |]. unfold visit_roots in Hrun.
    assert (e = ValueError circular_msg
            ∨ ∃ k, e = KeyError k
                   ∧ (dict_get (build_dependencies (wf_tasks workflow)) k = None
                      ∨ dict_get (build_tasks_by_id (wf_tasks workflow)) k = None))
      as [->|(k & -> & Hk)].
    { revert Hrun.
      apply (for_each_raise_prop
               (λ e, e = ValueError circular_msg
                     ∨ ∃ k, e = KeyError k
                            ∧ (dict_get (build_dependencies (wf_tasks workflow)) k
                               = None
                               ∨ dict_get (build_tasks_by_id (wf_tasks workflow)) k
                                 = None))).
      intros a0 s0 e0. case_decide; [done | apply visit_raise_key]. }
    + by left.
    + right. exists k. split; [done |].
      destruct Hk as [Hk%dict_get_None_keys|Hk%dict_get_None_keys].
      * by rewrite dependencies_keys in Hk.
      * by rewrite tasks_by_id_keys in Hk.
Qed.

Section engine_facts.
Variable py_sum : list value → py value.
Variable py_truediv : value → nat → py value.

(** C5 (amended).  When the dependency graph of a stored workflow has a
    cycle, [execute_workflow] ends at once by raising the error of
    [_get_execution_order]: the state it leaves has the workflow Failed
    with that error, every task exactly as it was, no coroutine started,
    and no step left to take.  The error is the cycle error when every
    dependency id names a task of the workflow; otherwise it is the cycle
    error or the [KeyError] of an id that names no task, whichever the
    traversal meets first. *)
Theorem cycle_fails_workflow_without_dispatch
    db workflow_id max_concurrency now later w :
  db !! workflow_id = Some w →
  has_cycle (wf_tasks w) →
  ∃ s e, execute_workflow_start db workflow_id max_concurrency now later = Ok s
         ∧ main s = Raised e
         ∧ order_error (wf_tasks w) e
         ∧ (deps_closed (wf_tasks w) → e = ValueError circular_msg)
         ∧ wf_status (workflow s) = FAILED
         ∧ wf_error (workflow s) = Some (py_str e)
         ∧ tasks_of s = wf_tasks w
         ∧ coros s = []
         ∧ ∀ ev, step py_sum py_truediv s ev = None.
Proof.
  intros Hw Hcyc.
  destruct (get_execution_order_cycle_raises (workflow_running now w) Hcyc)
    as (e & He & Hkind).
  unfold execute_workflow_start. rewrite Hw, He.
  eexists _, e. split; [done |].
  split_and!; try done.
  - intros Hclosed.
    rewrite (get_execution_order_cycle (workflow_running now w)) in He by done.
    congruence.
  - by intros [tid|tid now'|tid o now'|tid|now'].
Qed.

End engine_facts.

(** C5 as stated fails: the graph has a cycle, but the traversal first
    meets the dependency on a task that does not exist, so what
    [execute_workflow] raises and stores as the workflow's error is the
    [KeyError] of that id, not the cycle error. *)
Lemma cycle_behind_missing_task_raises_key_error :
  (tc (depends_on (wf_tasks ghost_workflow)) "wf_9_extract_text" "wf_9_extract_text")
  ∧ observe <$> run_workflow example_sum example_truediv ghost_db "wf_9" 4
                  "t0" "t1" []
    = Some (FAILED, Some "'wf_9_ghost'",
            [ ("wf_9_preprocess", PENDING); ("wf_9_extract_text", PENDING);
              ("wf_9_analyze_layout", PENDING) ],
            Raised (KeyError "wf_9_ghost")).
Proof.
  split; [| by vm_compute].
  apply tc_l with "wf_9_analyze_layout"; [| apply tc_once].
  - exists (new_task "wf_9_extract_text" EXTRACT_TEXT ["wf_9_analyze_layout"]).
    split_and!; [right; by left | done | by apply list_elem_of_singleton].
  - exists (new_task "wf_9_analyze_layout" ANALYZE_LAYOUT ["wf_9_extract_text"]).
    split_and!; [right; right; by left | done | by apply list_elem_of_singleton].
Qed.

Lemma cycle_fails_workflow_without_dispatch_witness :
  let db : gmap string Workflow := {["wf_2" := cyclic_workflow]} in
  db !! "wf_2" = Some cyclic_workflow
  ∧ has_cycle (wf_tasks cyclic_workflow)
  ∧ ∃ s, execute_workflow_start db "wf_2" 4 "t0" "t1" = Ok s
         ∧ main s = Raised (ValueError circular_msg)
         ∧ wf_status (workflow s) = FAILED
         ∧ wf_error (workflow s) = Some circular_msg
         ∧ tasks_of s = wf_tasks cyclic_workflow
         ∧ coros s = []
         ∧ ∀ ev, step example_sum example_truediv s ev = None.
Proof.
  cbv zeta.
  assert (H1 : ({["wf_2" := cyclic_workflow]} : gmap string Workflow) !! "wf_2"
               = Some cyclic_workflow) by reflexivity.
  split; [exact H1 |]. split; [exact cyclic_workflow_has_cycle |].
  destruct (cycle_fails_workflow_without_dispatch example_sum example_truediv
              {["wf_2" := cyclic_workflow]} "wf_2" 4 "t0" "t1" cyclic_workflow
              H1 cyclic_workflow_has_cycle)
    as (s & e & Hs & Hm & _ & He & Hst & Herr & Ht & Hc & Hstep).
  rewrite (He cyclic_workflow_closed) in *.
  exists s. by split_and!.
Defined.

(** ** Invariants of the transition system *)

Lemma mark_running_id now t : task_id (mark_running now t) = task_id t.
Proof. done. Qed.

Lemma mark_completed_id r now t : task_id (mark_completed r now t) = task_id t.
Proof. done. Qed.

Lemma mark_failed_id msg now t : task_id (mark_failed msg now t) = task_id t.
Proof. done. Qed.

(** The status of task [k] after an assignment to task [tid]. *)
Lemma status_update (tasks : list Task) tid f k :
  (∀ t, task_id (f t) = task_id t) →
  status <$> find_task (update_task tid f tasks) k
  = if decide (k = tid) then status ∘ f <$> find_task tasks k
    else status <$> find_task tasks k.
Proof.
  intros Hf. rewrite find_task_update by done.
  destruct (find_task tasks k) as [t|] eqn:Hk; simpl; [| by case_decide].
  apply find_task_Some in Hk as [<- _]. by repeat case_decide.
Qed.

Ltac step_inv H :=
  unfold step, resume_main in H;
  repeat case_match; simplify_eq.

Section engine_invariants.
Variable py_sum : list value → py value.
Variable py_truediv : value → nat → py value.

Local Abbreviation step' := (step py_sum py_truediv).
Local Abbreviation run' := (run py_sum py_truediv).

(** A step never touches the id, the type or the dependencies of a task. *)
Lemma step_static s ev s' :
  step' s ev = Some s' → static <$> tasks_of s' = static <$> tasks_of s.
Proof.
  intros Hstep. destruct ev; step_inv Hstep; try done.
  - unfold begin_task. case_match; [| done].
    unfold tasks_of. simpl. by apply update_task_static.
  - unfold finish_task. case_match; unfold tasks_of; simpl;
      by apply update_task_static.
Qed.

(** How the status of task [k] can change in one step. *)
Lemma step_status s ev s' k :
  step' s ev = Some s' →
  status_of s' k = status_of s k
  ∨ (∃ t now, ev = Begin k now ∧ find_task (tasks_of s) k = Some t
       ∧ can_execute (tasks_of s) t = true
       ∧ dict_get (coros s) k = Some Holding
       ∧ dict_get (coros s') k = Some Awaiting
       ∧ status_of s' k = Some RUNNING)
  ∨ (∃ t o now, ev = Finish k o now ∧ find_task (tasks_of s) k = Some t
       ∧ dict_get (coros s) k = Some Awaiting
       ∧ ((status_of s' k = Some COMPLETED
           ∧ dict_get (coros s') k = Some (Leaving None))
          ∨ (∃ e, status_of s' k = Some FAILED
                  ∧ dict_get (coros s') k = Some (Leaving (Some e))))).
Proof.
  intros Hstep. destruct ev as [tid|tid now|tid o now|tid|now];
    step_inv Hstep; try (by left).
  - match goal with H : find_task _ tid = Some ?t |- _ =>
      pose proof (find_task_Some _ _ _ H) as [Hid _]; rename H into Hfind end.
    unfold begin_task. destruct (can_execute _ _) eqn:Hcan; [| by left].
    unfold status_of, tasks_of, set_coro in *. simpl. rewrite Hid.
    rewrite status_update by done.
    case_decide as Hk; [| by left]. subst k.
    right. left. eexists _, now.
    split_and!; [done | done | done | done | apply dict_get_set_eq |].
    by rewrite Hfind.
  - match goal with H : find_task _ tid = Some ?t |- _ =>
      pose proof (find_task_Some _ _ _ H) as [Hid _]; rename H into Hfind end.
    unfold finish_task, status_of, tasks_of, set_coro in *.
    destruct (run_executor _ _ _ _ _) as [r|e]; simpl; rewrite Hid;
      rewrite status_update by done;
      (case_decide as Hk; [| by left]); subst k;
      right; right; eexists _, o, now;
      (split_and!; [done | done | done |]);
      rewrite Hfind; simpl.
    + left. split; [done | apply dict_get_set_eq].
    + right. exists e. split; [done | apply dict_get_set_eq].
Qed.

(** How the position of coroutine [k] can change in one step. *)
Lemma step_coro s ev s' k :
  step' s ev = Some s' →
  dict_get (coros s') k = dict_get (coros s) k
  ∨ (ev = Acquire k ∧ dict_get (coros s) k = Some Queued
       ∧ dict_get (coros s') k = Some Holding)
  ∨ (∃ now, ev = Begin k now ∧ dict_get (coros s) k = Some Holding
       ∧ ((dict_get (coros s') k = Some Awaiting
           ∧ status_of s' k = Some RUNNING)
          ∨ (dict_get (coros s') k = Some (Leaving None)
             ∧ tasks_of s' = tasks_of s)))
  ∨ (∃ o now r, ev = Finish k o now ∧ dict_get (coros s) k = Some Awaiting
       ∧ dict_get (coros s') k = Some (Leaving r))
  ∨ (∃ r, ev = Release k ∧ dict_get (coros s) k = Some (Leaving r)
       ∧ dict_get (coros s') k = Some (Finished r)).
Proof.
  intros Hstep. destruct ev as [tid|tid now|tid o now|tid|now];
    step_inv Hstep; try (by left); simpl.
  - unfold set_coro. rewrite dict_get_set. case_decide; [subst | by left].
    right. left. done.
  - match goal with H : find_task _ tid = Some ?t |- _ =>
      pose proof (find_task_Some _ _ _ H) as [Hid _]; rename H into Hfind end.
    unfold begin_task, set_coro.
    destruct (can_execute _ _); simpl; rewrite Hid, dict_get_set;
      (case_decide; [subst k | by left]); right; right; left;
      exists now; (split_and!; [done | done |]).
    + left. split; [done |]. unfold status_of, tasks_of. simpl.
      rewrite status_update by done. rewrite decide_True by done.
      by rewrite Hfind.
    + right. done.
  - match goal with H : find_task _ tid = Some ?t |- _ =>
      pose proof (find_task_Some _ _ _ H) as [Hid _] end.
    unfold finish_task, set_coro.
    destruct (run_executor _ _ _ _ _); simpl; rewrite Hid, dict_get_set;
      (case_decide; [subst | by left]); right; right; right; left;
      eexists o, now, _; auto.
  - unfold set_coro. rewrite dict_get_set. case_decide; [subst | by left].
    right. right. right. right. eexists. split_and!; done.
  - unfold set_coro. rewrite dict_get_set. case_decide; [subst | by left].
    right. right. right. right. eexists. split_and!; done.
Qed.

Lemma step_awaiting_running s ev s' :
  step' s ev = Some s' → awaiting_running s → awaiting_running s'.
Proof.
  intros Hstep Hinv k Hk.
  destruct (step_coro _ _ _ k Hstep)
    as [Heq|[(_ & _ & ?)|[(now & _ & _ & [[_ ?]|[? _]])
        |[(?&?&?& _ & _ & ?)|(?& _ & _ & ?)]]]];
    try congruence.
  rewrite Heq in Hk. specialize (Hinv k Hk).
  destruct (step_status _ _ _ k Hstep)
    as [->|[(?&?& _ &_&_&?&_)|(?&?&?& _ &_&_&[[_ ?]|(?&_&?)])]]; congruence.
Qed.

Lemma run_invariant (P : ExecState → Prop) :
  (∀ s ev s', step' s ev = Some s' → P s → P s') →
  ∀ evs s s', run' s evs = Some s' → P s → P s'.
Proof.
  intros Hstep evs. induction evs as [|ev evs IH]; intros s s'; simpl.
  - by intros [= ->].
  - destruct (step' s ev) as [s1|] eqn:Hs; [| done].
    intros Hrun HP. apply (IH s1 s'); [done |]. by apply (Hstep s ev).
Qed.

Lemma run_app evs1 evs2 s :
  run' s (evs1 ++ evs2) = run' s evs1 ≫= λ s1, run' s1 evs2.
Proof.
  revert s. induction evs1 as [|ev evs1 IH]; intros s; simpl; [done |].
  destruct (step' s ev); simpl; [apply IH | done].
Qed.

Lemma can_execute_spec tasks t :
  can_execute tasks t = true ↔
  status t = PENDING ∧
  ∀ d, d ∈ dependencies t →
       ∃ t', find_task tasks d = Some t' ∧ status t' = COMPLETED.
Proof.
  unfold can_execute. rewrite andb_true_iff, bool_decide_eq_true.
  rewrite forallb_forall. split; intros [Hp Hd]; (split; [done |]).
  - intros d Hin%list_elem_of_In. specialize (Hd d Hin).
    destruct (find_task tasks d) as [t'|]; [| done].
    apply bool_decide_eq_true in Hd. eauto.
  - intros d Hin%list_elem_of_In. destruct (Hd d Hin) as (t' & -> & Hs).
    by apply bool_decide_eq_true.
Qed.

(** The states an execution starts in. *)
Lemma start_coros db workflow_id max_concurrency now later s k pc :
  execute_workflow_start db workflow_id max_concurrency now later = Ok s →
  dict_get (coros s) k = Some pc → pc = Queued.
Proof.
  unfold execute_workflow_start. destruct (db !! workflow_id) as [w|]; [| done].
  destruct (_get_execution_order _) as [l|e]; intros [= <-]; simpl; [| done].
  induction l as [|t l IH]; csimpl; [done |].
  case_decide; [by intros [= <-] | done].
Qed.

Lemma start_tasks db workflow_id max_concurrency now later s :
  execute_workflow_start db workflow_id max_concurrency now later = Ok s →
  ∃ w, db !! workflow_id = Some w ∧ tasks_of s = wf_tasks w.
Proof.
  unfold execute_workflow_start. destruct (db !! workflow_id) as [w|]; [| done].
  destruct (_get_execution_order _) as [l|e]; intros [= <-]; by exists w.
Qed.

Lemma start_awaiting_running db workflow_id max_concurrency now later s :
  execute_workflow_start db workflow_id max_concurrency now later = Ok s →
  awaiting_running s.
Proof.
  intros Hstart k Hk. by apply (start_coros _ _ _ _ _ _ _ _ Hstart) in Hk.
Qed.

(** ** C3: dependencies are Completed when a task starts *)

(** C3.  Whenever a step takes task [a] to Running, every task [b] that
    [a] lists as a dependency is Completed, before and after the step.
    ([can_execute] is modelled from the spec.) *)
Theorem running_requires_completed_dependencies s ev s' a ta b :
  step' s ev = Some s' →
  find_task (tasks_of s) a = Some ta →
  status ta ≠ RUNNING →
  status_of s' a = Some RUNNING →
  b ∈ dependencies ta →
  status_of s b = Some COMPLETED ∧ status_of s' b = Some COMPLETED.
Proof.
  intros Hstep Hfind Hnot Hrun Hdep.
  destruct (step_status _ _ _ a Hstep)
    as [Heq|[(t & now & -> & Ht & Hcan & _)|(?&?&?& _ &_&_&[[? _]|(?&?&_)])]];
    [| | congruence | congruence].
  { rewrite Heq in Hrun. unfold status_of in Hrun. rewrite Hfind in Hrun.
    simpl in Hrun. congruence. }
  rewrite Hfind in Ht. injection Ht as <-.
  apply can_execute_spec in Hcan as [Hpending Hdeps].
  destruct (Hdeps b Hdep) as (tb & Hb & Hdone).
  assert (Hsb : status_of s b = Some COMPLETED).
  { unfold status_of. by rewrite Hb, <-Hdone. }
  split; [done |].
  destruct (step_status _ _ _ b Hstep)
    as [->|[(t & ? & [= <- _] & Ht & _)|(?&?&?& [=] & _)]]; [done |].
  rewrite Hfind in Ht. injection Ht as <-. rewrite Hb in Hfind.
  injection Hfind as ->. congruence.
Qed.

(** ** C7: status transitions *)

Lemma step_legal s ev s' k x y :
  step' s ev = Some s' →
  awaiting_running s →
  status_of s k = Some x →
  status_of s' k = Some y →
  x = y ∨ legal_transition x y.
Proof.
  intros Hstep Hinv Hx Hy.
  destruct (step_status _ _ _ k Hstep)
    as [Heq|[(t & now & _ & Ht & Hcan & _ & _ & Hr)
            |(t & o & now & _ & Ht & Ha & Hcf)]].
  - left. congruence.
  - right. left. apply can_execute_spec in Hcan as [Hp _].
    unfold status_of in Hx. rewrite Ht in Hx. simpl in Hx. split; congruence.
  - right. right. apply Hinv in Ha.
    destruct Hcf as [[? _]|(e & ? & _)]; [left | right]; split; congruence.
Qed.

Lemma execute_task_skip tasks t o now later :
  can_execute tasks t = false →
  _execute_task py_sum py_truediv tasks t o now later = (tasks, Ok tt).
Proof. intros Hcan. unfold _execute_task. by rewrite Hcan. Qed.

(** C7 (amended).  In every execution, a step changes the status of a task
    only from Pending to Running, from Running to Completed or from
    Running to Failed; and [_execute_task] on a task that cannot be
    executed (not Pending, or with a dependency that is not Completed) is
    a no-op that returns normally: no task changes and nothing is
    raised. *)
Theorem only_legal_transitions_and_skip_is_silent
    db workflow_id max_concurrency now later s0 evs s ev s' :
  execute_workflow_start db workflow_id max_concurrency now later = Ok s0 →
  run' s0 evs = Some s →
  step' s ev = Some s' →
  (∀ k x y, status_of s k = Some x → status_of s' k = Some y →
            x = y ∨ legal_transition x y)
  ∧ (∀ t o now later,
       can_execute (tasks_of s) t = false →
       _execute_task py_sum py_truediv (tasks_of s) t o now later
       = (tasks_of s, Ok tt)).
Proof.
  intros Hstart Hrun Hstep. split.
  - intros k x y. apply (step_legal _ _ _ _ _ _ Hstep).
    apply (run_invariant awaiting_running step_awaiting_running _ _ _ Hrun).
    by eapply start_awaiting_running.
  - intros t o now' later'. apply execute_task_skip.
Qed.

(** ** C2: the concurrency bound *)

Lemma count_pcs_set (P : CoroPc → bool) (d : dict CoroPc) k old new :
  dict_get d k = Some old →
  count_pcs P (dict_set d k new) + (if P old then 1 else 0)
  = count_pcs P d + (if P new then 1 else 0).
Proof.
  induction d as [|[k' v'] d IH]; simpl; [done |].
  destruct (decide (k' = k)) as [->|Hne]; simpl.
  - intros [= ->]. lia.
  - intros Hget%IH. lia.
Qed.

Lemma count_pcs_mono (P Q : CoroPc → bool) (d : dict CoroPc) :
  (∀ pc, P pc = true → Q pc = true) → count_pcs P d ≤ count_pcs Q d.
Proof.
  intros HPQ. induction d as [|[k v] d IH]; simpl; [done |].
  destruct (P v) eqn:HP; [rewrite (HPQ _ HP); lia |].
  destruct (Q v); lia.
Qed.

Lemma count_pcs_keys (P : CoroPc → bool) (d : dict CoroPc) :
  count_pcs P d = length (filter (λ c, P c.2 = true) d).
Proof.
  induction d as [|[k v] d IH]; simpl; [done |].
  rewrite filter_cons. simpl. destruct (P v) eqn:HP.
  - rewrite decide_True by done. simpl. by rewrite IH.
  - rewrite decide_False by congruence. by rewrite IH.
Qed.

Lemma dict_get_elem {V} (d : dict V) k v : dict_get d k = Some v → (k, v) ∈ d.
Proof.
  induction d as [|[k' v'] d IH]; simpl; [done |].
  case_decide as Hk.
  - intros [= ->]. subst. by left.
  - intros ?%IH. by right.
Qed.

Lemma NoDup_filter_ids (P : Task → Prop) `{∀ t, Decision (P t)}
    (tasks : list Task) :
  NoDup (task_id <$> tasks) → NoDup (task_id <$> filter P tasks).
Proof.
  induction tasks as [|t tasks IH]; csimpl; [done |].
  intros [Hnin Hnd]%NoDup_cons. rewrite filter_cons.
  case_decide; [| by apply IH].
  csimpl. apply NoDup_cons. split; [| by apply IH].
  intros (t' & Hid & [_ Hin]%list_elem_of_filter)%list_elem_of_fmap.
  apply Hnin. apply list_elem_of_fmap. by exists t'.
Qed.

Lemma running_le_awaiting (tasks : list Task) (cs : dict CoroPc) :
  NoDup (task_id <$> tasks) →
  (∀ t, t ∈ tasks → status t = RUNNING →
        dict_get cs (task_id t) = Some Awaiting) →
  count_status RUNNING tasks ≤ count_pcs is_awaiting cs.
Proof.
  intros Hnd Hrun. unfold count_status.
  rewrite count_pcs_keys.
  rewrite <-(length_fmap task_id), <-(length_fmap fst (filter _ cs)).
  apply submseteq_length, NoDup_submseteq; [by apply NoDup_filter_ids |].
  intros x (t & -> & [Hs Hin]%list_elem_of_filter)%list_elem_of_fmap.
  apply list_elem_of_fmap. exists (task_id t, Awaiting). split; [done |].
  apply list_elem_of_filter. split; [done |].
  apply dict_get_elem. by apply Hrun.
Qed.

Lemma step_concurrency_inv n s ev s' :
  step' s ev = Some s' → concurrency_inv n s → concurrency_inv n s'.
Proof.
  intros Hstep [Hsem Hrun].
  destruct ev as [tid|tid now|tid o now|tid|now]; step_inv Hstep.
  - (* Acquire *)
    match goal with H : dict_get _ tid = Some Queued |- _ => rename H into Hpc end.
    split; simpl.
    + pose proof (count_pcs_set is_holder _ _ _ Holding Hpc). simpl in *.
      unfold set_coro. lia.
    + intros t Ht Hs. unfold set_coro. rewrite dict_get_set.
      case_decide as Hid; [| by apply Hrun].
      specialize (Hrun t Ht Hs). congruence.
  - (* Begin *)
    match goal with H : dict_get _ tid = Some Holding |- _ => rename H into Hpc end.
    match goal with H : find_task _ tid = Some ?t |- _ =>
      pose proof (find_task_Some _ _ _ H) as [Hid _] end.
    subst tid.
    unfold begin_task. destruct (can_execute _ _) eqn:Hcan; split; simpl.
    + pose proof (count_pcs_set is_holder _ _ _ Awaiting Hpc). simpl in *.
      unfold set_coro. lia.
    + intros t' [(t0 & Ht0 & Hid0 & ->)|[Ht' Hne]]%update_task_cases Hs;
        unfold set_coro; rewrite dict_get_set.
      * by rewrite decide_True.
      * rewrite decide_False by done. by apply Hrun.
    + pose proof (count_pcs_set is_holder _ _ _ (Leaving None) Hpc). simpl in *.
      unfold set_coro. lia.
    + intros t' Ht' Hs. unfold set_coro. rewrite dict_get_set.
      case_decide as Heq; [| by apply Hrun].
      specialize (Hrun t' Ht' Hs). congruence.
  - (* Finish *)
    match goal with H : dict_get _ tid = Some Awaiting |- _ => rename H into Hpc end.
    match goal with H : find_task _ tid = Some ?t |- _ =>
      pose proof (find_task_Some _ _ _ H) as [Hid _] end.
    subst tid.
    unfold finish_task. destruct (run_executor _ _ _ _ _) as [r|e]; split; simpl.
    + pose proof (count_pcs_set is_holder _ _ _ (Leaving None) Hpc). simpl in *.
      unfold set_coro. lia.
    + intros t' [(t0 & Ht0 & Hid0 & ->)|[Ht' Hne]]%update_task_cases Hs;
        [done |].
      unfold set_coro. rewrite dict_get_set.
      rewrite decide_False by done. by apply Hrun.
    + pose proof (count_pcs_set is_holder _ _ _ (Leaving (Some e)) Hpc).
      simpl in *. unfold set_coro. lia.
    + intros t' [(t0 & Ht0 & Hid0 & ->)|[Ht' Hne]]%update_task_cases Hs;
        [done |].
      unfold set_coro. rewrite dict_get_set.
      rewrite decide_False by done. by apply Hrun.
  - (* Release, an exception already recorded *)
    match goal with H : dict_get _ tid = Some (Leaving _) |- _ => rename H into Hpc end.
    split; simpl.
    + pose proof (count_pcs_set is_holder _ _ _ (Finished raised) Hpc).
      simpl in *. unfold set_coro. lia.
    + intros t Ht Hs. unfold set_coro. rewrite dict_get_set.
      case_decide as Hid; [| by apply Hrun].
      specialize (Hrun t Ht Hs). congruence.
  - (* Release *)
    match goal with H : dict_get _ tid = Some (Leaving _) |- _ => rename H into Hpc end.
    split; simpl.
    + pose proof (count_pcs_set is_holder _ _ _ (Finished raised) Hpc).
      simpl in *. unfold set_coro. lia.
    + intros t Ht Hs. unfold set_coro. rewrite dict_get_set.
      case_decide as Hid; [| by apply Hrun].
      specialize (Hrun t Ht Hs). congruence.
  - (* Resume after an exception *) by split.
  - (* Resume after all coroutines ended *) by split.
Qed.

Lemma start_state db workflow_id max_concurrency now later s :
  execute_workflow_start db workflow_id max_concurrency now later = Ok s →
  ∃ w, db !! workflow_id = Some w
       ∧ tasks_of s = wf_tasks w
       ∧ sem_value s = max_concurrency
       ∧ count_pcs is_holder (coros s) = 0
       ∧ gather_exception s = None.
Proof.
  unfold execute_workflow_start. destruct (db !! workflow_id) as [w|]; [| done].
  destruct (_get_execution_order _) as [l|e]; intros [= <-]; exists w;
    (split_and!; [done | done | done | | done]); simpl; [| done].
  induction l as [|t l IH]; csimpl; [done | by rewrite IH].
Qed.

Lemma run_ids evs s s' :
  run' s evs = Some s' → task_id <$> tasks_of s' = task_id <$> tasks_of s.
Proof.
  intros Hrun.
  apply (run_invariant (λ x, task_id <$> tasks_of x = task_id <$> tasks_of s))
    with (evs := evs) (s := s); [| done | done].
  intros s1 ev s2 Hstep <-. by apply static_ids, (step_static _ _ _ Hstep).
Qed.

(** C2 (amended).  Take a stored workflow with unique task ids none of
    whose tasks is Running when [execute_workflow] starts.  In every state
    that [execute_workflow] with concurrency bound [max_concurrency] can
    reach, under every schedule and whatever the executors do, at most
    [max_concurrency] tasks are Running. *)
Theorem running_tasks_never_exceed_bound
    db workflow_id max_concurrency now later w s0 evs s :
  db !! workflow_id = Some w →
  NoDup (task_id <$> wf_tasks w) →
  count_status RUNNING (wf_tasks w) = 0 →
  execute_workflow_start db workflow_id max_concurrency now later = Ok s0 →
  run' s0 evs = Some s →
  count_status RUNNING (tasks_of s) ≤ max_concurrency.
Proof.
  intros Hw Hnd Hnone Hstart Hrun.
  destruct (start_state _ _ _ _ _ _ Hstart) as (w' & Hw' & Htasks & Hsem & Hcnt & _).
  assert (w' = w) as -> by congruence.
  assert (concurrency_inv max_concurrency s) as [Hval Hawait].
  { apply (run_invariant _ (step_concurrency_inv max_concurrency) _ _ _ Hrun).
    split; [lia |].
    intros t Ht Hs. exfalso. rewrite Htasks in Ht.
    unfold count_status in Hnone. apply length_zero_iff_nil in Hnone.
    assert (t ∈ filter (λ t, status t = RUNNING) (wf_tasks w)) as Hin
      by by apply list_elem_of_filter.
    rewrite Hnone in Hin. by apply elem_of_nil in Hin. }
  etrans; [apply (running_le_awaiting _ (coros s)) |].
  - by rewrite (run_ids _ _ _ Hrun), Htasks.
  - done.
  - pose proof (count_pcs_mono is_awaiting is_holder (coros s)) as Hmono.
    assert (count_pcs is_awaiting (coros s) ≤ count_pcs is_holder (coros s))
      by (apply Hmono; by intros []).
    lia.
Qed.

(** ** The dependents of a failed task *)

Lemma find_task_static (l l' : list Task) k t' :
  static <$> l' = static <$> l →
  find_task l' k = Some t' →
  ∃ t, find_task l k = Some t ∧ static t = static t'.
Proof.
  revert l. unfold find_task.
  induction l' as [|t0' l' IH]; intros [|t0 l]; csimpl; try done.
  intros [= Hid Hty Hdeps Hrest]. rewrite Hid.
  case_bool_decide; [| by apply IH].
  intros [= <-]. exists t0. split; [done |].
  unfold static. by rewrite Hid, Hty, Hdeps.
Qed.

Lemma completed_stays s ev s' b :
  step' s ev = Some s' →
  awaiting_running s →
  status_of s b = Some COMPLETED →
  status_of s' b = Some COMPLETED.
Proof.
  intros Hstep Hinv Hb.
  destruct (step_status _ _ _ b Hstep)
    as [->|[(t & now & _ & Ht & Hcan & _)|(t & o & now & _ & _ & Ha & _)]];
    [done | |].
  - apply can_execute_spec in Hcan as [Hp _].
    unfold status_of in Hb. rewrite Ht in Hb. simpl in Hb. congruence.
  - apply Hinv in Ha. congruence.
Qed.

Lemma step_started_after_deps s ev s' :
  step' s ev = Some s' →
  awaiting_running s →
  started_after_deps s → started_after_deps s'.
Proof.
  intros Hstep Hinv Hdeps a ta' b Hfind' Hnp Hb.
  destruct (find_task_static _ _ _ _ (step_static _ _ _ Hstep) Hfind')
    as (ta & Hfind & Hst).
  assert (dependencies ta = dependencies ta') as Hsame by (by injection Hst).
  rewrite <-Hsame in Hb.
  apply (completed_stays _ _ _ _ Hstep Hinv).
  destruct (step_status _ _ _ a Hstep)
    as [Heq|[(t & now & _ & Ht & Hcan & _)|(t & o & now & _ & Ht & Ha & _)]].
  - apply (Hdeps a ta b Hfind); [| done].
    unfold status_of in Heq. rewrite Hfind, Hfind' in Heq. simpl in Heq.
    congruence.
  - rewrite Hfind in Ht. injection Ht as <-.
    apply can_execute_spec in Hcan as [_ Hd].
    destruct (Hd b Hb) as (tb & Hfb & Hsb).
    unfold status_of. by rewrite Hfb, <-Hsb.
  - apply (Hdeps a ta b Hfind); [| done].
    apply Hinv in Ha. unfold status_of in Ha. rewrite Hfind in Ha.
    simpl in Ha. congruence.
Qed.

Lemma step_failed_raised s ev s' :
  step' s ev = Some s' → failed_raised s → failed_raised s'.
Proof.
  intros Hstep Hinv k Hk.
  destruct (step_status _ _ _ k Hstep)
    as [Heq|[(t & now & _ & _ & _ & _ & _ & ?)
            |(t & o & now & _ & _ & _ & [[? _]|(e & _ & ?)])]];
    [| congruence | congruence | by eauto].
  rewrite Heq in Hk. destruct (Hinv k Hk) as [e Hpc].
  destruct (step_coro _ _ _ k Hstep)
    as [->|[(_ & ? & _)|[(now & _ & ? & _)
        |[(?&?&?& _ & ? & _)|(r & _ & Hl & Hf)]]]];
    [by eauto | destruct Hpc; congruence | destruct Hpc; congruence
    | destruct Hpc; congruence |].
  exists e. right. destruct Hpc; congruence.
Qed.

Lemma all_finished_ok_get (cs : dict CoroPc) k pc :
  all_finished_ok cs = true → dict_get cs k = Some pc → pc = Finished None.
Proof.
  intros Hall Hget%dict_get_elem. unfold all_finished_ok in Hall.
  rewrite forallb_forall in Hall.
  specialize (Hall (k, pc)). simpl in Hall.
  destruct pc as [| | | |[e|]]; try done;
    by (discriminate Hall; apply list_elem_of_In).
Qed.

Lemma step_main_inv s ev s' :
  step' s ev = Some s' → main_inv s → main_inv s'.
Proof.
  intros Hstep Hinv.
  assert (Hdone : ∀ v k pc, main s = Returned v →
            dict_get (coros s) k = Some pc → pc = Finished None).
  { intros v k pc Hm. unfold main_inv in Hinv. rewrite Hm in Hinv.
    destruct Hinv as (_ & _ & Hall). by apply all_finished_ok_get. }
  assert (Hkeep : ∀ w cs n g,
            wf_status w = wf_status (workflow s) →
            wf_error w = wf_error (workflow s) →
            (∀ v, main s = Returned v → False) →
            main_inv (mkExec w n cs g (main s))).
  { intros w cs n g Hst Herr Hnot. unfold main_inv in *. simpl.
    destruct (main s) as [|v|e]; [congruence | by destruct (Hnot v) |].
    by rewrite Hst, Herr. }
  destruct ev as [tid|tid now|tid o now|tid|now].
  - step_inv Hstep. apply Hkeep; [done | done |].
    intros v Hv. by match goal with H : dict_get _ _ = Some Queued |- _ =>
      apply (Hdone v) in H end.
  - step_inv Hstep.
    match goal with H : dict_get _ _ = Some Holding |- _ => rename H into Hpc end.
    unfold begin_task. destruct (can_execute _ _);
      (apply Hkeep; [done | done |]); intros v Hv; by apply (Hdone v) in Hpc.
  - step_inv Hstep.
    match goal with H : dict_get _ _ = Some Awaiting |- _ => rename H into Hpc end.
    unfold finish_task. destruct (run_executor _ _ _ _ _);
      (apply Hkeep; [done | done |]); intros v Hv; by apply (Hdone v) in Hpc.
  - step_inv Hstep; (apply Hkeep; [done | done |]); intros v Hv;
      by match goal with H : dict_get _ _ = Some (Leaving _) |- _ =>
        apply (Hdone v) in H end.
  - step_inv Hstep; unfold main_inv; simpl; done.
Qed.

Lemma step_gather_inv s ev s' :
  step' s ev = Some s' → gather_inv s → gather_inv s'.
Proof.
  intros Hstep Hinv k e Hk.
  assert (is_Some (gather_exception s) → is_Some (gather_exception s')) as Hmono.
  { destruct ev; step_inv Hstep; simpl; try done.
    - unfold begin_task. by case_match.
    - unfold finish_task. by case_match. }
  destruct (step_coro _ _ _ k Hstep)
    as [Heq|[(_ & _ & ?)|[(now & _ & _ & [[? _]|[? _]])
        |[(?&?&?& _ & _ & ?)|(r & -> & Hl & Hf)]]]];
    try congruence.
  - rewrite Heq in Hk. by eapply Hmono, Hinv.
  - assert (r = Some e) as -> by congruence.
    unfold step in Hstep. rewrite Hl in Hstep. simplify_eq. simpl.
    by destruct (gather_exception s).
Qed.

Lemma run_static evs s s' :
  run' s evs = Some s' → static <$> tasks_of s' = static <$> tasks_of s.
Proof.
  intros Hrun.
  apply (run_invariant (λ x, static <$> tasks_of x = static <$> tasks_of s))
    with (evs := evs) (s := s); [| done | done].
  intros s1 ev s2 Hstep <-. by apply (step_static _ _ _ Hstep).
Qed.

Lemma start_main_inv db workflow_id max_concurrency now later s :
  execute_workflow_start db workflow_id max_concurrency now later = Ok s →
  main_inv s.
Proof.
  unfold execute_workflow_start. destruct (db !! workflow_id) as [w|]; [| done].
  destruct (_get_execution_order _) as [l|e]; intros [= <-]; by unfold main_inv.
Qed.

(** The invariants of an execution that starts from a fresh workflow. *)
Lemma fresh_run_invariants
    db workflow_id max_concurrency now later w s0 evs s :
  db !! workflow_id = Some w →
  fresh (wf_tasks w) →
  execute_workflow_start db workflow_id max_concurrency now later = Ok s0 →
  run' s0 evs = Some s →
  awaiting_running s ∧ started_after_deps s ∧ failed_raised s
  ∧ main_inv s ∧ gather_inv s.
Proof.
  intros Hw Hfresh Hstart Hrun.
  destruct (start_state _ _ _ _ _ _ Hstart) as (w' & Hw' & Htasks & _).
  assert (w' = w) as -> by congruence.
  assert (Hpending : ∀ k t, find_task (tasks_of s0) k = Some t → status t = PENDING).
  { intros k t [_ Hin]%find_task_Some. rewrite Htasks in Hin.
    unfold fresh in Hfresh. rewrite Forall_forall in Hfresh. by apply Hfresh. }
  apply (run_invariant
           (λ x, awaiting_running x ∧ started_after_deps x ∧ failed_raised x
                 ∧ main_inv x ∧ gather_inv x)) with (evs := evs) (s := s0);
    [| done |].
  - intros s1 ev s2 Hstep (Ha & Hd & Hf & Hm & Hg). split_and!.
    + by eapply step_awaiting_running.
    + by eapply step_started_after_deps.
    + by eapply step_failed_raised.
    + by eapply step_main_inv.
    + by eapply step_gather_inv.
  - split_and!.
    + by eapply start_awaiting_running.
    + intros a ta b Hfind Hnp. by apply Hpending in Hfind.
    + intros k Hk. unfold status_of in Hk.
      destruct (find_task (tasks_of s0) k) as [t|] eqn:Hfind; [| done].
      apply Hpending in Hfind. simpl in Hk. congruence.
    + by eapply start_main_inv.
    + intros k e Hk. by apply (start_coros _ _ _ _ _ _ _ _ Hstart) in Hk.
Qed.

(** A task that depends, directly or not, on a Failed task is Pending. *)
Lemma dependents_of_failed_pending (tasks : list Task) s a b :
  NoDup (task_id <$> tasks) →
  static <$> tasks_of s = static <$> tasks →
  started_after_deps s →
  tc (depends_on tasks) a b →
  status_of s b = Some FAILED →
  status_of s a = Some PENDING.
Proof.
  intros Hnd Hst Hdeps Htc Hb.
  assert (Hone : ∀ x y st, depends_on tasks x y → status_of s y = Some st →
                           st ≠ COMPLETED → status_of s x = Some PENDING).
  { intros x y st (t & Hin & <- & Hy) Hsy Hst'.
    pose proof (find_task_unique _ _ Hnd Hin) as Hfind.
    destruct (find_task_static (tasks_of s) tasks (task_id t) t)
      as (t' & Hfind' & Hstatic); [done | done |].
    assert (dependencies t' = dependencies t) as Hsame by (by injection Hstatic).
    unfold status_of. rewrite Hfind'. simpl. f_equal.
    destruct (decide (status t' = PENDING)) as [|Hnp]; [done |].
    rewrite <-Hsame in Hy. pose proof (Hdeps _ _ _ Hfind' Hnp Hy). congruence. }
  induction Htc as [x y Hxy|x y z Hxy _ IH].
  - by apply (Hone x y FAILED).
  - by apply (Hone x y PENDING); [| apply IH |].
Qed.

(** ** The result of the postprocess stage *)

Lemma format_results_nonempty validation_result r :
  _format_extraction_results validation_result = Ok r → ∃ kv r', r = kv :: r'.
Proof.
  unfold _format_extraction_results. intros H. py_inv H.
  injection H as <-. eauto.
Qed.

Lemma postprocess_executor_nonempty tasks t o r :
  task_type t = POSTPROCESS →
  run_executor py_sum py_truediv tasks t o = Ok r → ∃ kv r', r = kv :: r'.
Proof.
  intros Hty. unfold run_executor, _execute_postprocess_task. rewrite Hty.
  intros H. py_inv H. by apply format_results_nonempty in H.
Qed.

Lemma step_postprocess_results s ev s' :
  step' s ev = Some s' →
  NoDup (task_id <$> tasks_of s) →
  postprocess_results (tasks_of s) → postprocess_results (tasks_of s').
Proof.
  intros Hstep Hnd Hinv.
  destruct ev as [tid|tid now|tid o now|tid|now]; step_inv Hstep; try done.
  - unfold begin_task. destruct (can_execute _ _); [| done].
    unfold tasks_of. simpl.
    intros t' [(t0 & Ht0 & Hid0 & ->)|[Ht' Hne]]%update_task_cases Hty Hs;
      [done | by apply Hinv].
  - match goal with H : find_task _ tid = Some ?t |- _ =>
      pose proof (find_task_Some _ _ _ H) as [Hid Hin]; rename H into Hfind end.
    unfold finish_task.
    destruct (run_executor _ _ _ _ _) as [r|e] eqn:Hexec; unfold tasks_of; simpl;
      intros t' [(t0 & Ht0 & Hid0 & ->)|[Ht' Hne]]%update_task_cases Hty Hs;
      [| by apply Hinv | done | by apply Hinv].
    simpl in *.
    pose proof (find_task_unique _ _ Hnd Ht0) as Hfind0.
    unfold tasks_of in Hfind0. rewrite Hid0, Hid, Hfind in Hfind0.
    injection Hfind0 as ->.
    destruct (postprocess_executor_nonempty _ _ _ _ Hty Hexec) as (kv & r' & ->).
    eauto.
Qed.

Lemma find_postprocess_completed (tasks : list Task) :
  Forall (λ t, status t = COMPLETED) tasks →
  List.find (λ t, bool_decide (task_type t = POSTPROCESS) &&
                  bool_decide (status t = COMPLETED)) tasks
  = List.find (λ t, bool_decide (task_type t = POSTPROCESS)) tasks.
Proof.
  induction 1 as [|t tasks Ht _ IH]; simpl; [done |].
  rewrite (bool_decide_eq_true_2 _ Ht), andb_true_r. by rewrite IH.
Qed.

(** ** What the basic validation records *)

Lemma required_fields_recorded fields_result fds acc acc' :
  py_fold (check_required_field fields_result) acc fds = Ok acc' →
  warnings acc' = warnings acc
  ∧ (∀ m, m ∈ errors acc → m ∈ errors acc')
  ∧ (valid acc = false → valid acc' = false)
  ∧ (∀ fd, fd ∈ fds → fd_required fd = true →
       missing_or_empty fields_result (fd_name fd) "value" = Ok true →
       valid acc' = false ∧ required_field_msg (fd_name fd) ∈ errors acc').
Proof.
  revert acc. induction fds as [|fd0 fds IH]; intros acc; simpl.
  - intros [= ->]. split_and!; [done | done | done |].
    by intros fd ?%elem_of_nil.
  - intros H. apply bind_Ok in H as (acc1 & H1 & H).
    apply IH in H as (Hw & He & Hv & Hrec).
    assert (warnings acc1 = warnings acc
            ∧ (∀ m, m ∈ errors acc → m ∈ errors acc1)
            ∧ (valid acc = false → valid acc1 = false)
            ∧ (fd_required fd0 = true →
               missing_or_empty fields_result (fd_name fd0) "value" = Ok true →
               valid acc1 = false
               ∧ required_field_msg (fd_name fd0) ∈ errors acc1))
      as (Hw1 & He1 & Hv1 & Hrec1).
    { unfold check_required_field in H1.
      destruct (fd_required fd0); [| by injection H1 as <-].
      apply bind_Ok in H1 as (missing & Hm & H1). injection H1 as <-.
      destruct missing; simpl.
      - split_and!; [done | | done |].
        + intros m Hin. apply elem_of_app. by left.
        + intros _ _. split; [done |]. apply elem_of_app. right.
          by apply list_elem_of_singleton.
      - split_and!; [done | done | done |]. intros _ Hm'. congruence. }
    split_and!.
    + congruence.
    + auto.
    + auto.
    + intros fd [->|Hin]%elem_of_cons Hreq Hmiss.
      * destruct (Hrec1 Hreq Hmiss). split; auto.
      * by apply Hrec.
Qed.

Lemma required_tables_recorded tables_result tds acc acc' :
  py_fold (check_required_table tables_result) acc tds = Ok acc' →
  warnings acc' = warnings acc
  ∧ (∀ m, m ∈ errors acc → m ∈ errors acc')
  ∧ (valid acc = false → valid acc' = false)
  ∧ (∀ td name, td ∈ tds → td_required td = true → td_name td = VStr name →
       missing_or_empty tables_result name "rows" = Ok true →
       valid acc' = false ∧ required_table_msg name ∈ errors acc').
Proof.
  revert acc. induction tds as [|td0 tds IH]; intros acc; simpl.
  - intros [= ->]. split_and!; [done | done | done |].
    by intros td name ?%elem_of_nil.
  - intros H. apply bind_Ok in H as (acc1 & H1 & H).
    apply IH in H as (Hw & He & Hv & Hrec).
    assert (warnings acc1 = warnings acc
            ∧ (∀ m, m ∈ errors acc → m ∈ errors acc1)
            ∧ (valid acc = false → valid acc1 = false)
            ∧ (∀ name, td_required td0 = true → td_name td0 = VStr name →
               missing_or_empty tables_result name "rows" = Ok true →
               valid acc1 = false ∧ required_table_msg name ∈ errors acc1))
      as (Hw1 & He1 & Hv1 & Hrec1).
    { unfold check_required_table in H1.
      destruct (td_required td0); [| by injection H1 as <-].
      destruct (td_name td0) as [| | | |name0| |]; try done.
      apply bind_Ok in H1 as (missing & Hm & H1). injection H1 as <-.
      destruct missing; simpl.
      - split_and!; [done | | done |].
        + intros m Hin. apply elem_of_app. by left.
        + intros name _ [= <-] _. split; [done |]. apply elem_of_app. right.
          by apply list_elem_of_singleton.
      - split_and!; [done | done | done |].
        intros name _ [= <-] Hm'. congruence. }
    split_and!.
    + congruence.
    + auto.
    + auto.
    + intros td name [->|Hin]%elem_of_cons Hreq Hname Hmiss.
      * destruct (Hrec1 name Hreq Hname Hmiss). split; auto.
      * by apply (Hrec td).
Qed.

Lemma field_types_recorded fields_result fds acc acc' :
  py_fold (check_field_type fields_result) acc fds = Ok acc' →
  errors acc' = errors acc
  ∧ valid acc' = valid acc
  ∧ (∀ m, m ∈ warnings acc → m ∈ warnings acc')
  ∧ (∀ fd entry text msg, fd ∈ fds →
       dict_get fields_result (fd_name fd) = Some (VDict entry) →
       dict_get entry "value" = Some (VStr text) → text ≠ "" →
       type_warning fd text = Some msg →
       msg ∈ warnings acc').
Proof.
  revert acc. induction fds as [|fd0 fds IH]; intros acc; simpl.
  - intros [= ->]. split_and!; [done | done | done |].
    by intros fd entry text msg ?%elem_of_nil.
  - intros H. apply bind_Ok in H as (acc1 & H1 & H).
    apply IH in H as (He & Hv & Hw & Hrec).
    assert (errors acc1 = errors acc
            ∧ valid acc1 = valid acc
            ∧ (∀ m, m ∈ warnings acc → m ∈ warnings acc1)
            ∧ (∀ entry text msg,
                 dict_get fields_result (fd_name fd0) = Some (VDict entry) →
                 dict_get entry "value" = Some (VStr text) → text ≠ "" →
                 type_warning fd0 text = Some msg →
                 msg ∈ warnings acc1))
      as (He1 & Hv1 & Hw1 & Hrec1).
    { unfold check_field_type in H1.
      destruct (dict_get fields_result (fd_name fd0)) as [entry0|] eqn:Hentry;
        [| injection H1 as <-; split_and!; done].
      apply bind_Ok in H1 as (v & Hval & H1).
      assert (∀ entry text, Some entry0 = Some (VDict entry) →
                dict_get entry "value" = Some (VStr text) → text ≠ "" →
                v = VStr text ∧ truthy v = true) as Hv0.
      { intros entry text [= ->] Hget Hne. simpl in Hval. rewrite Hget in Hval.
        injection Hval as <-. split; [done |]. simpl.
        destruct text; [done | done]. }
      destruct (truthy v) eqn:Htruthy.
      2: { injection H1 as <-. split_and!; [done | done | done |].
           intros entry text msg Hen Hget Hne _.
           destruct (Hv0 entry text Hen Hget Hne). congruence. }
      unfold type_warning.
      destruct (String.eqb (fd_type fd0) "date").
      { apply bind_Ok in H1 as (ok & Hok & H1). injection H1 as <-.
        destruct ok; cbn [add_warning warnings errors valid];
          (split_and!; [done | done | |]).
        - done.
        - intros entry text msg Hen Hget Hne.
          destruct (Hv0 entry text Hen Hget Hne) as [-> _]. by rewrite Hok.
        - intros m Hin. apply elem_of_app. by left.
        - intros entry text msg Hen Hget Hne.
          destruct (Hv0 entry text Hen Hget Hne) as [-> _]. rewrite Hok.
          intros [= <-]. apply elem_of_app. right.
          by apply list_elem_of_singleton. }
      destruct (String.eqb (fd_type fd0) "currency").
      { apply bind_Ok in H1 as (ok & Hok & H1). injection H1 as <-.
        destruct ok; cbn [add_warning warnings errors valid];
          (split_and!; [done | done | |]).
        - done.
        - intros entry text msg Hen Hget Hne.
          destruct (Hv0 entry text Hen Hget Hne) as [-> _]. by rewrite Hok.
        - intros m Hin. apply elem_of_app. by left.
        - intros entry text msg Hen Hget Hne.
          destruct (Hv0 entry text Hen Hget Hne) as [-> _]. rewrite Hok.
          intros [= <-]. apply elem_of_app. right.
          by apply list_elem_of_singleton. }
      destruct (String.eqb (fd_type fd0) "number").
      { apply bind_Ok in H1 as (ok & Hok & H1). injection H1 as <-.
        destruct ok; cbn [add_warning warnings errors valid];
          (split_and!; [done | done | |]).
        - done.
        - intros entry text msg Hen Hget Hne.
          destruct (Hv0 entry text Hen Hget Hne) as [-> _]. by rewrite Hok.
        - intros m Hin. apply elem_of_app. by left.
        - intros entry text msg Hen Hget Hne.
          destruct (Hv0 entry text Hen Hget Hne) as [-> _]. rewrite Hok.
          intros [= <-]. apply elem_of_app. right.
          by apply list_elem_of_singleton. }
      injection H1 as <-. split_and!; done. }
    split_and!.
    + congruence.
    + congruence.
    + auto.
    + intros fd entry text msg [->|Hin]%elem_of_cons Hen Hget Hne Hmsg.
      * apply Hw. by apply (Hrec1 entry text).
      * by apply (Hrec fd entry text).
Qed.

Lemma validate_records_findings fields_result tables_result understanding_result v :
  _validate_extraction_results fields_result tables_result understanding_result
  = Ok v →
  ∃ vr, v = validation_value vr
        ∧ findings_recorded fields_result tables_result understanding_result vr.
Proof.
  unfold _validate_extraction_results. intros H.
  apply bind_Ok in H as (v1 & H1 & H).
  apply bind_Ok in H as (tds & Htds & H).
  apply bind_Ok in H as (v2 & H2 & H).
  apply bind_Ok in H as (v3 & H3 & H).
  injection H as <-. exists v3. split; [done |].
  apply required_fields_recorded in H1 as (_ & He1 & _ & Hrec1).
  apply required_tables_recorded in H2 as (_ & He2 & Hv2 & Hrec2).
  apply field_types_recorded in H3 as (He3 & Hv3 & _ & Hrec3).
  split_and!.
  - intros fd Hin Hreq Hmiss. destruct (Hrec1 fd Hin Hreq Hmiss) as [Hv He].
    rewrite He3, Hv3. split; [by apply Hv2 | by apply He2].
  - intros tds' td name Htds' Hin Hreq Hname Hmiss.
    assert (tds' = tds) as -> by congruence.
    destruct (Hrec2 td name Hin Hreq Hname Hmiss) as [Hv He].
    by rewrite He3, Hv3.
  - done.
Qed.

Lemma dependency_result_msg tasks task ty msg msg' r :
  dependency_result tasks task ty msg = Ok r →
  dependency_result tasks task ty msg' = Ok r.
Proof.
  unfold dependency_result.
  destruct (_get_dependency_task tasks task ty) as [[t|]|]; simpl; [| done | done].
  by destruct (result t) as [[|kv r0]|].
Qed.

End engine_invariants.

(** ** Witnesses and counterexamples on the example workflows *)

Lemma two_stage_unique_ids : NoDup (task_id <$> wf_tasks two_stage_workflow).
Proof. compute_done. Defined.

(** Supplies the state a closed computation returns as the witness of an
    existential. *)
Ltac exists_result t :=
  let r := eval vm_compute in t in
  lazymatch r with
  | Ok ?x => exists x
  | Some ?x => exists x
  end.

Lemma running_tasks_never_exceed_bound_witness :
  ∃ s0 s,
    demo_db !! "wf_1" = Some two_stage_workflow
    ∧ NoDup (task_id <$> wf_tasks two_stage_workflow)
    ∧ count_status RUNNING (wf_tasks two_stage_workflow) = 0
    ∧ execute_workflow_start demo_db "wf_1" 1 "t0" "t0" = Ok s0
    ∧ run example_sum example_truediv s0 (take 5 failing_schedule) = Some s
    ∧ status_of s "wf_1_preprocess" = Some RUNNING
    ∧ count_status RUNNING (tasks_of s) ≤ 1.
Proof.
  exists_result (execute_workflow_start demo_db "wf_1" 1 "t0" "t0").
  exists_result (run_workflow example_sum example_truediv demo_db "wf_1" 1
                   "t0" "t0" (take 5 failing_schedule)).
  assert (H1 : demo_db !! "wf_1" = Some two_stage_workflow) by (by vm_compute).
  assert (H3 : count_status RUNNING (wf_tasks two_stage_workflow) = 0)
    by (by vm_compute).
  split_and!; [exact H1 | exact two_stage_unique_ids | exact H3
              | by vm_compute | by vm_compute | by vm_compute |].
  eapply (running_tasks_never_exceed_bound example_sum example_truediv
            demo_db "wf_1" 1 "t0" "t0" two_stage_workflow _
            (take 5 failing_schedule) _ H1 two_stage_unique_ids H3);
    by vm_compute.
Defined.

(** C2 as stated fails: with a bound of one, the extraction of the tables
    starts while the extraction of the fields is still Running from the
    interrupted run, which holds no permit of the new semaphore. *)
Lemma stale_running_task_exceeds_bound :
  NoDup (task_id <$> wf_tasks interrupted_workflow)
  ∧ count_status RUNNING (wf_tasks interrupted_workflow) = 1
  ∧ (λ s, (sem_value s, count_status RUNNING (tasks_of s)))
      <$> run_workflow example_sum example_truediv interrupted_db "wf_11" 1
            "t0" "t0" interrupted_schedule
    = Some (0, 2).
Proof. split_and!; [compute_done | by vm_compute | by vm_compute]. Qed.

Lemma quiescent_no_step py_sum py_truediv s ev :
  quiescent s = true → step py_sum py_truediv s ev = None.
Proof.
  unfold quiescent. rewrite andb_true_iff, forallb_forall. intros [Hall Hmain].
  assert (Hpc : ∀ k pc, dict_get (coros s) k = Some pc → ∃ r, pc = Finished r).
  { intros k pc Hget%dict_get_elem%list_elem_of_In. specialize (Hall _ Hget).
    simpl in Hall. destruct pc; try done. by eexists. }
  destruct ev as [tid|tid now|tid o now|tid|now]; simpl.
  - destruct (dict_get (coros s) tid) as [pc|] eqn:Hget; [| done].
    by destruct (Hpc _ _ Hget) as [r ->].
  - destruct (dict_get (coros s) tid) as [pc|] eqn:Hget; [| done].
    by destruct (Hpc _ _ Hget) as [r ->].
  - destruct (dict_get (coros s) tid) as [pc|] eqn:Hget; [| done].
    by destruct (Hpc _ _ Hget) as [r ->].
  - destruct (dict_get (coros s) tid) as [pc|] eqn:Hget; [| done].
    by destruct (Hpc _ _ Hget) as [r ->].
  - unfold resume_main. by destruct (main s).
Qed.

Lemma two_stage_fresh : fresh (wf_tasks two_stage_workflow).
Proof. repeat constructor. Defined.

Lemma two_stage_dependency :
  depends_on (wf_tasks two_stage_workflow) "wf_1_extract_text" "wf_1_preprocess".
Proof.
  exists extract_text_1. split_and!; [right; by left | done |].
  by apply list_elem_of_singleton.
Defined.

(** C3, on the workflow executed again: postprocessing starts, and
    validation, which it depends on, is Completed. *)
Lemma running_requires_completed_dependencies_witness :
  ∃ s s',
    step example_sum example_truediv s (Begin "wf_3_postprocess" "t1") = Some s'
    ∧ find_task (tasks_of s) "wf_3_postprocess" = Some postprocess_3
    ∧ status postprocess_3 ≠ RUNNING
    ∧ status_of s' "wf_3_postprocess" = Some RUNNING
    ∧ "wf_3_validate_results" ∈ dependencies postprocess_3
    ∧ status_of s "wf_3_validate_results" = Some COMPLETED
    ∧ status_of s' "wf_3_validate_results" = Some COMPLETED.
Proof.
  exists_result (run_workflow example_sum example_truediv resumed_db "wf_3" 4
                   "t0" "t0" (take 1 resumed_schedule)).
  exists_result (run_workflow example_sum example_truediv resumed_db "wf_3" 4
                   "t0" "t0" (take 2 resumed_schedule)).
  assert (H3 : status postprocess_3 ≠ RUNNING) by done.
  assert (H5 : "wf_3_validate_results" ∈ dependencies postprocess_3)
    by (by apply list_elem_of_singleton).
  match goal with
  | |- ?stepped ∧ ?found ∧ _ ∧ ?running ∧ _ =>
      assert (H1 : stepped) by (by vm_compute);
      assert (H2 : found) by (by vm_compute);
      assert (H4 : running) by (by vm_compute)
  end.
  pose proof (running_requires_completed_dependencies
                example_sum example_truediv _ _ _ _ _ _ H1 H2 H3 H4 H5)
    as [Hbefore Hafter].
  split_and!; [exact H1 | exact H2 | exact H3 | exact H4 | exact H5
              | exact Hbefore | exact Hafter].
Defined.

(** C4 as stated fails: preprocessing fails, execution is over, the
    workflow is Failed, and text extraction, which depends on
    preprocessing, is still Pending. *)
Lemma failed_dependency_leaves_dependent_pending :
  observe <$> run_workflow example_sum example_truediv demo_db "wf_1" 4
                "t0" "t0" failing_schedule
  = Some (FAILED, Some "Document path not specified in task parameters",
          [("wf_1_preprocess", FAILED); ("wf_1_extract_text", PENDING)],
          Raised missing_path)
  ∧ quiescent <$> run_workflow example_sum example_truediv demo_db "wf_1" 4
                    "t0" "t0" failing_schedule
    = Some true
  ∧ depends_on (wf_tasks two_stage_workflow)
      "wf_1_extract_text" "wf_1_preprocess".
Proof.
  split_and!; [by vm_compute | by vm_compute | exact two_stage_dependency].
Qed.

Lemma resumed_unique_ids : NoDup (task_id <$> wf_tasks resumed_workflow).
Proof. compute_done. Defined.

Lemma resumed_postprocess_results : postprocess_results (wf_tasks resumed_workflow).
Proof.
  intros t Ht Hty Hs. simpl in Ht.
  apply elem_of_cons in Ht as [->|Ht]; [done |].
  apply list_elem_of_singleton in Ht as ->. done.
Defined.

(** C7 as stated fails: [_execute_task] on a task whose dependency is not
    Completed, and on a task that is already Completed, raises nothing and
    changes nothing. *)
Lemma execute_task_on_blocked_task_is_silent :
  can_execute (wf_tasks two_stage_workflow) extract_text_1 = false
  ∧ _execute_task example_sum example_truediv (wf_tasks two_stage_workflow)
      extract_text_1 (raising missing_path) "t1" "t2"
    = (wf_tasks two_stage_workflow, Ok tt)
  ∧ can_execute (wf_tasks resumed_workflow) validate_done = false
  ∧ _execute_task example_sum example_truediv (wf_tasks resumed_workflow)
      validate_done llm_down "t1" "t2"
    = (wf_tasks resumed_workflow, Ok tt).
Proof. split_and!; by vm_compute. Qed.

Lemma only_legal_transitions_and_skip_is_silent_witness :
  ∃ s0 s s',
    execute_workflow_start demo_db "wf_1" 4 "t0" "t0" = Ok s0
    ∧ run example_sum example_truediv s0 (take 4 failing_schedule) = Some s
    ∧ step example_sum example_truediv s (Begin "wf_1_preprocess" "t2") = Some s'
    ∧ status_of s "wf_1_preprocess" = Some PENDING
    ∧ status_of s' "wf_1_preprocess" = Some RUNNING
    ∧ legal_transition PENDING RUNNING
    ∧ _execute_task example_sum example_truediv (tasks_of s) extract_text_1
        (raising missing_path) "t1" "t2"
      = (tasks_of s, Ok tt).
Proof.
  exists_result (execute_workflow_start demo_db "wf_1" 4 "t0" "t0").
  exists_result (run_workflow example_sum example_truediv demo_db "wf_1" 4
                   "t0" "t0" (take 4 failing_schedule)).
  exists_result (run_workflow example_sum example_truediv demo_db "wf_1" 4
                   "t0" "t0" (take 5 failing_schedule)).
  match goal with
  | |- ?start ∧ ?ran ∧ ?stepped ∧ ?before ∧ ?after ∧ _ =>
      assert (H1 : start) by (by vm_compute);
      assert (H2 : ran) by (by vm_compute);
      assert (H3 : stepped) by (by vm_compute);
      assert (H4 : before) by (by vm_compute);
      assert (H5 : after) by (by vm_compute)
  end.
  destruct (only_legal_transitions_and_skip_is_silent
              example_sum example_truediv _ _ _ _ _ _ _ _ _ _ H1 H2 H3)
    as [Hlegal Hskip].
  split_and!; [exact H1 | exact H2 | exact H3 | exact H4 | exact H5 | |].
  - by destruct (Hlegal _ _ _ H4 H5) as [?|?].
  - apply Hskip. by vm_compute.
Defined.

(** * Further properties *)

(** ** The execution order *)

Lemma execution_order_ok_acyclic (workflow : Workflow) l :
  deps_closed (wf_tasks workflow) →
  _get_execution_order workflow = Ok l →
  ¬ has_cycle (wf_tasks workflow).
Proof.
  intros Hclosed Hok Hcyc.
  by rewrite (get_execution_order_cycle _ Hclosed Hcyc) in Hok.
Qed.

Lemma two_stage_closed : deps_closed (wf_tasks two_stage_workflow).
Proof.
  intros t d Ht Hd. simpl in Ht.
  repeat (apply elem_of_cons in Ht as [->|Ht]);
    try (by apply elem_of_nil in Ht); simpl in Hd.
  - by apply elem_of_nil in Hd.
  - apply list_elem_of_singleton in Hd as ->. by left.
Defined.

Lemma two_stage_acyclic : ¬ has_cycle (wf_tasks two_stage_workflow).
Proof.
  apply (execution_order_ok_acyclic _ [extract_text_1; preprocess_1]);
    [exact two_stage_closed | by vm_compute].
Defined.

Lemma unique_ids_inj (tasks : list Task) t t' :
  NoDup (task_id <$> tasks) →
  t ∈ tasks → t' ∈ tasks → task_id t = task_id t' → t = t'.
Proof.
  induction tasks as [|a tasks IH]; csimpl; intros Hnd Ht Ht' Heq.
  - by apply elem_of_nil in Ht.
  - apply NoDup_cons in Hnd as [Ha Hnd].
    apply elem_of_cons in Ht as [->|Ht]; apply elem_of_cons in Ht' as [->|Ht'].
    + done.
    + exfalso. apply Ha, list_elem_of_fmap. by exists t'.
    + exfalso. apply Ha, list_elem_of_fmap. by exists t.
    + by apply IH.
Qed.

Lemma execution_order_permutation (workflow : Workflow) :
  NoDup (task_id <$> wf_tasks workflow) →
  deps_closed (wf_tasks workflow) →
  ¬ has_cycle (wf_tasks workflow) →
  ∃ l, _get_execution_order workflow = Ok l ∧ l ≡ₚ wf_tasks workflow.
Proof.
  intros Hnd Hclosed Hacyc.
  destruct (get_execution_order_acyclic _ Hclosed Hacyc)
    as (l & Hok & Hall & Hfrom & Hndl & _).
  exists l. split; [done |].
  apply NoDup_Permutation.
  - by eapply NoDup_fmap_1.
  - by eapply NoDup_fmap_1.
  - intros t. split; [apply Hfrom |]. intros Ht.
    destruct (proj1 (list_elem_of_fmap _ _ _) (Hall t Ht)) as (t' & Hid & Ht').
    assert (t = t') as ->; [| done].
    apply (unique_ids_inj (wf_tasks workflow)); auto.
Qed.

(** X1.  On a workflow with unique task ids whose dependencies all name
    tasks of the workflow and form no cycle, [_get_execution_order]
    returns a list that holds every task of the workflow exactly once. *)
Theorem execution_order_is_permutation (workflow : Workflow) :
  NoDup (task_id <$> wf_tasks workflow) →
  deps_closed (wf_tasks workflow) →
  ¬ has_cycle (wf_tasks workflow) →
  ∃ l, _get_execution_order workflow = Ok l ∧ l ≡ₚ wf_tasks workflow.
Proof. apply execution_order_permutation. Qed.

Lemma execution_order_is_permutation_witness :
  NoDup (task_id <$> wf_tasks two_stage_workflow)
  ∧ deps_closed (wf_tasks two_stage_workflow)
  ∧ ¬ has_cycle (wf_tasks two_stage_workflow)
  ∧ ∃ l, _get_execution_order two_stage_workflow = Ok l
         ∧ l ≡ₚ wf_tasks two_stage_workflow.
Proof.
  split_and!; [exact two_stage_unique_ids | exact two_stage_closed
              | exact two_stage_acyclic |].
  exact (execution_order_is_permutation two_stage_workflow
           two_stage_unique_ids two_stage_closed two_stage_acyclic).
Defined.

(** X2.  When every dependency id names a task of the workflow,
    [_get_execution_order] returns normally exactly when the dependency
    graph has no cycle: a cycle is always detected and no acyclic graph is
    ever rejected. *)
Theorem execution_order_succeeds_iff_acyclic (workflow : Workflow) :
  deps_closed (wf_tasks workflow) →
  (∃ l, _get_execution_order workflow = Ok l)
  ↔ ¬ has_cycle (wf_tasks workflow).
Proof.
  intros Hclosed. split.
  - intros [l Hok]. by eapply execution_order_ok_acyclic.
  - intros Hacyc.
    destruct (get_execution_order_acyclic _ Hclosed Hacyc) as (l & Hok & _).
    by exists l.
Qed.

Lemma execution_order_succeeds_iff_acyclic_witness :
  deps_closed (wf_tasks two_stage_workflow)
  ∧ ((∃ l, _get_execution_order two_stage_workflow = Ok l)
     ↔ ¬ has_cycle (wf_tasks two_stage_workflow)).
Proof.
  split; [exact two_stage_closed |].
  exact (execution_order_succeeds_iff_acyclic two_stage_workflow two_stage_closed).
Defined.

(** X3.  A dependency on an id that names no task of the workflow makes
    [_get_execution_order] raise: the lookup [dependencies[dep_id]] fails
    with [KeyError], unless a cycle is met first and the circular
    dependency [ValueError] is raised.  It never returns an order. *)
Theorem dangling_dependency_raises (workflow : Workflow) t d :
  t ∈ wf_tasks workflow →
  d ∈ dependencies t →
  d ∉ task_id <$> wf_tasks workflow →
  ∃ e, _get_execution_order workflow = Raise e
       ∧ (e = ValueError circular_msg ∨ ∃ k, e = KeyError k).
Proof.
  intros Ht Hd Hout.
  pose proof (get_execution_order_no_recursion_error workflow) as Hrec.
  unfold _get_execution_order in *.
  destruct (visit_roots _ _ _ _) as [[s|e]|] eqn:Hrun; [| | done].
  - exfalso.
    apply visit_roots_ok in Hrun as (Hall & Hord & _ & Hfrom);
      [| intros k t0; apply tasks_by_id_get].
    assert (task_id t ∈ order_ids s) as Hin.
    { apply Hall, tasks_by_id_keys, list_elem_of_fmap. by exists t. }
    apply list_elem_of_split in Hin as (l1 & l2 & Heq).
    assert (d ∈ l1) as Hd1.
    { apply (Hord l1 (task_id t) l2 Heq). apply dependencies_deps. by exists t. }
    assert (d ∈ order_ids s) as Hds by (rewrite Heq; set_solver).
    apply list_elem_of_fmap in Hds as (t' & -> & Ht').
    apply Hfrom, tasks_by_id_get in Ht' as [Ht' _].
    apply Hout, list_elem_of_fmap. by exists t'.
  - exists e. split; [done |]. unfold visit_roots in Hrun.
    apply for_each_raise_kind in Hrun; [done |].
    intros a s0. case_decide; [done | apply visit_raise_kind].
Qed.

(** ** The transition system: permits, progress and final states *)

Section engine_progress.
Variable py_sum : list value → py value.
Variable py_truediv : value → nat → py value.

Local Abbreviation step' := (step py_sum py_truediv).
Local Abbreviation run' := (run py_sum py_truediv).

Lemma step_shape s ev s' :
  step' s ev = Some s' →
  (coros s' = coros s ∧ sem_value s' = sem_value s
   ∧ main s = Gathering ∧ main s' ≠ Gathering)
  ∨ (∃ k old new,
       dict_get (coros s) k = Some old
       ∧ coros s' = dict_set (coros s) k new
       ∧ main s' = main s
       ∧ coro_move old new (sem_value s) (sem_value s')).
Proof.
  intros Hstep. unfold coro_move.
  destruct ev as [tid|tid now|tid o now|tid|now]; step_inv Hstep.
  - right. exists tid, Queued, Holding. simpl. unfold set_coro. naive_solver.
  - match goal with H : find_task _ tid = Some ?t |- _ =>
      pose proof (find_task_Some _ _ _ H) as [Hid _] end.
    subst tid. right. unfold begin_task. case_match; simpl.
    + eexists _, Holding, Awaiting. unfold set_coro. naive_solver.
    + eexists _, Holding, (Leaving None). unfold set_coro. naive_solver.
  - match goal with H : find_task _ tid = Some ?t |- _ =>
      pose proof (find_task_Some _ _ _ H) as [Hid _] end.
    subst tid. right. unfold finish_task. case_match; simpl.
    + eexists _, Awaiting, (Leaving None). unfold set_coro. naive_solver.
    + eexists _, Awaiting, (Leaving (Some _)). unfold set_coro. naive_solver.
  - right. eexists tid, (Leaving _), (Finished _). simpl. unfold set_coro.
    naive_solver.
  - right. eexists tid, (Leaving _), (Finished _). simpl. unfold set_coro.
    naive_solver.
  - left. simpl. by split_and!.
  - left. simpl. by split_and!.
Qed.

Lemma sum_rank_set (d : dict CoroPc) k old new :
  dict_get d k = Some old →
  sum_list (pc_rank <$> (dict_set d k new).*2) + pc_rank old
  = sum_list (pc_rank <$> d.*2) + pc_rank new.
Proof.
  induction d as [|[k' v'] d IH]; simpl; [done |].
  destruct (decide (k' = k)) as [->|Hne]; csimpl.
  - intros [= ->]. lia.
  - intros Hget%IH. lia.
Qed.

(** Every event uses up one of the steps that are left. *)
Lemma step_steps_left s ev s' :
  step' s ev = Some s' → S (steps_left s') ≤ steps_left s.
Proof.
  intros Hstep. unfold steps_left.
  destruct (step_shape _ _ _ Hstep)
    as [(-> & _ & -> & Hm)|(k & old & new & Hget & -> & -> & Hmove)].
  - destruct (main s'); [done | lia | lia].
  - pose proof (sum_rank_set _ _ _ new Hget) as Hsum.
    assert (S (pc_rank new) ≤ pc_rank old); [| lia].
    destruct Hmove as [(-> & -> & _)|[(-> & [->| ->] & _)
                      |[(-> & [r ->] & _)|(r & -> & -> & _)]]]; simpl; lia.
Qed.

Lemma run_steps_left evs s s' :
  run' s evs = Some s' → steps_left s' + length evs ≤ steps_left s.
Proof.
  revert s. induction evs as [|ev evs IH]; intros s; simpl.
  - intros [= ->]. lia.
  - destruct (step' s ev) as [s1|] eqn:Hs; [| done].
    intros Hrun%IH. apply step_steps_left in Hs. lia.
Qed.

Lemma step_semaphore n s ev s' :
  step' s ev = Some s' →
  sem_value s + count_pcs is_holder (coros s) = n →
  sem_value s' + count_pcs is_holder (coros s') = n.
Proof.
  intros Hstep Hn.
  destruct (step_shape _ _ _ Hstep)
    as [(-> & -> & _)|(k & old & new & Hget & -> & _ & Hmove)]; [done |].
  pose proof (count_pcs_set is_holder _ _ _ new Hget) as Hcnt.
  destruct Hmove as [(-> & -> & ?)|[(-> & [->| ->] & ?)
                    |[(-> & [r ->] & ?)|(r & -> & -> & ?)]]];
    simpl in Hcnt; lia.
Qed.

Lemma quiescent_no_holder s :
  quiescent s = true → count_pcs is_holder (coros s) = 0.
Proof.
  unfold quiescent. intros [Hall _]%andb_true_iff.
  induction (coros s) as [|[k pc] cs IH]; simpl in *; [done |].
  apply andb_true_iff in Hall as [Hpc Hall].
  destruct pc; try done; simpl; by apply IH.
Qed.

(** X4.  The semaphore loses no permit: in every state of an execution
    its value and the number of coroutines inside [async with semaphore]
    add up to the concurrency bound, and once every coroutine has ended,
    also by an exception, its value is the bound again. *)
Theorem semaphore_permits_are_conserved
    db workflow_id max_concurrency now later s0 evs s :
  execute_workflow_start db workflow_id max_concurrency now later = Ok s0 →
  run' s0 evs = Some s →
  sem_value s + count_pcs is_holder (coros s) = max_concurrency
  ∧ (quiescent s = true → sem_value s = max_concurrency).
Proof.
  intros Hstart Hrun.
  destruct (start_state _ _ _ _ _ _ Hstart) as (w & _ & _ & Hsem & Hcnt & _).
  assert (sem_value s + count_pcs is_holder (coros s) = max_concurrency) as Hn.
  { apply (run_invariant py_sum py_truediv _ (step_semaphore max_concurrency)
             _ _ _ Hrun). lia. }
  split; [done |]. intros Hq%quiescent_no_holder. lia.
Qed.

Lemma elem_dict_get {V} (d : dict V) k v :
  NoDup (dict_keys d) → (k, v) ∈ d → dict_get d k = Some v.
Proof.
  unfold dict_keys. induction d as [|[k' v'] d IH]; csimpl; intros Hnd Hin.
  - by apply elem_of_nil in Hin.
  - apply NoDup_cons in Hnd as [Hk Hnd].
    apply elem_of_cons in Hin as [[= -> ->]|Hin].
    + by rewrite decide_True.
    + rewrite decide_False; [by apply IH |].
      intros ->. apply Hk, list_elem_of_fmap. by exists (k, v).
Qed.

Lemma find_task_is_Some (tasks : list Task) k :
  is_Some (find_task tasks k) ↔ k ∈ task_id <$> tasks.
Proof.
  split.
  - intros [t [<- Ht]%find_task_Some]. apply list_elem_of_fmap. by exists t.
  - intros Hin. destruct (find_task tasks k) eqn:Hf; [done |].
    by apply find_task_None in Hf.
Qed.

Lemma step_coros_inv s ev s' :
  step' s ev = Some s' → coros_inv s → coros_inv s'.
Proof.
  intros Hstep [Hnd Hkeys].
  assert (∀ k, is_Some (find_task (tasks_of s) k) →
               is_Some (find_task (tasks_of s') k)) as Hfind.
  { intros k. rewrite !find_task_is_Some.
    by rewrite (static_ids _ _ (step_static _ _ _ _ _ Hstep)). }
  destruct (step_shape _ _ _ Hstep)
    as [(Heq & _)|(k & old & new & Hget & Heq & _)]; unfold coros_inv;
    rewrite Heq.
  - split; [done |]. intros k Hk. by apply Hfind, Hkeys.
  - assert (k ∈ dict_keys (coros s)) as Hk.
    { apply dict_get_elem in Hget. apply list_elem_of_fmap. by exists (k, old). }
    rewrite dict_keys_set, decide_True by done.
    split; [done |]. intros k' Hk'. by apply Hfind, Hkeys.
Qed.

(** What a successful [_get_execution_order] returns, whatever the
    dependencies are. *)
Lemma execution_order_ok (workflow : Workflow) l :
  _get_execution_order workflow = Ok l →
  NoDup (task_id <$> l)
  ∧ (∀ t, t ∈ l → t ∈ wf_tasks workflow)
  ∧ (∀ t, t ∈ wf_tasks workflow → task_id t ∈ task_id <$> l)
  ∧ length l ≤ length (wf_tasks workflow).
Proof.
  unfold _get_execution_order.
  destruct (visit_roots _ _ _ _) as [[s|e]|] eqn:Hrun; [| done | done].
  intros [= <-].
  apply visit_roots_ok in Hrun as (Hall & _ & Hnd & Hfrom);
    [| intros k t0; apply tasks_by_id_get].
  assert (task_id <$> reverse (order s) ≡ₚ order_ids s) as Hperm.
  { unfold order_ids. by rewrite reverse_Permutation. }
  split_and!.
  - by rewrite Hperm.
  - intros t Ht. rewrite elem_of_reverse in Ht.
    by apply Hfrom, tasks_by_id_get in Ht as [? _].
  - intros t Ht. rewrite Hperm. apply Hall, tasks_by_id_keys.
    apply list_elem_of_fmap. by exists t.
  - rewrite length_reverse, <-(length_fmap task_id).
    etrans; [| apply (tasks_by_id_length (wf_tasks workflow))].
    apply submseteq_length, NoDup_submseteq; [done |].
    intros k (t & -> & Ht)%list_elem_of_fmap.
    apply Hfrom in Ht. apply dict_get_elem in Ht.
    apply list_elem_of_fmap. by exists (task_id t, t).
Qed.

Lemma queued_keys (l : list Task) :
  dict_keys ((λ t, (task_id t, Queued)) <$> l) = task_id <$> l.
Proof. unfold dict_keys. by rewrite <-list_fmap_compose. Qed.

Lemma queued_rank (l : list Task) :
  sum_list (pc_rank <$> ((λ t, (task_id t, Queued)) <$> l).*2) = 4 * length l.
Proof. induction l as [|t l IH]; csimpl; [done | rewrite IH; lia]. Qed.

(** The state in which [execute_workflow] starts to wait. *)
Lemma start_cases db workflow_id max_concurrency now later s0 :
  execute_workflow_start db workflow_id max_concurrency now later = Ok s0 →
  ∃ w, db !! workflow_id = Some w ∧ tasks_of s0 = wf_tasks w
       ∧ ((∃ l, _get_execution_order (workflow_running now w) = Ok l
                ∧ coros s0 = (λ t, (task_id t, Queued)) <$> l
                ∧ main s0 = Gathering)
          ∨ (∃ e, _get_execution_order (workflow_running now w) = Raise e
                  ∧ coros s0 = [] ∧ main s0 = Raised e)).
Proof.
  unfold execute_workflow_start. destruct (db !! workflow_id) as [w|]; [| done].
  destruct (_get_execution_order _) as [l|e] eqn:Hord; intros [= <-];
    exists w; (split_and!; [done | done |]).
  - left. by exists l.
  - right. by exists e.
Qed.

Lemma start_coros_inv db workflow_id max_concurrency now later s0 :
  execute_workflow_start db workflow_id max_concurrency now later = Ok s0 →
  coros_inv s0.
Proof.
  intros (w & _ & Htasks & [(l & Hord & Hc & _)|(e & _ & Hc & _)])%start_cases;
    unfold coros_inv; rewrite Hc.
  - apply execution_order_ok in Hord as (Hnd & Hfrom & _).
    split; rewrite queued_keys; [done |].
    intros k (t & -> & Ht)%list_elem_of_fmap.
    apply find_task_is_Some. rewrite Htasks.
    apply list_elem_of_fmap. exists t. split; [done |]. by apply Hfrom.
  - split; [constructor |]. by intros k ?%elem_of_nil.
Qed.

Lemma start_gather_inv db workflow_id max_concurrency now later s0 :
  execute_workflow_start db workflow_id max_concurrency now later = Ok s0 →
  gather_inv s0.
Proof.
  intros Hstart k e Hk. by apply (start_coros _ _ _ _ _ _ _ _ Hstart) in Hk.
Qed.

(** While [execute_workflow] waits and the semaphore has a permit to give,
    some event can happen. *)
Lemma waiting_enabled n s :
  0 < n →
  sem_value s + count_pcs is_holder (coros s) = n →
  coros_inv s → gather_inv s → main s = Gathering →
  ∃ ev s', step' s ev = Some s'.
Proof.
  intros Hn Hsem [Hnd Hkeys] Hg Hmain.
  assert (∀ k pc, (k, pc) ∈ coros s →
            dict_get (coros s) k = Some pc
            ∧ ∃ t, find_task (tasks_of s) k = Some t) as Hget.
  { intros k pc Hin. split; [by apply elem_dict_get |].
    apply Hkeys, list_elem_of_fmap. by exists (k, pc). }
  destruct (decide (Exists (λ c, is_holder c.2 = true) (coros s))) as [Hex|Hno].
  - apply Exists_exists in Hex as ([k pc] & Hin & Hh). simpl in *.
    destruct (Hget _ _ Hin) as (Hpc & t & Ht). unfold tasks_of in Ht.
    destruct pc as [| | |r|r]; [done | | | | done].
    + exists (Begin k ""). eexists. simpl. by rewrite Hpc, Ht.
    + exists (Finish k (mkOracle (Ok []) (Ok VNone)) ""). eexists. simpl.
      by rewrite Hpc, Ht.
    + exists (Release k). eexists. simpl. by rewrite Hpc.
  - assert (∀ k pc, (k, pc) ∈ coros s → pc = Queued ∨ ∃ r, pc = Finished r)
      as Hpcs.
    { intros k pc Hin. destruct pc; eauto; exfalso; apply Hno, Exists_exists;
        by eexists (k, _). }
    clear Hno.
    destruct (decide (Exists (λ c, pc_rank c.2 = 4) (coros s))) as [Hex|Hno].
    + apply Exists_exists in Hex as ([k pc] & Hin & Hr). simpl in *.
      assert (pc = Queued) as -> by (by destruct pc).
      destruct (Hget _ _ Hin) as (Hpc & _).
      assert (count_pcs is_holder (coros s) = 0) as Hzero.
      { clear -Hpcs. induction (coros s) as [|[k pc] cs IH]; simpl; [done |].
        rewrite IH by (intros; eapply Hpcs; by right).
        by destruct (Hpcs k pc ltac:(by left)) as [->|[r ->]]. }
      destruct (sem_value s) as [|m] eqn:Hm; [lia |].
      exists (Acquire k). eexists. simpl. by rewrite Hpc, Hm.
    + exists (Resume ""). simpl. unfold resume_main. rewrite Hmain.
      destruct (gather_exception s) as [e|] eqn:He; [by eexists |].
      assert (all_finished_ok (coros s) = true) as ->; [| by eexists].
      unfold all_finished_ok. apply forallb_forall.
      intros [k pc] Hin%list_elem_of_In. simpl.
      destruct (Hpcs _ _ Hin) as [->|[r ->]].
      * exfalso. apply Hno, Exists_exists. by exists (k, Queued).
      * destruct r as [e|]; [| done].
        destruct (Hget _ _ Hin) as (Hpc & _).
        apply Hg in Hpc. rewrite He in Hpc. by destruct Hpc.
Qed.

(** X5.  [execute_workflow] cannot wait forever on its own account: with
    a concurrency bound of at least one, as long as the call is waiting
    for its coroutines some step of a coroutine or of the call itself can
    be taken, and no execution has more than four steps per task (acquire,
    begin, finish, release) and one more for the call. *)
Theorem execution_makes_progress_and_is_bounded
    db workflow_id max_concurrency now later w s0 evs s :
  0 < max_concurrency →
  db !! workflow_id = Some w →
  execute_workflow_start db workflow_id max_concurrency now later = Ok s0 →
  run' s0 evs = Some s →
  length evs ≤ 4 * length (wf_tasks w) + 1
  ∧ (main s = Gathering → ∃ ev s', step' s ev = Some s').
Proof.
  intros Hpos Hw Hstart Hrun. split.
  - pose proof (run_steps_left _ _ _ Hrun) as Hleft.
    assert (steps_left s0 ≤ 4 * length (wf_tasks w) + 1); [| lia].
    destruct (start_cases _ _ _ _ _ _ Hstart)
      as (w' & Hw' & _ & [(l & Hord & Hc & Hm)|(e & _ & Hc & Hm)]);
      unfold steps_left; rewrite Hc, Hm.
    + assert (w' = w) as -> by congruence.
      apply execution_order_ok in Hord as (_ & _ & _ & Hlen). simpl in Hlen.
      rewrite queued_rank. lia.
    + simpl. lia.
  - intros Hmain. apply (waiting_enabled max_concurrency); [done | | | | done].
    + apply (run_invariant py_sum py_truediv _ (step_semaphore max_concurrency)
               _ _ _ Hrun).
      destruct (start_state _ _ _ _ _ _ Hstart) as (_ & _ & _ & ? & ? & _). lia.
    + apply (run_invariant py_sum py_truediv _ step_coros_inv _ _ _ Hrun).
      by eapply start_coros_inv.
    + apply (run_invariant py_sum py_truediv _ (step_gather_inv _ _) _ _ _ Hrun).
      by eapply start_gather_inv.
Qed.

(** X6.  With a concurrency bound of zero nothing ever runs: for a
    workflow with at least one task and a well-formed dependency graph,
    [execute_workflow] starts to wait for its coroutines, none of them can
    acquire the semaphore, and no step is ever possible: the call neither
    returns nor raises. *)
Theorem zero_concurrency_blocks_forever db workflow_id now later w :
  db !! workflow_id = Some w →
  wf_tasks w ≠ [] →
  deps_closed (wf_tasks w) →
  ¬ has_cycle (wf_tasks w) →
  ∃ s0, execute_workflow_start db workflow_id 0 now later = Ok s0
        ∧ main s0 = Gathering
        ∧ ∀ ev, step' s0 ev = None.
Proof.
  intros Hw Hne Hclosed Hacyc.
  destruct (get_execution_order_acyclic (workflow_running now w) Hclosed Hacyc)
    as (l & Hord & Hall & _).
  assert (l ≠ []) as Hl.
  { destruct (wf_tasks w) as [|t ts] eqn:Hts; [done |].
    intros ->. specialize (Hall t). simpl in Hall. rewrite Hts in Hall.
    by apply elem_of_nil in Hall; [| left]. }
  unfold execute_workflow_start. rewrite Hw, Hord.
  eexists. split; [done |]. split; [done |].
  assert (∀ k pc, dict_get ((λ t, (task_id t, Queued)) <$> l) k = Some pc →
                  pc = Queued) as Hq.
  { intros k pc. clear. induction l as [|t l IH]; csimpl; [done |].
    case_decide; [by intros [= <-] | done]. }
  intros ev. destruct ev as [tid|tid t0|tid o t0|tid|t0]; simpl.
  - by destruct (dict_get _ tid) as [[]|].
  - destruct (dict_get _ tid) as [pc|] eqn:Hpc; [| done].
    by rewrite (Hq _ _ Hpc).
  - destruct (dict_get _ tid) as [pc|] eqn:Hpc; [| done].
    by rewrite (Hq _ _ Hpc).
  - destruct (dict_get _ tid) as [pc|] eqn:Hpc; [| done].
    by rewrite (Hq _ _ Hpc).
  - unfold resume_main. simpl. by destruct l.
Qed.

Lemma step_terminal s ev s' k t :
  step' s ev = Some s' →
  awaiting_running s →
  find_task (tasks_of s) k = Some t →
  status t = COMPLETED ∨ status t = FAILED →
  find_task (tasks_of s') k = Some t.
Proof.
  intros Hstep Hinv Hk Hst.
  assert (∀ tid f, (∀ x, task_id (f x) = task_id x) → tid ≠ k →
            find_task (update_task tid f (tasks_of s)) k = Some t) as Hother.
  { intros tid f Hf Hne. rewrite find_task_update, Hk by done. simpl.
    apply find_task_Some in Hk as [<- _]. by rewrite decide_False. }
  unfold tasks_of in *.
  destruct ev as [tid|tid now|tid o now|tid|now]; step_inv Hstep; try done.
  - match goal with H : find_task _ tid = Some ?t0 |- _ =>
      pose proof (find_task_Some _ _ _ H) as [Hid _]; rename H into Ht0 end.
    unfold begin_task. destruct (can_execute _ _) eqn:Hcan; simpl; [| done].
    apply Hother; [done |]. intros Heq. rewrite Hid in Heq. subst k.
    apply can_execute_spec in Hcan as [Hp _].
    assert (t = t0) as -> by congruence. destruct Hst; congruence.
  - match goal with H : find_task _ tid = Some ?t0 |- _ =>
      pose proof (find_task_Some _ _ _ H) as [Hid _]; rename H into Ht0 end.
    match goal with H : dict_get _ tid = Some Awaiting |- _ =>
      apply Hinv in H; rename H into Hrun end.
    assert (task_id t0 ≠ k) as Hne.
    { intros Heq. rewrite Hid in Heq. subst k. unfold status_of, tasks_of in Hrun.
      rewrite Hk in Hrun. simpl in Hrun. destruct Hst; congruence. }
    unfold finish_task. by destruct (run_executor _ _ _ _ _); simpl; apply Hother.
Qed.

(** X7.  A task that is Completed or Failed is never written again: in
    everything that follows in the execution its row (status, result,
    error and timestamps) is the same. *)
Theorem finished_task_is_never_written_again
    db workflow_id max_concurrency now later s0 evs s evs' s' k t :
  execute_workflow_start db workflow_id max_concurrency now later = Ok s0 →
  run' s0 evs = Some s →
  find_task (tasks_of s) k = Some t →
  status t = COMPLETED ∨ status t = FAILED →
  run' s evs' = Some s' →
  find_task (tasks_of s') k = Some t.
Proof.
  intros Hstart Hrun Hk Hst Hrun'.
  assert (awaiting_running s) as Hinv.
  { apply (run_invariant py_sum py_truediv _ (step_awaiting_running _ _) _ _ _ Hrun).
    by eapply start_awaiting_running. }
  apply (run_invariant py_sum py_truediv
           (λ x, awaiting_running x ∧ find_task (tasks_of x) k = Some t))
    with (evs := evs') (s := s); [| done | done].
  intros s1 ev s2 Hstep [Hi Hf]. split.
  - by eapply step_awaiting_running.
  - by eapply step_terminal.
Qed.

(** X8.  When [execute_workflow] returns normally on a workflow whose
    tasks all started Pending, the workflow is Completed and no task is
    Failed or Running: every task is Completed, or was skipped by the
    guard of [_execute_task] and is still Pending. *)
Theorem normal_return_leaves_tasks_completed_or_pending
    db workflow_id max_concurrency now later w s0 evs s v :
  db !! workflow_id = Some w →
  NoDup (task_id <$> wf_tasks w) →
  fresh (wf_tasks w) →
  execute_workflow_start db workflow_id max_concurrency now later = Ok s0 →
  run' s0 evs = Some s →
  main s = Returned v →
  wf_status (workflow s) = COMPLETED
  ∧ Forall (λ t, status t = COMPLETED ∨ status t = PENDING) (tasks_of s).
Proof.
  intros Hw Hnd Hfresh Hstart Hrun Hmain.
  destruct (fresh_run_invariants _ _ _ _ _ _ _ _ _ _ _ Hw Hfresh Hstart Hrun)
    as (_ & _ & Hf & Hm & _).
  unfold main_inv in Hm. rewrite Hmain in Hm. destruct Hm as (Hs & _ & Hall).
  split; [done |].
  destruct (start_state _ _ _ _ _ _ Hstart) as (w' & Hw' & Htasks & Hsem & Hcnt & _).
  assert (w' = w) as -> by congruence.
  assert (concurrency_inv max_concurrency s) as [_ Hawait].
  { apply (run_invariant py_sum py_truediv _
             (step_concurrency_inv _ _ max_concurrency) _ _ _ Hrun).
    split; [lia |]. intros t Ht Hst. rewrite Htasks in Ht.
    unfold fresh in Hfresh. rewrite Forall_forall in Hfresh.
    specialize (Hfresh t Ht). congruence. }
  assert (NoDup (task_id <$> tasks_of s)) as Hnds.
  { by rewrite (run_ids _ _ _ _ _ Hrun), Htasks. }
  apply Forall_forall. intros t Ht.
  destruct (status t) eqn:Hst; [by right | | by left |]; exfalso.
  - apply Hawait in Ht; [| done].
    by apply (all_finished_ok_get _ _ _ Hall) in Ht.
  - destruct (Hf (task_id t)) as [e [Hpc|Hpc]];
      [| by apply (all_finished_ok_get _ _ _ Hall) in Hpc
       | by apply (all_finished_ok_get _ _ _ Hall) in Hpc].
    unfold status_of. by rewrite (find_task_unique _ _ Hnds Ht); simpl; f_equal.
Qed.

End engine_progress.

Section engine_untouched.
Variable py_sum : list value → py value.
Variable py_truediv : value → nat → py value.

Local Abbreviation step' := (step py_sum py_truediv).
Local Abbreviation run' := (run py_sum py_truediv).

Lemma step_not_pending s ev s' k t :
  step' s ev = Some s' →
  find_task (tasks_of s) k = Some t →
  status t ≠ PENDING →
  dict_get (coros s) k ≠ Some Awaiting →
  find_task (tasks_of s') k = Some t
  ∧ dict_get (coros s') k ≠ Some Awaiting.
Proof.
  intros Hstep Hk Hst Hpc.
  assert (∀ tid f, (∀ x, task_id (f x) = task_id x) → tid ≠ k →
            find_task (update_task tid f (tasks_of s)) k = Some t) as Hother.
  { intros tid f Hf Hne. rewrite find_task_update, Hk by done. simpl.
    apply find_task_Some in Hk as [<- _]. by rewrite decide_False. }
  unfold tasks_of in *.
  destruct ev as [tid|tid now|tid o now|tid|now]; step_inv Hstep; simpl;
    try (split; [done |]; unfold set_coro; rewrite dict_get_set;
         by case_decide);
    try done.
  - match goal with H : find_task _ tid = Some ?t0 |- _ =>
      pose proof (find_task_Some _ _ _ H) as [Hid _]; rename H into Ht0 end.
    unfold begin_task. destruct (can_execute _ _) eqn:Hcan; simpl;
      unfold set_coro; rewrite dict_get_set.
    + apply can_execute_spec in Hcan as [Hp _].
      assert (task_id t0 ≠ k) as Hne.
      { intros Heq. rewrite Hid in Heq. subst k. congruence. }
      split; [by apply Hother |]. by rewrite decide_False.
    + split; [done |]. by case_decide.
  - match goal with H : find_task _ tid = Some ?t0 |- _ =>
      pose proof (find_task_Some _ _ _ H) as [Hid _]; rename H into Ht0 end.
    assert (task_id t0 ≠ k) as Hne.
    { intros Heq. rewrite Hid in Heq. subst k. congruence. }
    unfold finish_task. destruct (run_executor _ _ _ _ _); simpl;
      unfold set_coro; rewrite dict_get_set;
      (split; [by apply Hother | by case_decide]).
Qed.

(** X23.  [execute_workflow] runs only tasks that are Pending when it
    starts.  A task that is then Running, Completed or Failed is skipped
    by the guard of [_execute_task] and its row is never written: a task
    left Running by an earlier run that was interrupted stays Running, and
    executing a finished workflow again changes no task. *)
Theorem only_pending_tasks_are_ever_run
    db workflow_id max_concurrency now later w s0 evs s k t :
  db !! workflow_id = Some w →
  find_task (wf_tasks w) k = Some t →
  status t ≠ PENDING →
  execute_workflow_start db workflow_id max_concurrency now later = Ok s0 →
  run' s0 evs = Some s →
  find_task (tasks_of s) k = Some t
  ∧ dict_get (coros s) k ≠ Some Awaiting.
Proof.
  intros Hw Hk Hst Hstart Hrun.
  destruct (start_state _ _ _ _ _ _ Hstart) as (w' & Hw' & Htasks & _).
  assert (w' = w) as -> by congruence.
  apply (run_invariant py_sum py_truediv
           (λ x, find_task (tasks_of x) k = Some t
                 ∧ dict_get (coros x) k ≠ Some Awaiting))
    with (evs := evs) (s := s0); [| done |].
  - intros x ev x' Hstep [Hf Hpc]. by eapply step_not_pending.
  - split; [by rewrite Htasks |].
    intros Hpc. by apply (start_coros _ _ _ _ _ _ _ _ Hstart) in Hpc.
Qed.

End engine_untouched.

(** * Failure, completion and validation *)

(** ** The outcome of an execution *)

Section engine_outcome.
Variable py_sum : list value → py value.
Variable py_truediv : value → nat → py value.

Local Abbreviation step' := (step py_sum py_truediv).
Local Abbreviation run' := (run py_sum py_truediv).

Lemma finished_stays s ev s' k r :
  step' s ev = Some s' →
  dict_get (coros s) k = Some (Finished r) →
  dict_get (coros s') k = Some (Finished r).
Proof.
  intros Hstep Hk.
  destruct (step_coro py_sum py_truediv _ _ _ k Hstep)
    as [Heq|[(_ & ? & _)|[(now & _ & ? & _)
        |[(?&?&?& _ & ? & _)|(r' & _ & ? & _)]]]]; congruence.
Qed.

Lemma step_raised_failed s ev s' :
  step' s ev = Some s' → awaiting_running s →
  raised_failed s → raised_failed s'.
Proof.
  intros Hstep Ha Hinv k e Hk.
  destruct (step_coro py_sum py_truediv _ _ _ k Hstep)
    as [Heq|[(_ & _ & Hn)|[(now & _ & _ & [[Hn _]|[Hn _]])
        |[(o & now & r & -> & Hpc & Hn)|(r & -> & Hl & Hf)]]]].
  - rewrite Heq in Hk. destruct (Hinv k e Hk) as (t & Ht & Hst & Herr).
    exists t. split; [| done].
    apply (step_terminal py_sum py_truediv _ _ _ _ _ Hstep Ha Ht). by right.
  - destruct Hk; congruence.
  - destruct Hk; congruence.
  - destruct Hk; congruence.
  - assert (r = Some e) as -> by (destruct Hk; congruence). clear Hk.
    simpl in Hstep. rewrite Hpc in Hstep.
    destruct (find_task (wf_tasks (workflow s)) k) as [t|] eqn:Hfind; [| done].
    injection Hstep as <-.
    pose proof (find_task_Some _ _ _ Hfind) as [Hid _].
    unfold finish_task, tasks_of, set_coro in *.
    destruct (run_executor _ _ _ _ _) as [r|e0]; simpl in *;
      rewrite Hid, dict_get_set_eq in Hn; [done |].
    injection Hn as ->. exists (mark_failed (py_str e) now t).
    rewrite find_task_update by done. rewrite Hfind. simpl.
    by rewrite decide_True.
  - assert (r = Some e) as -> by (destruct Hk; congruence).
    destruct (Hinv k e (or_introl Hl)) as (t & Ht & Hst & Herr).
    exists t. split; [| done].
    apply (step_terminal py_sum py_truediv _ _ _ _ _ Hstep Ha Ht). by right.
Qed.

Lemma step_gathered s ev s' :
  step' s ev = Some s' →
  gather_exception s' = gather_exception s
  ∨ ∃ k e, gather_exception s' = Some e
           ∧ dict_get (coros s') k = Some (Finished (Some e)).
Proof.
  intros Hstep.
  destruct ev as [tid|tid now|tid o now|tid|now]; step_inv Hstep;
    try (by left).
  - left. unfold begin_task. by case_match.
  - left. unfold finish_task. by case_match.
  - destruct raised as [e|]; [| by left].
    right. exists tid, e. simpl. split; [done |].
    unfold set_coro. apply dict_get_set_eq.
Qed.

Lemma step_gathered_finished s ev s' :
  step' s ev = Some s' → gathered_finished s → gathered_finished s'.
Proof.
  intros Hstep Hinv e He.
  destruct (step_gathered _ _ _ Hstep) as [Heq|(k & e' & He' & Hk)].
  - rewrite Heq in He. destruct (Hinv e He) as [k Hk].
    exists k. by eapply finished_stays.
  - exists k. congruence.
Qed.

Lemma step_raised_gathered s ev s' :
  step' s ev = Some s' → raised_gathered s → raised_gathered s'.
Proof.
  intros Hstep Hinv.
  destruct ev as [tid|tid now|tid o now|tid|now]; step_inv Hstep;
    unfold raised_gathered; simpl; try done.
  all: try (unfold begin_task; by case_match).
  all: try (unfold finish_task; by case_match).
  - intros e0 He0. specialize (Hinv e0 He0). congruence.
  - intros e0 He0. specialize (Hinv e0 He0). congruence.
  - by intros e0 [= <-].
Qed.

Lemma find_task_update_pending (tasks : list Task) tid f k t' :
  (∀ x, task_id (f x) = task_id x) →
  (∀ x, status (f x) ≠ PENDING) →
  find_task (update_task tid f tasks) k = Some t' →
  status t' = PENDING →
  find_task tasks k = Some t'.
Proof.
  intros Hid Hst. rewrite find_task_update by done.
  destruct (find_task tasks k) as [x|]; [| done]. simpl.
  case_decide; intros [= <-]; [| done]. intros Hp. by destruct (Hst x).
Qed.

Lemma step_pending_untouched tasks s ev s' :
  step' s ev = Some s' →
  pending_untouched tasks s → pending_untouched tasks s'.
Proof.
  intros Hstep Hinv k t' Hk Hp. apply Hinv; [| done].
  unfold tasks_of in *.
  destruct ev as [tid|tid now|tid o now|tid|now]; step_inv Hstep;
    try done.
  - unfold begin_task in Hk. case_match; [| done]. simpl in Hk.
    eapply find_task_update_pending; [| | exact Hk | exact Hp]; by intros x.
  - unfold finish_task in Hk. case_match; simpl in Hk;
      (eapply find_task_update_pending; [| | exact Hk | exact Hp]);
      by intros x.
Qed.

Lemma step_coros_keys s ev s' :
  step' s ev = Some s' → dict_keys (coros s') = dict_keys (coros s).
Proof.
  intros Hstep.
  destruct (step_shape py_sum py_truediv _ _ _ Hstep)
    as [(-> & _)|(k & old & new & Hget & -> & _)]; [done |].
  rewrite dict_keys_set, decide_True; [done |].
  apply dict_get_keys. by eexists.
Qed.

Lemma run_coros_keys evs s s' :
  run' s evs = Some s' → dict_keys (coros s') = dict_keys (coros s).
Proof.
  intros Hrun.
  apply (run_invariant py_sum py_truediv
           (λ x, dict_keys (coros x) = dict_keys (coros s)))
    with (evs := evs) (s := s); [| done | done].
  intros s1 ev s2 Hstep <-. by eapply step_coros_keys.
Qed.

(** The invariants of every execution. *)
Lemma outcome_invariants db workflow_id max_concurrency now later w s0 evs s :
  db !! workflow_id = Some w →
  execute_workflow_start db workflow_id max_concurrency now later = Ok s0 →
  run' s0 evs = Some s →
  awaiting_running s ∧ raised_failed s ∧ gathered_finished s
  ∧ pending_untouched (wf_tasks w) s ∧ main_inv s ∧ gather_inv s ∧ coros_inv s
  ∧ sem_value s + count_pcs is_holder (coros s) = max_concurrency
  ∧ (main s0 = Gathering → raised_gathered s).
Proof.
  intros Hw Hstart Hrun.
  destruct (start_state _ _ _ _ _ _ Hstart)
    as (w' & Hw' & Htasks & Hsem & Hcnt & Hg).
  assert (w' = w) as -> by congruence.
  assert (∀ k pc, dict_get (coros s0) k = Some pc → pc = Queued) as Hq.
  { intros k pc. by apply (start_coros _ _ _ _ _ _ _ _ Hstart). }
  split_and!.
  - apply (run_invariant py_sum py_truediv _
             (step_awaiting_running py_sum py_truediv) _ _ _ Hrun).
    by eapply start_awaiting_running.
  - apply (run_invariant py_sum py_truediv
             (λ x, awaiting_running x ∧ raised_failed x))
      with (evs := evs) (s := s0); [| done |].
    + intros s1 ev s2 Hstep [H1 H2]. split.
      * by eapply step_awaiting_running.
      * by eapply step_raised_failed.
    + split; [by eapply start_awaiting_running |].
      intros k e [Hk|Hk]; by apply Hq in Hk.
  - apply (run_invariant py_sum py_truediv _ step_gathered_finished _ _ _ Hrun).
    intros e He. congruence.
  - apply (run_invariant py_sum py_truediv _
             (step_pending_untouched (wf_tasks w)) _ _ _ Hrun).
    intros k t Hk _. unfold tasks_of in *. by rewrite <-Htasks.
  - apply (run_invariant py_sum py_truediv _
             (step_main_inv py_sum py_truediv) _ _ _ Hrun).
    by eapply start_main_inv.
  - apply (run_invariant py_sum py_truediv _
             (step_gather_inv py_sum py_truediv) _ _ _ Hrun).
    by eapply start_gather_inv.
  - apply (run_invariant py_sum py_truediv _
             (step_coros_inv py_sum py_truediv) _ _ _ Hrun).
    by eapply start_coros_inv.
  - apply (run_invariant py_sum py_truediv _
             (step_semaphore py_sum py_truediv max_concurrency) _ _ _ Hrun).
    lia.
  - intros Hm.
    apply (run_invariant py_sum py_truediv _ step_raised_gathered _ _ _ Hrun).
    intros e He. congruence.
Qed.

(** *** C4: a failed task *)

(** An exception raised after waiting is the exception of a Failed
    task. *)
Lemma raised_error_of_failed_task
    db workflow_id max_concurrency now later w s0 evs s e :
  db !! workflow_id = Some w →
  execute_workflow_start db workflow_id max_concurrency now later = Ok s0 →
  main s0 = Gathering →
  run' s0 evs = Some s →
  main s = Raised e →
  wf_status (workflow s) = FAILED
  ∧ wf_error (workflow s) = Some (py_str e)
  ∧ error_of_failed_task s e.
Proof.
  intros Hw Hstart Hm0 Hrun He.
  destruct (outcome_invariants _ _ _ _ _ _ _ _ _ Hw Hstart Hrun)
    as (_ & Hrf & Hgf & _ & Hm & _ & _ & _ & Hrg).
  unfold main_inv in Hm. rewrite He in Hm. destruct Hm as [Hst Herr].
  split_and!; [done | done |].
  destruct (Hgf e (Hrg Hm0 e He)) as [k Hk].
  destruct (Hrf k e (or_intror Hk)) as (t & Ht & Hs & Hte).
  by exists k, t.
Qed.

(** C4 (amended).  In every execution that starts from a fresh workflow
    with unique task ids, once a task is Failed: every task that depends
    on it, directly or through other tasks, is Pending and its row is as
    it was stored (it is never dispatched, never marked Failed and no
    error is recorded on it); [execute_workflow] does not return normally
    and the workflow is not Completed; if [execute_workflow] has raised,
    the workflow is Failed and its error is the error of a Failed task
    whose coroutine ended with the exception raised (with several Failed
    tasks, not necessarily the one considered); and while
    [execute_workflow] is still waiting, releasing the failed coroutine's
    semaphore and resuming it leads to such a state. *)
Theorem failure_leaves_dependents_pending_and_fails_workflow
    db workflow_id max_concurrency now later w s0 evs s b :
  db !! workflow_id = Some w →
  NoDup (task_id <$> wf_tasks w) →
  fresh (wf_tasks w) →
  execute_workflow_start db workflow_id max_concurrency now later = Ok s0 →
  run' s0 evs = Some s →
  status_of s b = Some FAILED →
  (∀ a, tc (depends_on (wf_tasks w)) a b →
        status_of s a = Some PENDING
        ∧ find_task (tasks_of s) a = find_task (wf_tasks w) a)
  ∧ (∀ v, main s ≠ Returned v)
  ∧ wf_status (workflow s) ≠ COMPLETED
  ∧ (∀ e, main s = Raised e →
          wf_status (workflow s) = FAILED
          ∧ wf_error (workflow s) = Some (py_str e)
          ∧ error_of_failed_task s e)
  ∧ (main s = Gathering →
     ∃ evs' s' e, run' s evs' = Some s'
                  ∧ main s' = Raised e
                  ∧ wf_status (workflow s') = FAILED
                  ∧ wf_error (workflow s') = Some (py_str e)
                  ∧ error_of_failed_task s' e).
Proof.
  intros Hw Hnd Hfresh Hstart Hrun Hb.
  destruct (fresh_run_invariants py_sum py_truediv _ _ _ _ _ _ _ _ _
              Hw Hfresh Hstart Hrun)
    as (Ha & Hd & Hf & Hm & Hg).
  destruct (outcome_invariants _ _ _ _ _ _ _ _ _ Hw Hstart Hrun)
    as (_ & _ & _ & Hpu & _).
  destruct (start_state _ _ _ _ _ _ Hstart) as (w' & Hw' & Htasks & _).
  assert (w' = w) as -> by congruence.
  destruct (Hf b Hb) as [e Hpc].
  assert (main s0 = Gathering) as Hm0.
  { destruct (start_cases _ _ _ _ _ _ Hstart)
      as (_ & _ & _ & [(l & _ & _ & ?)|(e0 & _ & Hc & _)]); [done |].
    exfalso.
    assert (b ∈ dict_keys (coros s)) as Hin.
    { apply dict_get_keys. destruct Hpc as [Hpc|Hpc]; by rewrite Hpc. }
    rewrite (run_coros_keys _ _ _ Hrun), Hc in Hin. by apply elem_of_nil in Hin. }
  assert (Hnot : ∀ v, main s ≠ Returned v).
  { intros v Hv. unfold main_inv in Hm. rewrite Hv in Hm.
    destruct Hm as (_ & _ & Hall).
    destruct Hpc as [Hpc|Hpc]; by apply (all_finished_ok_get _ _ _ Hall) in Hpc. }
  split_and!.
  - intros a Htc.
    assert (status_of s a = Some PENDING) as Hp.
    { apply (dependents_of_failed_pending (wf_tasks w) s a b);
        [done | | done | done | done].
      by rewrite (run_static py_sum py_truediv _ _ _ Hrun), Htasks. }
    split; [done |]. unfold status_of in Hp.
    destruct (find_task (tasks_of s) a) as [t|] eqn:Ht; [| done].
    symmetry. apply Hpu; [done |]. simpl in Hp. congruence.
  - done.
  - unfold main_inv in Hm. destruct (main s) as [|v|e'];
      [congruence | by destruct (Hnot v) | destruct Hm; congruence].
  - intros e' He'. by eapply raised_error_of_failed_task.
  - intros Hmain.
    assert (∃ evs' s' e', run' s evs' = Some s' ∧ main s' = Raised e')
      as (evs' & s' & e' & Hrun' & He').
    { destruct Hpc as [Hpc|Hpc].
      - destruct (gather_exception s) as [e0|] eqn:Hge.
        + exists [Release b; Resume later]. eexists _, e0. simpl.
          rewrite Hpc. simpl. unfold resume_main. simpl.
          rewrite Hmain, Hge. done.
        + exists [Release b; Resume later]. eexists _, e. simpl.
          rewrite Hpc. simpl. unfold resume_main. simpl.
          rewrite Hmain, Hge. done.
      - destruct (Hg b e Hpc) as [e0 Hge].
        exists [Resume later]. eexists _, e0. simpl. unfold resume_main.
        rewrite Hmain, Hge. done. }
    exists evs', s', e'. split; [done |]. split; [done |].
    apply (raised_error_of_failed_task _ _ _ _ _ _ _ (evs ++ evs') _ _
             Hw Hstart Hm0); [| done].
    rewrite run_app, Hrun. done.
Qed.

(** *** C6: every task Completed *)

Lemma step_all_completed s ev s' :
  step' s ev = Some s' →
  awaiting_running s →
  Forall (λ t, status t = COMPLETED) (tasks_of s) →
  tasks_of s' = tasks_of s.
Proof.
  intros Hstep Ha Hall. rewrite Forall_forall in Hall.
  assert (∀ k t, find_task (tasks_of s) k = Some t → status t = COMPLETED)
    as Hdone.
  { intros k t [_ Hin]%find_task_Some. by apply Hall. }
  unfold tasks_of in *.
  destruct ev as [tid|tid now|tid o now|tid|now]; step_inv Hstep; try done.
  - match goal with H : find_task _ tid = Some ?t |- _ =>
      rename H into Hfind end.
    unfold begin_task. destruct (can_execute _ _) eqn:Hcan; [| done].
    apply can_execute_spec in Hcan as [Hp _]. apply Hdone in Hfind. congruence.
  - match goal with H : dict_get _ tid = Some Awaiting |- _ =>
      apply Ha in H; rename H into Hr end.
    match goal with H : find_task _ tid = Some ?t |- _ =>
      rename H into Hfind end.
    unfold status_of, tasks_of in Hr. rewrite Hfind in Hr.
    apply Hdone in Hfind. simpl in Hr. congruence.
Qed.

Lemma step_settled n s ev s' :
  step' s ev = Some s' → settled n s →
  settled n s' ∧ tasks_of s' = tasks_of s.
Proof.
  intros Hstep (Ha & Hrf & Hgf & Hrg & Hm & Hg & Hc & Hsem & Hnd & Hpp & Hall).
  pose proof (step_all_completed _ _ _ Hstep Ha Hall) as Heq.
  split; [| done]. unfold settled. rewrite Heq. split_and!; try done.
  - by eapply step_awaiting_running.
  - by eapply step_raised_failed.
  - by eapply step_gathered_finished.
  - by eapply step_raised_gathered.
  - by eapply step_main_inv.
  - by eapply step_gather_inv.
  - by eapply step_coros_inv.
  - by eapply step_semaphore.
Qed.

Lemma run_settled n evs s s' :
  run' s evs = Some s' → settled n s →
  settled n s' ∧ tasks_of s' = tasks_of s.
Proof.
  intros Hrun Hs.
  apply (run_invariant py_sum py_truediv
           (λ x, settled n x ∧ tasks_of x = tasks_of s))
    with (evs := evs) (s := s); [| done | done].
  intros s1 ev s2 Hstep [H1 H2].
  destruct (step_settled _ _ _ _ Hstep H1) as [? ?]. split; congruence.
Qed.

Lemma settled_not_raised n s e : settled n s → main s ≠ Raised e.
Proof.
  intros (_ & Hrf & Hgf & Hrg & _ & _ & _ & _ & _ & _ & Hall) He.
  destruct (Hgf e (Hrg e He)) as [k Hk].
  destruct (Hrf k e (or_intror Hk)) as (t & [_ Ht]%find_task_Some & Hs & _).
  rewrite Forall_forall in Hall. specialize (Hall t Ht). congruence.
Qed.

Lemma settled_returned n s v :
  settled n s → main s = Returned v →
  wf_status (workflow s) = COMPLETED ∧ returned_result s v.
Proof.
  intros (_ & _ & _ & _ & Hm & _ & _ & _ & _ & Hpp & Hall) Hv.
  unfold main_inv in Hm. rewrite Hv in Hm. destruct Hm as (Hst & -> & _).
  split; [done |].
  unfold returned_result, first_postprocess, _get_workflow_results.
  fold (tasks_of s). rewrite (find_postprocess_completed _ Hall).
  destruct (List.find _ (tasks_of s)) as [t|] eqn:Hfind.
  - apply find_some in Hfind as [Hin Hty].
    apply bool_decide_eq_true in Hty. apply list_elem_of_In in Hin.
    rewrite Forall_forall in Hall.
    destruct (Hpp t Hin Hty (Hall t Hin)) as (kv & r & Hr). by rewrite Hr.
  - by rewrite Hst.
Qed.

Lemma settled_enabled n s :
  0 < n → settled n s → main s = Gathering → ∃ ev s', step' s ev = Some s'.
Proof.
  intros Hn (_ & _ & _ & _ & _ & Hg & Hc & Hsem & _) Hm.
  by apply (waiting_enabled py_sum py_truediv n).
Qed.

Lemma settled_returns n :
  0 < n →
  ∀ m s, steps_left s ≤ m → settled n s →
         ∃ evs s' v, run' s evs = Some s' ∧ main s' = Returned v.
Proof.
  intros Hn m. induction m as [|m IH]; intros s Hm Hs.
  - destruct (main s) as [|v|e] eqn:Hmain.
    + unfold steps_left in Hm. rewrite Hmain in Hm. lia.
    + by exists [], s, v.
    + by destruct (settled_not_raised _ _ e Hs).
  - destruct (main s) as [|v|e] eqn:Hmain.
    + destruct (settled_enabled _ _ Hn Hs Hmain) as (ev & s1 & Hstep).
      pose proof (step_steps_left py_sum py_truediv _ _ _ Hstep) as Hless.
      destruct (step_settled _ _ _ _ Hstep Hs) as [Hs1 _].
      destruct (IH s1 ltac:(lia) Hs1) as (evs & s' & v & Hrun & Hv).
      exists (ev :: evs), s', v. simpl. by rewrite Hstep.
    + by exists [], s, v.
    + by destruct (settled_not_raised _ _ e Hs).
Qed.

(** C6 (amended).  Take a stored workflow with unique task ids whose
    dependency ids all name tasks of the workflow and form no cycle, in
    which a postprocess task that is already Completed has a non-empty
    result, and a concurrency bound of at least one.  From a state of
    [execute_workflow] in which every task is Completed, whatever happens
    next no task changes and [execute_workflow] never raises; while it is
    waiting some step can be taken; when it has returned, the workflow is
    Completed and the value returned is the result of the first
    postprocess task of [workflow.tasks] (the summary of the workflow if
    it has none); and it can always go on to return. *)
Theorem completed_workflow_returns_postprocess_result
    db workflow_id max_concurrency now later w s0 evs s :
  db !! workflow_id = Some w →
  NoDup (task_id <$> wf_tasks w) →
  deps_closed (wf_tasks w) →
  ¬ has_cycle (wf_tasks w) →
  postprocess_results (wf_tasks w) →
  0 < max_concurrency →
  execute_workflow_start db workflow_id max_concurrency now later = Ok s0 →
  run' s0 evs = Some s →
  Forall (λ t, status t = COMPLETED) (tasks_of s) →
  (∀ evs' s', run' s evs' = Some s' →
     tasks_of s' = tasks_of s
     ∧ (∀ e, main s' ≠ Raised e)
     ∧ (∀ v, main s' = Returned v →
          wf_status (workflow s') = COMPLETED ∧ returned_result s' v)
     ∧ (main s' = Gathering → ∃ ev s'', step' s' ev = Some s''))
  ∧ ∃ evs' s' v, run' s evs' = Some s'
                 ∧ main s' = Returned v
                 ∧ wf_status (workflow s') = COMPLETED
                 ∧ returned_result s' v.
Proof.
  intros Hw Hnd Hclosed Hacyc Hpost Hpos Hstart Hrun Hall.
  destruct (start_cases _ _ _ _ _ _ Hstart)
    as (w' & Hw' & Htasks & Hcases).
  assert (w' = w) as -> by congruence.
  assert (main s0 = Gathering) as Hm0.
  { destruct Hcases as [(l & _ & _ & ?)|(e & He & _)]; [done |].
    destruct (get_execution_order_acyclic (workflow_running now w) Hclosed Hacyc)
      as (l & Hl & _).
    congruence. }
  assert (settled max_concurrency s) as Hs.
  { destruct (outcome_invariants _ _ _ _ _ _ _ _ _ Hw Hstart Hrun)
      as (Ha & Hrf & Hgf & _ & Hm & Hg & Hc & Hsem & Hrg).
    assert (task_id <$> tasks_of s = task_id <$> wf_tasks w) as Hids.
    { by rewrite (run_ids py_sum py_truediv _ _ _ Hrun), Htasks. }
    unfold settled. split_and!; try done.
    - by apply Hrg.
    - by rewrite Hids.
    - apply (run_invariant py_sum py_truediv
               (λ x, task_id <$> tasks_of x = task_id <$> tasks_of s0
                     ∧ postprocess_results (tasks_of x)))
        with (evs := evs) (s := s0); [| done |].
      + intros s1 ev s2 Hstep [Hi Hp]. split.
        * rewrite <-Hi.
          by apply static_ids, (step_static py_sum py_truediv _ _ _ Hstep).
        * apply (step_postprocess_results py_sum py_truediv _ _ _ Hstep);
            [| done].
          by rewrite Hi, Htasks.
      + by rewrite Htasks. }
  split.
  - intros evs' s' Hrun'.
    destruct (run_settled _ _ _ _ Hrun' Hs) as [Hs' Heq].
    split_and!; [done | | |].
    + intros e. by eapply settled_not_raised.
    + intros v. by apply settled_returned with (n := max_concurrency).
    + by apply settled_enabled with (n := max_concurrency).
  - destruct (settled_returns _ Hpos (steps_left s) s ltac:(done) Hs)
      as (evs' & s' & v & Hrun' & Hv).
    destruct (run_settled _ _ _ _ Hrun' Hs) as [Hs' _].
    destruct (settled_returned _ _ _ Hs' Hv) as [? ?].
    by exists evs', s', v.
Qed.

End engine_outcome.

(** ** C8: the validation stage *)

Section engine_validation.
Variable py_sum : list value → py value.
Variable py_truediv : value → nat → py value.

Lemma py_fold_raises {A S} (body : S → A → py S) (l : list A) a :
  a ∈ l →
  (∀ acc, ∃ e, body acc a = Raise e) →
  ∀ acc, ∃ e, py_fold body acc l = Raise e.
Proof.
  intros Hin Hbody. induction l as [|a0 l IH]; intros acc; simpl.
  - by apply elem_of_nil in Hin.
  - destruct (body acc a0) as [acc'|e] eqn:Ha0; simpl; [| by eexists].
    apply elem_of_cons in Hin as [->|Hin]; [| by apply IH].
    destruct (Hbody acc) as [e He]. congruence.
Qed.

Lemma check_field_type_raises fields_result fd entry v acc :
  format_checked fd = true →
  dict_get fields_result (fd_name fd) = Some (VDict entry) →
  dict_get entry "value" = Some v →
  truthy v = true →
  is_text v = false →
  ∃ e, check_field_type fields_result acc fd = Raise e.
Proof.
  intros Hty Hentry Hval Htruthy Htext. unfold check_field_type.
  rewrite Hentry. simpl. rewrite Hval. simpl. rewrite Htruthy.
  unfold format_checked in Hty.
  destruct (String.eqb (fd_type fd) "date");
    [destruct v; try done; by eexists |].
  destruct (String.eqb (fd_type fd) "currency");
    [destruct v; try done; by eexists |].
  destruct (String.eqb (fd_type fd) "number"); [| done].
  destruct v; try done; by eexists.
Qed.

(** The basic validation raises on a value of a date, currency or number
    field that is not empty and not a text. *)
Lemma validate_raises fields_result tables_result understanding_result
    fd entry v :
  fd ∈ _get_fields_to_extract understanding_result →
  format_checked fd = true →
  dict_get fields_result (fd_name fd) = Some (VDict entry) →
  dict_get entry "value" = Some v →
  truthy v = true →
  is_text v = false →
  ∃ e, _validate_extraction_results fields_result tables_result
         understanding_result = Raise e.
Proof.
  intros Hin Hty Hentry Hval Htruthy Htext.
  unfold _validate_extraction_results.
  destruct (py_fold (check_required_field _) _ _) as [v1|e1]; simpl;
    [| by eexists].
  destruct (_get_tables_to_extract _) as [tds|e2]; simpl; [| by eexists].
  destruct (py_fold (check_required_table _) _ _) as [v2|e3]; simpl;
    [| by eexists].
  destruct (py_fold_raises (check_field_type fields_result) _ fd Hin
              (λ acc, check_field_type_raises _ _ _ _ acc
                        Hty Hentry Hval Htruthy Htext) v2) as [e He].
  rewrite He. by eexists.
Qed.

(** What the validation stage returns, by the LLM's answer and the
    outcome of the basic validation. *)
Lemma validate_executor_cases tasks task llm m1 m2 m3 m4 fr tr ur xr c :
  dependency_result tasks task EXTRACT_FIELDS m1 = Ok fr →
  dependency_result tasks task EXTRACT_TABLES m2 = Ok tr →
  dependency_result tasks task UNDERSTAND_DOCUMENT m3 = Ok ur →
  dependency_result tasks task EXTRACT_TEXT m4 = Ok xr →
  _calculate_confidence py_sum py_truediv fr tr = Ok c →
  _execute_validate_results_task py_sum py_truediv tasks task llm
  = match llm_answer llm with
    | Some v0 =>
        Ok [ ("document_type", dict_get_or ur "document_type" (VStr "unknown"));
             ("fields", VDict fr); ("tables", VDict tr);
             ("validation", v0); ("confidence", c) ]
    | None =>
        v ← _validate_extraction_results fr tr ur;
        Ok [ ("document_type", dict_get_or ur "document_type" (VStr "unknown"));
             ("fields", VDict fr); ("tables", VDict tr);
             ("validation", v); ("confidence", c) ]
    end.
Proof.
  intros H1 H2 H3 H4 Hc. unfold _execute_validate_results_task.
  rewrite (dependency_result_msg _ _ _ _ _ _ H1), bind_Ok_l.
  rewrite (dependency_result_msg _ _ _ _ _ _ H2), bind_Ok_l.
  rewrite (dependency_result_msg _ _ _ _ _ _ H3), bind_Ok_l.
  rewrite (dependency_result_msg _ _ _ _ _ _ H4), bind_Ok_l.
  unfold combined_result, llm_answer. rewrite Hc.
  destruct llm as [v0|e]; simpl.
  - destruct (truthy v0); simpl; [done |].
    by destruct (_validate_extraction_results fr tr ur).
  - by destruct (_validate_extraction_results fr tr ur).
Qed.

Lemma finish_task_completed s task o now payload :
  find_task (tasks_of s) (task_id task) = Some task →
  run_executor py_sum py_truediv (tasks_of s) task o = Ok payload →
  find_task (tasks_of (finish_task py_sum py_truediv s task o now)) (task_id task)
  = Some (mark_completed payload now task).
Proof.
  intros Hfind Hexec. unfold finish_task, tasks_of in *. rewrite Hexec. simpl.
  rewrite find_task_update by done. rewrite Hfind. simpl.
  by rewrite decide_True.
Qed.

Lemma finish_task_failed s task o now e :
  find_task (tasks_of s) (task_id task) = Some task →
  run_executor py_sum py_truediv (tasks_of s) task o = Raise e →
  find_task (tasks_of (finish_task py_sum py_truediv s task o now)) (task_id task)
  = Some (mark_failed (py_str e) now task).
Proof.
  intros Hfind Hexec. unfold finish_task, tasks_of in *. rewrite Hexec. simpl.
  rewrite find_task_update by done. rewrite Hfind. simpl.
  by rewrite decide_True.
Qed.

(** C8 (amended).  Let the validate-results task find the results of its
    four dependencies and let the confidence score be computed.  When the
    LLM validation returns a non-empty answer, that answer is the
    validation of the payload, unchanged, and the task becomes Completed;
    the checks of [_validate_extraction_results] are not run.  Otherwise
    the basic validation runs.  If it returns, the task becomes Completed
    with a payload whose validation records every missing or empty
    required field or table as an error, with [valid] false, and every
    non-empty text of a date, currency or number field that does not match
    its format as a warning.  If it raises, the executor raises the same
    exception and the task becomes Failed with it; it does raise when a
    date, currency or number field has a non-empty value that is not a
    text.  In general a task becomes Failed exactly when its executor
    raises. *)
Theorem validation_findings_do_not_fail_task
    s task o now m1 m2 m3 m4 fr tr ur xr c :
  find_task (tasks_of s) (task_id task) = Some task →
  task_type task = VALIDATE_RESULTS →
  dependency_result (tasks_of s) task EXTRACT_FIELDS m1 = Ok fr →
  dependency_result (tasks_of s) task EXTRACT_TABLES m2 = Ok tr →
  dependency_result (tasks_of s) task UNDERSTAND_DOCUMENT m3 = Ok ur →
  dependency_result (tasks_of s) task EXTRACT_TEXT m4 = Ok xr →
  _calculate_confidence py_sum py_truediv fr tr = Ok c →
  (∀ v0, llm_answer (llm_validation o) = Some v0 →
     ∃ payload,
       run_executor py_sum py_truediv (tasks_of s) task o = Ok payload
       ∧ find_task (tasks_of (finish_task py_sum py_truediv s task o now))
           (task_id task)
         = Some (mark_completed payload now task)
       ∧ dict_get payload "validation" = Some v0)
  ∧ (llm_answer (llm_validation o) = None →
     (∀ v, _validate_extraction_results fr tr ur = Ok v →
        ∃ payload vr,
          run_executor py_sum py_truediv (tasks_of s) task o = Ok payload
          ∧ find_task (tasks_of (finish_task py_sum py_truediv s task o now))
              (task_id task)
            = Some (mark_completed payload now task)
          ∧ dict_get payload "validation" = Some v
          ∧ v = validation_value vr
          ∧ findings_recorded fr tr ur vr)
     ∧ (∀ e, _validate_extraction_results fr tr ur = Raise e →
          run_executor py_sum py_truediv (tasks_of s) task o = Raise e
          ∧ find_task (tasks_of (finish_task py_sum py_truediv s task o now))
              (task_id task)
            = Some (mark_failed (py_str e) now task)))
  ∧ (∀ fd entry v,
       fd ∈ _get_fields_to_extract ur →
       format_checked fd = true →
       dict_get fr (fd_name fd) = Some (VDict entry) →
       dict_get entry "value" = Some v →
       truthy v = true →
       is_text v = false →
       ∃ e, _validate_extraction_results fr tr ur = Raise e)
  ∧ (∀ t' o' now',
       find_task (tasks_of s) (task_id t') = Some t' →
       status_of (finish_task py_sum py_truediv s t' o' now') (task_id t')
       = Some FAILED
       ↔ ∃ e, run_executor py_sum py_truediv (tasks_of s) t' o' = Raise e).
Proof.
  intros Hfind Hty H1 H2 H3 H4 Hc.
  pose proof (validate_executor_cases _ _ (llm_validation o) _ _ _ _ _ _ _ _ _
                H1 H2 H3 H4 Hc) as Hexec.
  assert (run_executor py_sum py_truediv (tasks_of s) task o
          = _execute_validate_results_task py_sum py_truediv (tasks_of s) task
              (llm_validation o)) as Hrun.
  { unfold run_executor. by rewrite Hty. }
  rewrite <-Hrun in Hexec. split_and!.
  - intros v0 Hv0. rewrite Hv0 in Hexec. eexists.
    split_and!; [done | by apply finish_task_completed | done].
  - intros Hnone. rewrite Hnone in Hexec. split.
    + intros v Hv. rewrite Hv in Hexec. simpl in Hexec.
      destruct (validate_records_findings _ _ _ _ Hv) as (vr & Hvr & Hrec).
      eexists _, vr.
      split_and!; [done | by apply finish_task_completed | done | done | done].
    + intros e He. rewrite He in Hexec. simpl in Hexec.
      split; [done | by apply finish_task_failed].
  - intros fd entry v. apply validate_raises.
  - clear Hexec Hrun. intros t' o' now' Hfind'.
    unfold finish_task, status_of, tasks_of in *.
    destruct (run_executor _ _ _ _ _) as [r|e]; simpl;
      rewrite find_task_update by done; rewrite Hfind';
      simpl; rewrite decide_True by done; simpl.
    + split; [done | by intros [? ?]].
    + split; [by eauto | done].
Qed.

End engine_validation.

(** C8 as stated fails: the total of the receipt was extracted as the
    number 12.5; the format check raises on it, so the validation task
    is Failed and so is the workflow. *)
Lemma malformed_amount_fails_validation_task :
  dict_get priced_fields "total_amount"
  = Some (VDict [("value", VFloat 12.5); ("confidence", VFloat 1)])
  ∧ observe <$> run_workflow example_sum example_truediv priced_db "wf_8" 4
                  "t0" "t0" priced_schedule
    = Some (FAILED, Some "expected string or bytes-like object, got 'float'",
            [ ("wf_8_extract_text", COMPLETED);
              ("wf_8_understand_document", COMPLETED);
              ("wf_8_extract_fields", COMPLETED);
              ("wf_8_extract_tables", COMPLETED);
              ("wf_8_validate_results", FAILED) ],
            Raised (TypeError "expected string or bytes-like object, got 'float'")).
Proof. split; by vm_compute. Qed.

(** ** Witnesses and counterexamples for C4, C6 and C8 *)

(** C4, on the two-stage workflow whose preprocessing fails. *)
Lemma failure_leaves_dependents_pending_and_fails_workflow_witness :
  ∃ s0 s,
    demo_db !! "wf_1" = Some two_stage_workflow
    ∧ NoDup (task_id <$> wf_tasks two_stage_workflow)
    ∧ fresh (wf_tasks two_stage_workflow)
    ∧ execute_workflow_start demo_db "wf_1" 4 "t0" "t0" = Ok s0
    ∧ run example_sum example_truediv s0 failing_schedule = Some s
    ∧ status_of s "wf_1_preprocess" = Some FAILED
    ∧ main s = Raised missing_path
    ∧ status_of s "wf_1_extract_text" = Some PENDING
    ∧ find_task (tasks_of s) "wf_1_extract_text" = Some extract_text_1
    ∧ wf_status (workflow s) = FAILED
    ∧ wf_error (workflow s) = Some (py_str missing_path)
    ∧ error_of_failed_task s missing_path.
Proof.
  exists_result (execute_workflow_start demo_db "wf_1" 4 "t0" "t0").
  exists_result (run_workflow example_sum example_truediv demo_db "wf_1" 4
                   "t0" "t0" failing_schedule).
  assert (H1 : demo_db !! "wf_1" = Some two_stage_workflow) by (by vm_compute).
  match goal with
  | |- _ ∧ _ ∧ _ ∧ ?start = Ok ?s0 ∧ ?run = Some ?s ∧ ?failed ∧ ?raised ∧ _ =>
      assert (H4 : start = Ok s0) by (by vm_compute);
      assert (H5 : run = Some s) by (by vm_compute);
      assert (H6 : failed) by (by vm_compute);
      assert (H7 : raised) by (by vm_compute);
      destruct (failure_leaves_dependents_pending_and_fails_workflow
                  example_sum example_truediv demo_db "wf_1" 4 "t0" "t0"
                  two_stage_workflow s0 failing_schedule s "wf_1_preprocess"
                  H1 two_stage_unique_ids two_stage_fresh H4 H5 H6)
        as (Hdep & _ & _ & Hraised & _)
  end.
  destruct (Hdep "wf_1_extract_text" (tc_once _ _ _ two_stage_dependency))
    as [Hpending Hrow].
  destruct (Hraised missing_path H7) as (Hstatus & Herror & Hfailed).
  split_and!; [exact H1 | exact two_stage_unique_ids | exact two_stage_fresh
              | exact H4 | exact H5 | exact H6 | exact H7 | exact Hpending
              | exact Hrow | exact Hstatus | exact Herror | exact Hfailed].
Defined.

Lemma resumed_closed : deps_closed (wf_tasks resumed_workflow).
Proof.
  intros t d Ht Hd. simpl in Ht.
  repeat (apply elem_of_cons in Ht as [->|Ht]);
    try (by apply elem_of_nil in Ht); simpl in Hd.
  - by apply elem_of_nil in Hd.
  - apply list_elem_of_singleton in Hd as ->. by left.
Defined.

Lemma resumed_acyclic : ¬ has_cycle (wf_tasks resumed_workflow).
Proof.
  apply (execution_order_ok_acyclic _ [postprocess_3; validate_done]);
    [exact resumed_closed | by vm_compute].
Defined.

(** C6 as stated fails: both tasks are Completed, and [execute_workflow]
    raises the cycle error and leaves the workflow Failed. *)
Lemma completed_tasks_in_a_cycle_fail_workflow :
  Forall (λ t, status t = COMPLETED) (wf_tasks knotted_workflow)
  ∧ observe <$> run_workflow example_sum example_truediv knotted_db "wf_10" 4
                  "t0" "t1" []
    = Some (FAILED, Some "Circular dependency detected in workflow tasks",
            [ ("wf_10_validate_results", COMPLETED);
              ("wf_10_postprocess", COMPLETED) ],
            Raised (ValueError circular_msg)).
Proof. split; [repeat constructor | by vm_compute]. Qed.

(** C6, on the workflow executed again: once postprocessing has
    completed every task is Completed; the rest of the schedule makes
    [execute_workflow] return the result of postprocessing, and the
    workflow is Completed. *)
Lemma completed_workflow_returns_postprocess_result_witness :
  ∃ s0 s s',
    resumed_db !! "wf_3" = Some resumed_workflow
    ∧ NoDup (task_id <$> wf_tasks resumed_workflow)
    ∧ deps_closed (wf_tasks resumed_workflow)
    ∧ ¬ has_cycle (wf_tasks resumed_workflow)
    ∧ postprocess_results (wf_tasks resumed_workflow)
    ∧ 0 < 4
    ∧ execute_workflow_start resumed_db "wf_3" 4 "t0" "t0" = Ok s0
    ∧ run example_sum example_truediv s0 (take 3 resumed_schedule) = Some s
    ∧ Forall (λ t, status t = COMPLETED) (tasks_of s)
    ∧ main s = Gathering
    ∧ run example_sum example_truediv s (drop 3 resumed_schedule) = Some s'
    ∧ main s' = Returned formatted_payload
    ∧ first_postprocess (tasks_of s')
      = Some (mark_completed formatted_payload "t2"
                (mark_running "t1" postprocess_3))
    ∧ tasks_of s' = tasks_of s
    ∧ wf_status (workflow s') = COMPLETED
    ∧ returned_result s' formatted_payload.
Proof.
  exists_result (execute_workflow_start resumed_db "wf_3" 4 "t0" "t0").
  exists_result (run_workflow example_sum example_truediv resumed_db "wf_3" 4
                   "t0" "t0" (take 3 resumed_schedule)).
  exists_result (run_workflow example_sum example_truediv resumed_db "wf_3" 4
                   "t0" "t0" resumed_schedule).
  assert (H1 : resumed_db !! "wf_3" = Some resumed_workflow) by (by vm_compute).
  assert (H6 : 0 < 4) by lia.
  match goal with
  | |- _ ∧ _ ∧ _ ∧ _ ∧ _ ∧ _ ∧ ?start ∧ ?ran ∧ ?all ∧ ?waiting ∧ ?rest
         ∧ ?returned ∧ ?post ∧ _ =>
      assert (H7 : start) by (by vm_compute);
      assert (H8 : ran) by (by vm_compute);
      assert (H9 : all) by (repeat constructor);
      assert (H10 : waiting) by (by vm_compute);
      assert (H11 : rest) by (by vm_compute);
      assert (H12 : returned) by (by vm_compute);
      assert (H13 : post) by (by vm_compute)
  end.
  destruct (completed_workflow_returns_postprocess_result
              example_sum example_truediv _ _ _ _ _ _ _ _ _
              H1 resumed_unique_ids resumed_closed resumed_acyclic
              resumed_postprocess_results H6 H7 H8 H9)
    as [Hnext _].
  destruct (Hnext _ _ H11) as (Hsame & _ & Hreturned & _).
  destruct (Hreturned _ H12) as [Hstatus Hresult].
  split_and!; [exact H1 | exact resumed_unique_ids | exact resumed_closed
              | exact resumed_acyclic | exact resumed_postprocess_results
              | exact H6 | exact H7 | exact H8 | exact H9 | exact H10
              | exact H11 | exact H12 | exact H13 | exact Hsame
              | exact Hstatus | exact Hresult].
Defined.

(** C8, on a receipt whose total is missing and whose date is malformed.
    When the LLM validation answers, its answer is the validation of the
    payload, here one that approves the extraction; when it is not
    available the basic validation reports the missing total and the
    malformed date.  Either way the task is Completed, and the workflow
    finishes Completed. *)
Lemma validation_findings_do_not_fail_task_witness :
  ∃ s c,
    let task := mark_running "t1" validate_4 in
    let v := validation_value receipt_validation in
    run_workflow example_sum example_truediv validating_db "wf_4" 4 "t0" "t0"
      (take 2 validating_schedule) = Some s
    ∧ find_task (tasks_of s) (task_id task) = Some task
    ∧ task_type task = VALIDATE_RESULTS
    ∧ dependency_result (tasks_of s) task EXTRACT_FIELDS
        "Field extraction task result not found" = Ok receipt_fields
    ∧ dependency_result (tasks_of s) task EXTRACT_TABLES
        "Table extraction task result not found" = Ok receipt_tables
    ∧ dependency_result (tasks_of s) task UNDERSTAND_DOCUMENT
        "Document understanding task result not found"
      = Ok [("document_type", VStr "receipt")]
    ∧ dependency_result (tasks_of s) task EXTRACT_TEXT
        "Text extraction task result not found"
      = Ok [("text", VStr "Corner Shop")]
    ∧ _calculate_confidence example_sum example_truediv
        receipt_fields receipt_tables = Ok c
    ∧ llm_answer (llm_validation llm_approves) = Some llm_approval
    ∧ (∃ payload,
         find_task
           (tasks_of (finish_task example_sum example_truediv s task
                        llm_approves "t2"))
           "wf_4_validate_results"
         = Some (mark_completed payload "t2" task)
         ∧ dict_get payload "validation" = Some llm_approval)
    ∧ llm_answer (llm_validation llm_down) = None
    ∧ _validate_extraction_results receipt_fields receipt_tables
        [("document_type", VStr "receipt")] = Ok v
    ∧ (∃ payload,
         find_task
           (tasks_of (finish_task example_sum example_truediv s task llm_down "t2"))
           "wf_4_validate_results"
         = Some (mark_completed payload "t2" task)
         ∧ dict_get payload "validation" = Some v)
    ∧ observe <$> run_workflow example_sum example_truediv validating_db
                    "wf_4" 4 "t0" "t0" validating_schedule
      = Some (COMPLETED, None,
              [ ("wf_4_extract_text", COMPLETED);
                ("wf_4_understand_document", COMPLETED);
                ("wf_4_extract_fields", COMPLETED);
                ("wf_4_extract_tables", COMPLETED);
                ("wf_4_validate_results", COMPLETED) ],
              Returned [ ("status", VStr "completed"); ("error", VNone);
                         ("completed_at", VStr "t4") ]).
Proof.
  exists_result (run_workflow example_sum example_truediv validating_db "wf_4" 4
                   "t0" "t0" (take 2 validating_schedule)).
  exists_result (_calculate_confidence example_sum example_truediv
                   receipt_fields receipt_tables).
  cbv zeta.
  match goal with
  | |- ?ran ∧ ?found ∧ ?ty ∧ ?d1 ∧ ?d2 ∧ ?d3 ∧ ?d4 ∧ ?conf ∧ ?answer ∧ _
         ∧ ?silent ∧ ?val ∧ _ ∧ ?obs =>
      assert (H0 : ran) by (by vm_compute);
      assert (H1 : found) by (by vm_compute);
      assert (H2 : ty) by done;
      assert (H3 : d1) by (by vm_compute);
      assert (H4 : d2) by (by vm_compute);
      assert (H5 : d3) by (by vm_compute);
      assert (H6 : d4) by (by vm_compute);
      assert (H7 : conf) by (by vm_compute);
      assert (H8 : answer) by (by vm_compute);
      assert (H9 : silent) by (by vm_compute);
      assert (H10 : val) by (by vm_compute);
      assert (H11 : obs) by (by vm_compute)
  end.
  destruct (validation_findings_do_not_fail_task example_sum example_truediv
              _ _ llm_approves "t2" _ _ _ _ _ _ _ _ _
              H1 H2 H3 H4 H5 H6 H7)
    as (Hllm & _).
  destruct (Hllm _ H8) as (payload1 & _ & Hdone1 & Hval1).
  destruct (validation_findings_do_not_fail_task example_sum example_truediv
              _ _ llm_down "t2" _ _ _ _ _ _ _ _ _
              H1 H2 H3 H4 H5 H6 H7)
    as (_ & Hbasic & _).
  destruct (Hbasic H9) as [Hok _].
  destruct (Hok _ H10) as (payload2 & vr & _ & Hdone2 & Hval2 & _).
  split_and!; [exact H0 | exact H1 | exact H2 | exact H3 | exact H4 | exact H5
              | exact H6 | exact H7 | exact H8 | | exact H9 | exact H10 |
              | exact H11].
  - exists payload1. split; [exact Hdone1 | exact Hval1].
  - exists payload2. split; [exact Hdone2 | exact Hval2].
Defined.

(** * Further properties of the stages and of the service *)

(** ** Patterns and the basic validation *)


Lemma matches_nothing_nullable r : matches_nothing r = true → nullable r = false.
Proof.
  induction r; simpl; try done.
  - intros [H|H]%orb_true_iff; [rewrite IHr1 | rewrite IHr2]; try done.
    by rewrite andb_false_r.
  - intros [H1 H2]%andb_true_iff. by rewrite IHr1, IHr2.
Qed.

Lemma matches_nothing_deriv r c :
  matches_nothing r = true → matches_nothing (deriv c r) = true.
Proof.
  induction r; simpl; try done.
  - intros [H|H]%orb_true_iff.
    + rewrite (matches_nothing_nullable _ H). simpl. by rewrite IHr1.
    + destruct (nullable r1); simpl; rewrite ?H, ?IHr2, ?orb_true_r; done.
  - intros [H1 H2]%andb_true_iff. by rewrite IHr1, IHr2.
Qed.

Lemma matches_nothing_fullmatch r s :
  matches_nothing r = true → fullmatch r s = false.
Proof.
  revert r. induction s as [|c s IH]; intros r Hr; simpl.
  - by apply matches_nothing_nullable.
  - by apply IH, matches_nothing_deriv.
Qed.

Lemma deriv_rejected r c :
  accepts_char r c = false → matches_nothing (deriv c r) = true.
Proof.
  induction r; simpl; try done.
  - by intros ->.
  - intros [H1 H2]%orb_false_iff.
    destruct (nullable r1); simpl; rewrite IHr1, ?IHr2; done.
  - intros [H1 H2]%orb_false_iff. by rewrite IHr1, IHr2.
  - intros H. by rewrite IHr.
Qed.

Lemma accepts_char_deriv r c c' :
  accepts_char (deriv c' r) c = true → accepts_char r c = true.
Proof.
  induction r; simpl; try done.
  - by destruct (p c').
  - destruct (nullable r1); simpl; rewrite !orb_true_iff; naive_solver.
  - rewrite !orb_true_iff. naive_solver.
  - rewrite !orb_true_iff. naive_solver.
Qed.

(** A string that matches is made of characters the pattern accepts. *)
Lemma fullmatch_chars r s c :
  fullmatch r s = true → c ∈ s → accepts_char r c = true.
Proof.
  revert r. induction s as [|c' s IH]; intros r; simpl.
  - by intros _ ?%elem_of_nil.
  - intros Hm [->|Hc]%elem_of_cons.
    + destruct (accepts_char r c') eqn:Ha; [done |].
      by rewrite (matches_nothing_fullmatch _ _ (deriv_rejected _ _ Ha)) in Hm.
    + eapply accepts_char_deriv, IH; done.
Qed.

(** An ASCII character of a text is one of its code points: its byte
    neither continues nor starts a multi-byte sequence. *)
Lemma has_char_code_point c s st :
  (N_of_ascii c < 0x80)%N →
  has_char c s = true →
  N_of_ascii c ∈ utf8_decode st s.
Proof.
  intros Hc. revert st. induction s as [|c' s IH]; intros st; simpl; [done |].
  intros [Heq|Hin]%orb_true_iff.
  - apply Ascii.eqb_eq in Heq as ->.
    assert (is_cont (N_of_ascii c) = false) as Hcont.
    { unfold is_cont. apply andb_false_iff. left. apply N.leb_gt. lia. }
    assert (utf8_start (N_of_ascii c) = ([N_of_ascii c], None)) as Hstart.
    { unfold utf8_start. by rewrite (proj2 (N.ltb_lt _ _) Hc). }
    destruct st as [q|]; rewrite ?Hcont, Hstart; simpl; set_solver.
  - assert (∀ st', N_of_ascii c ∈ utf8_decode st' s) as IH'
      by (intros st'; by apply IH).
    clear IH. rename IH' into IH.
    destruct st as [q|].
    + destruct (is_cont _).
      * destruct (more q) as [|[|m]]; [| | by apply IH];
          apply elem_of_app; right; apply IH.
      * apply elem_of_app. right. apply elem_of_app. right. apply IH.
    + apply elem_of_app. right. apply IH.
Qed.

(** X9.  [_is_valid_currency] accepts no amount written with a
    thousands separator or a sign: every string that contains a comma or a
    minus sign is rejected, whatever else it holds. *)
Theorem currency_rejects_separators_and_signs (s : string) :
  has_char "," s = true ∨ has_char "-" s = true →
  _is_valid_currency (VStr s) = Ok false.
Proof.
  intros Hc. unfold _is_valid_currency. f_equal.
  apply not_true_is_false. intros Hex.
  apply existsb_exists in Hex as (r & Hr & Hm).
  assert (accepts_char r 44 = false ∧ accepts_char r 45 = false) as [H1 H2].
  { unfold currency_patterns in Hr.
    repeat (destruct Hr as [<-|Hr]; [by vm_compute |]). done. }
  destruct Hc as [Hc|Hc];
    apply (has_char_code_point _ _ None) in Hc; try (by vm_compute);
    pose proof (fullmatch_chars _ _ _ Hm Hc) as Ha;
    vm_compute N_of_ascii in Ha; congruence.
Qed.

(** *** What [fullmatch] computes *)

Lemma fullmatch_none s : fullmatch ReNone s = false.
Proof. by apply matches_nothing_fullmatch. Qed.

Lemma fullmatch_eps s : fullmatch ReEps s = true ↔ s = [].
Proof.
  destruct s as [|c s]; simpl; [done |]. rewrite fullmatch_none. done.
Qed.

Lemma fullmatch_sym p s :
  fullmatch (ReSym p) s = true ↔ ∃ c, s = [c] ∧ p c = true.
Proof.
  destruct s as [|c s]; simpl.
  - split; [done | by intros (c & ? & _)].
  - destruct (p c) eqn:Hp.
    + rewrite fullmatch_eps. split; [intros ->; by exists c |].
      by intros (c' & [= -> ->] & _).
    + rewrite fullmatch_none. split; [done |].
      intros (c' & [= -> ->] & ?). congruence.
Qed.

Lemma fullmatch_alt r1 r2 s :
  fullmatch (ReAlt r1 r2) s = fullmatch r1 s || fullmatch r2 s.
Proof. revert r1 r2. induction s as [|c s IH]; intros r1 r2; simpl; [done | apply IH]. Qed.

Lemma fullmatch_seq r1 r2 s :
  fullmatch (ReSeq r1 r2) s = true ↔
  ∃ s1 s2, s = s1 ++ s2 ∧ fullmatch r1 s1 = true ∧ fullmatch r2 s2 = true.
Proof.
  revert r1. induction s as [|c s IH]; intros r1; simpl.
  - rewrite andb_true_iff. split.
    + intros [H1 H2]. by exists [], [].
    + intros (s1 & s2 & Heq & H1 & H2).
      symmetry in Heq. apply app_eq_nil in Heq as [-> ->]. done.
  - assert (fullmatch (ReSeq (deriv c r1) r2) s = true ↔
            ∃ s1 s2, c :: s = s1 ++ s2 ∧ s1 ≠ []
                     ∧ fullmatch r1 s1 = true ∧ fullmatch r2 s2 = true) as Hfirst.
    { rewrite IH. split.
      - intros (s1 & s2 & -> & H1 & H2). by exists (c :: s1), s2.
      - intros (s1 & s2 & Heq & Hne & H1 & H2). destruct s1 as [|c1 s1]; [done |].
        injection Heq as <- ->. by exists s1, s2. }
    destruct (nullable r1) eqn:Hn.
    + rewrite fullmatch_alt, orb_true_iff, Hfirst. split.
      * intros [(s1 & s2 & ? & _ & ? & ?)|H2]; [by exists s1, s2 |].
        by exists [], (c :: s).
      * intros (s1 & s2 & Heq & H1 & H2). destruct s1 as [|c1 s1].
        -- right. simpl in Heq. by rewrite <-Heq in H2.
        -- left. by exists (c1 :: s1), s2.
    + rewrite Hfirst. split.
      * intros (s1 & s2 & ? & _ & ? & ?). by exists s1, s2.
      * intros (s1 & s2 & Heq & H1 & H2). exists s1, s2.
        split_and!; try done. intros ->. simpl in H1. congruence.
Qed.

Lemma fixed_length_fullmatch r n s :
  fixed_length r = Some n → fullmatch r s = true → length s = n.
Proof.
  revert n s. induction r; intros n s; simpl; try done.
  - intros [= <-]. by intros ->%fullmatch_eps.
  - intros [= <-]. by intros (c & -> & _)%fullmatch_sym.
  - destruct (fixed_length r1) as [n1|]; [| done].
    destruct (fixed_length r2) as [n2|]; [| done]. simpl.
    intros [= <-] (s1 & s2 & -> & H1 & H2)%fullmatch_seq.
    rewrite List.length_app. by rewrite (IHr1 n1 s1), (IHr2 n2 s2).
Qed.

(** X10.  [_is_valid_date] checks the shape of the text and nothing else:
    it accepts only texts of exactly ten characters, and it accepts every
    text of four digits, a hyphen, two digits, a hyphen and two digits,
    digits of any script, whether or not they name a day of the
    calendar. *)
Theorem date_check_is_by_shape_only :
  (∀ s, _is_valid_date (VStr s) = Ok true → length (code_points s) = 10)
  ∧ (∀ s y1 y2 y3 y4 m1 m2 d1 d2,
       code_points s = [y1; y2; y3; y4; 45; m1; m2; 45; d1; d2]%N →
       forallb is_digit [y1; y2; y3; y4; m1; m2; d1; d2] = true →
       _is_valid_date (VStr s) = Ok true).
Proof.
  split.
  - intros s Hok.
    assert (existsb (λ r, fullmatch r (code_points s)) date_patterns = true)
      as Hex by (unfold _is_valid_date in Hok; congruence).
    apply existsb_exists in Hex as (r & Hr & Hm).
    apply (fixed_length_fullmatch r); [| done].
    unfold date_patterns in Hr.
    repeat (destruct Hr as [<-|Hr]; [by vm_compute |]). done.
  - intros s y1 y2 y3 y4 m1 m2 d1 d2 Hs Hd.
    cbn [forallb] in Hd. repeat (apply andb_true_iff in Hd as [? Hd]).
    unfold _is_valid_date, date_patterns. rewrite Hs. f_equal.
    cbn [existsb]. apply orb_true_iff. left.
    change (ReLit "-") with (ReSeq (ReSym (N.eqb 45)) ReEps).
    cbn -[is_digit N.eqb].
    repeat (first [ rewrite N.eqb_refl
                  | match goal with
                    | H : is_digit _ = true |- _ => rewrite H; clear H
                    end ];
            cbn -[is_digit N.eqb]).
    done.
Qed.

Lemma py_fold_inv {A S} (P : S → Prop) (body : S → A → py S) l s s' :
  (∀ s a s', a ∈ l → P s → body s a = Ok s' → P s') →
  P s → py_fold body s l = Ok s' → P s'.
Proof.
  revert s. induction l as [|a l IH]; intros s Hbody Hs; simpl.
  - by intros [= <-].
  - intros (s1 & H1 & H)%bind_Ok. apply (IH s1); [| | done].
    + intros s2 b s3 Hb. apply Hbody. by right.
    + apply (Hbody s a); [by left | done | done].
Qed.

Lemma basic_validation_errors
    fields_result tables_result understanding_result v :
  _validate_extraction_results fields_result tables_result understanding_result
  = Ok v →
  ∃ vr, v = validation_value vr
        ∧ (valid vr = true ↔ errors vr = [])
        ∧ ∀ m, m ∈ errors vr →
               genuine_error fields_result tables_result understanding_result m.
Proof.
  unfold _validate_extraction_results. intros H.
  apply bind_Ok in H as (v1 & H1 & H).
  apply bind_Ok in H as (tds & Htds & H).
  apply bind_Ok in H as (v2 & H2 & H).
  apply bind_Ok in H as (v3 & H3 & H).
  injection H as <-. exists v3. split; [done |].
  set (P := λ acc : Validation,
         (valid acc = true ↔ errors acc = [])
         ∧ ∀ m, m ∈ errors acc →
                genuine_error fields_result tables_result understanding_result m).
  assert (Hadd : ∀ acc m,
            P acc →
            genuine_error fields_result tables_result understanding_result m →
            P (add_error acc m)).
  { intros acc m [Hv He] Hm. split; simpl.
    - split; [done |]. by intros [_ ?]%app_eq_nil.
    - intros m' [?|Hm']%elem_of_app; [auto |].
      by apply list_elem_of_singleton in Hm' as ->. }
  assert (P v1) as P1.
  { apply (py_fold_inv P _ _ _ _) in H1; [done | | by split; [| intros m ?%elem_of_nil]].
    intros acc fd acc' Hin Hacc. unfold check_required_field.
    destruct (fd_required fd) eqn:Hreq; [| by intros [= <-]].
    intros (missing & Hm & [= <-])%bind_Ok.
    destruct missing; simpl; [| done]. apply Hadd; [done |]. left. by exists fd. }
  assert (P v2) as P2.
  { apply (py_fold_inv P _ _ _ _) in H2; [done | | done].
    intros acc td acc' Hin Hacc. unfold check_required_table.
    destruct (td_required td) eqn:Hreq; [| by intros [= <-]].
    destruct (td_name td) as [| | | |name| |] eqn:Hname; try done.
    intros (missing & Hm & [= <-])%bind_Ok.
    destruct missing; simpl; [| done]. apply Hadd; [done |]. right.
    by exists tds, td, name. }
  apply (py_fold_inv P _ _ _ _) in H3; [done | | done].
  intros acc fd acc' Hin Hacc. unfold check_field_type.
  destruct (dict_get fields_result (fd_name fd)) as [entry|]; [| by intros [= <-]].
  intros (x & Hx & Hrest)%bind_Ok.
  destruct (truthy x); [| by injection Hrest as <-].
  repeat (case_match;
          [apply bind_Ok in Hrest as (ok & _ & [= <-]); by destruct ok |]).
  by injection Hrest as <-.
Qed.

(** X11.  The basic validation is invalid exactly when it lists an error,
    and it lists an error only for a required field or a required table
    that is missing or empty: a value of the wrong format adds a warning
    and leaves [valid] as it was. *)
Theorem basic_validation_fails_only_on_missing_data
    fields_result tables_result understanding_result v :
  _validate_extraction_results fields_result tables_result understanding_result
  = Ok v →
  ∃ vr, v = validation_value vr
        ∧ (valid vr = true ↔ errors vr = [])
        ∧ ∀ m, m ∈ errors vr →
               genuine_error fields_result tables_result understanding_result m.
Proof. apply basic_validation_errors. Qed.

Lemma py_map_Forall {A B} (P : B → Prop) (f : A → py B) l l' :
  (∀ a b, f a = Ok b → P b) → py_map f l = Ok l' → Forall P l'.
Proof.
  intros Hf. revert l'. induction l as [|a l IH]; intros l'; simpl.
  - by intros [= <-].
  - intros (b & Hb & H)%bind_Ok. apply bind_Ok in H as (bs & Hbs & [= <-]).
    constructor; [by eapply Hf | by apply IH].
Qed.

(** X12.  For a document whose type is not invoice, receipt or contract
    nothing is required: the basic validation, when it returns, is valid
    and lists no error, whatever was extracted. *)
Theorem other_document_types_are_always_valid
    fields_result tables_result understanding_result v :
  let document_type :=
    dict_get_or understanding_result "document_type" (VStr "unknown") in
  is_str document_type "invoice" = false →
  is_str document_type "receipt" = false →
  is_str document_type "contract" = false →
  _validate_extraction_results fields_result tables_result understanding_result
  = Ok v →
  ∃ vr, v = validation_value vr ∧ valid vr = true ∧ errors vr = [].
Proof.
  intros ty Hi Hr Hc Hv.
  destruct (basic_validation_errors _ _ _ _ Hv) as (vr & -> & Hvalid & Herr).
  exists vr. split; [done |].
  assert (errors vr = []) as He; [| by rewrite Hvalid].
  destruct (errors vr) as [|m ms]; [done |]. exfalso.
  destruct (Herr m) as [(fd & Hfd & Hreq & _)|(tds & td & name & Htds & Htd & Hreq & _)];
    [by left | |].
  - unfold _get_fields_to_extract in Hfd. fold ty in Hfd. rewrite Hi, Hr, Hc in Hfd.
    repeat (apply elem_of_cons in Hfd as [->|Hfd]; [done |]).
    by apply elem_of_nil in Hfd.
  - unfold _get_tables_to_extract in Htds. fold ty in Htds. rewrite Hi, Hr in Htds.
    destruct (truthy _); [| injection Htds as <-; by apply elem_of_nil in Htd].
    apply bind_Ok in Htds as (items & _ & Hmap).
    apply (py_map_Forall (λ td, td_required td = false)) in Hmap.
    + rewrite Forall_forall in Hmap. specialize (Hmap td Htd). congruence.
    + intros [i table] td'. unfold inferred_table.
      intros (n & _ & H)%bind_Ok. apply bind_Ok in H as (cs & _ & H).
      apply bind_Ok in H as (cols & _ & [= <-]). done.
Qed.

(** X13.  Formatting keeps what the validation found: when the payload
    of the validation stage carries a basic validation,
    [_format_extraction_results] reports the same [valid] flag, errors and
    warnings, the same document type and confidence, and its result has
    exactly the five keys of the output format. *)
Theorem formatting_keeps_the_validation
    (validation_result : dict value) (vr : Validation) out :
  dict_get validation_result "validation" = Some (validation_value vr) →
  _format_extraction_results validation_result = Ok out →
  dict_keys out = ["document_type"; "fields"; "tables"; "validation"; "confidence"]
  ∧ dict_get out "validation" = Some (validation_value vr)
  ∧ dict_get out "document_type"
    = Some (dict_get_or validation_result "document_type" (VStr "unknown"))
  ∧ dict_get out "confidence"
    = Some (dict_get_or validation_result "confidence" (VFloat 0)).
Proof.
  intros Hval H.
  assert (dict_get_or validation_result "validation" (VDict [])
          = validation_value vr) as Hv
    by (unfold dict_get_or; by rewrite Hval).
  unfold _format_extraction_results in H. rewrite Hv in H.
  apply bind_Ok in H as (fi & _ & H). apply bind_Ok in H as (ff & _ & H).
  apply bind_Ok in H as (ti & _ & H). apply bind_Ok in H as (ft & _ & H).
  simpl in H. by injection H as <-.
Qed.

Lemma count_status_total (tasks : list Task) :
  count_status PENDING tasks + count_status RUNNING tasks
  + count_status COMPLETED tasks + count_status FAILED tasks = length tasks.
Proof.
  unfold count_status. induction tasks as [|t tasks IH]; [done |].
  rewrite !filter_cons. destruct (status t); simpl; repeat case_decide; simpl;
    try done; lia.
Qed.

(** X14.  In the report of [get_workflow_status] for a stored workflow the
    pending, running, completed and failed counts add up to the total
    number of tasks, and for a workflow without tasks the progress is the
    integer 0: the division by the total is not attempted. *)
Theorem status_report_counts_add_up (db : gmap string Workflow) workflow_id w :
  db !! workflow_id = Some w →
  ∃ p r c f,
    dict_get (get_workflow_status db workflow_id) "task_counts"
    = Some (VDict [ ("total", VInt (Z.of_nat (length (wf_tasks w))));
                    ("pending", VInt (Z.of_nat p));
                    ("running", VInt (Z.of_nat r));
                    ("completed", VInt (Z.of_nat c));
                    ("failed", VInt (Z.of_nat f)) ])
    ∧ p + r + c + f = length (wf_tasks w)
    ∧ (wf_tasks w = [] →
       dict_get (get_workflow_status db workflow_id) "progress" = Some (VInt 0)).
Proof.
  intros Hw. unfold get_workflow_status. rewrite Hw.
  eexists _, _, _, _. split_and!; [done | apply count_status_total |].
  by intros ->.
Qed.

(** ** The executors of the processing stages *)


Lemma document_path_missing task :
  truthy (dict_get_or (params task) "document_path" VNone) = false →
  document_path_of task = Raise missing_document_path.
Proof. unfold document_path_of. by intros ->. Qed.

(** X15.  Each of the six processing stages needs [document_path] in the
    task's parameters: when it is absent, [None] or empty, the executor
    raises [ValueError("Document path not specified in task parameters")]
    whatever the state of the other tasks and whatever the external
    processors would do. *)
Theorem stage_executors_require_document_path (tasks : list Task) (task : Task) :
  truthy (dict_get_or (params task) "document_path" VNone) = false →
  (∀ process, _execute_preprocess_task process task = Raise missing_document_path)
  ∧ (∀ extension pdf ocr,
       _execute_extract_text_task extension pdf ocr tasks task
       = Raise missing_document_path)
  ∧ (∀ process,
       _execute_analyze_layout_task process tasks task
       = Raise missing_document_path)
  ∧ (∀ understand,
       _execute_understand_document_task understand tasks task
       = Raise missing_document_path)
  ∧ (∀ extract,
       _execute_extract_fields_task extract tasks task
       = Raise missing_document_path)
  ∧ (∀ template_tables extract,
       _execute_extract_tables_task template_tables extract tasks task
       = Raise missing_document_path).
Proof.
  intros Hpath%document_path_missing.
  unfold _execute_preprocess_task, _execute_extract_text_task,
    _execute_analyze_layout_task, _execute_understand_document_task,
    _execute_extract_fields_task, _execute_extract_tables_task.
  rewrite Hpath. by split_and!.
Qed.

Lemma require_text_Ok msg r r' :
  require_text msg r = Ok r' → r' = r ∧ "text" ∈ dict_keys r.
Proof.
  unfold require_text. destruct r as [|kv r]; [done |].
  case_decide; [by intros [= <-] | done].
Qed.

(** X16.  A result that the preprocessing or the text extraction stage
    returns always has a text: both executors hand on what their
    processor returned only if it has the key ["text"], and raise
    [ValueError] otherwise.  For a file that is neither a PDF nor an image
    the text extraction returns the text of the preprocessing result, as
    the text and as its single page. *)
Theorem text_stages_return_a_text
    process extension pdf ocr (tasks : list Task) (task : Task) :
  (∀ r, _execute_preprocess_task process task = Ok r →
        "text" ∈ dict_keys r
        ∧ ∃ document_path, document_path_of task = Ok document_path
                           ∧ process document_path = Ok r)
  ∧ (∀ r, _execute_extract_text_task extension pdf ocr tasks task = Ok r →
          "text" ∈ dict_keys r)
  ∧ (∀ document_path preprocess_result ext text,
       document_path_of task = Ok document_path →
       dependency_result tasks task PREPROCESS "Preprocess task result not found"
       = Ok preprocess_result →
       extension document_path = Ok ext →
       ext ≠ ".pdf" → ext ∉ image_extensions →
       dict_get preprocess_result "text" = Some text →
       _execute_extract_text_task extension pdf ocr tasks task
       = Ok [ ("text", text);
              ("pages", VList [VDict [("text", text); ("page", VInt 1)]]) ]).
Proof.
  split_and!.
  - intros r H. unfold _execute_preprocess_task in H.
    apply bind_Ok in H as (p & Hp & H). apply bind_Ok in H as (r0 & Hr0 & H).
    apply require_text_Ok in H as [-> Htext]. split; [done |]. by exists p.
  - intros r H. unfold _execute_extract_text_task in H.
    apply bind_Ok in H as (p & Hp & H). apply bind_Ok in H as (pre & Hpre & H).
    apply bind_Ok in H as (ext & Hext & H). apply bind_Ok in H as (r0 & Hr0 & H).
    by apply require_text_Ok in H as [-> Htext].
  - intros p pre ext text Hp Hpre Hext Hpdf Himg Htext.
    unfold _execute_extract_text_task. rewrite Hp, Hpre. simpl. rewrite Hext. simpl.
    rewrite (proj2 (String.eqb_neq _ _) Hpdf), bool_decide_eq_false_2 by done.
    by rewrite Htext.
Qed.

(** X17.  A document without tables cannot pass validation: when there is
    no table to extract the table extraction stage returns the empty
    result, its task is Completed with it, and the validation stage, which
    reads an empty result as a missing one, raises
    [ValueError("Table extraction task result not found")]. *)
Theorem no_tables_to_extract_fails_validation
    py_sum py_truediv template_tables extract (tasks : list Task)
    (tables_task validate_task : Task)
    document_path understanding_result layout_result text_result
    now fields_result llm :
  document_path_of tables_task = Ok document_path →
  extraction_inputs tasks tables_task
  = Ok (understanding_result, layout_result, text_result) →
  has_tables_to_extract template_tables understanding_result
    (dict_get_or (params tables_task) "template_id" VNone) = Ok false →
  let tasks' := update_task (task_id tables_task) (mark_completed [] now) tasks in
  dependency_result tasks' validate_task EXTRACT_FIELDS
    "Field extraction task result not found" = Ok fields_result →
  _get_dependency_task tasks' validate_task EXTRACT_TABLES
  = Ok (Some (mark_completed [] now tables_task)) →
  _execute_extract_tables_task template_tables extract tasks tables_task = Ok []
  ∧ _execute_validate_results_task py_sum py_truediv tasks' validate_task llm
    = Raise (ValueError "Table extraction task result not found").
Proof.
  intros Hpath Hin Hnone tasks' Hfields Htables. split.
  - unfold _execute_extract_tables_task. rewrite Hpath, Hin. simpl.
    by rewrite Hnone.
  - unfold _execute_validate_results_task. rewrite Hfields. simpl.
    unfold dependency_result. by rewrite Htables.
Qed.

(** ** Workflows built by the service *)


Ltac suffix_neq :=
  match goal with
  | H : ?w +:+ _ = ?w +:+ _ |- _ => apply (inj (String.app w)) in H; discriminate H
  end.

Lemma created_tasks wid doc path tpl :
  wf_tasks (created_workflow wid doc path tpl) =
  let p := [("document_path", VStr path)] in
  let pt := [("document_path", VStr path); ("template_id", opt_str tpl)] in
  let new i ty ps ds := mkTask i ty PENDING ps None None None None None ds in
  [ new (wid +:+ "_preprocess") PREPROCESS p [];
    new (wid +:+ "_extract_text") EXTRACT_TEXT p [wid +:+ "_preprocess"];
    new (wid +:+ "_analyze_layout") ANALYZE_LAYOUT p [wid +:+ "_extract_text"];
    new (wid +:+ "_understand_document") UNDERSTAND_DOCUMENT pt
      [wid +:+ "_analyze_layout"];
    new (wid +:+ "_extract_fields") EXTRACT_FIELDS pt
      [wid +:+ "_understand_document"];
    new (wid +:+ "_extract_tables") EXTRACT_TABLES pt
      [wid +:+ "_understand_document"];
    new (wid +:+ "_validate_results") VALIDATE_RESULTS []
      [wid +:+ "_extract_fields"; wid +:+ "_extract_tables"];
    new (wid +:+ "_postprocess") POSTPROCESS [] [wid +:+ "_validate_results"] ].
Proof.
  unfold created_workflow, _create_tasks, _create_task_dependencies,
    with_dependencies, created_task. cbn -[String.append filter].
  repeat (rewrite filter_cons; cbn -[String.append filter];
          case_decide; [| try done]; try suffix_neq).
  done.
Qed.

Lemma created_unique_ids wid doc path tpl :
  NoDup (task_id <$> wf_tasks (created_workflow wid doc path tpl)).
Proof.
  change (NoDup (String.app wid <$>
                   ["_preprocess"; "_extract_text"; "_analyze_layout";
                    "_understand_document"; "_extract_fields";
                    "_extract_tables"; "_validate_results"; "_postprocess"])).
  apply (NoDup_fmap_2 _). compute_done.
Qed.

Lemma created_fresh wid doc path tpl :
  fresh (wf_tasks (created_workflow wid doc path tpl)).
Proof. repeat constructor. Qed.

Lemma created_closed wid doc path tpl :
  deps_closed (wf_tasks (created_workflow wid doc path tpl)).
Proof.
  intros t d Ht Hd. rewrite created_tasks in *. cbv zeta in *.
  repeat (apply elem_of_cons in Ht as [->|Ht]);
    try (by apply elem_of_nil in Ht); cbn -[String.append] in Hd |- *;
    repeat (apply elem_of_cons in Hd as [->|Hd]);
    try (by apply elem_of_nil in Hd); set_solver.
Qed.

Lemma acyclic_by_rank (tasks : list Task) (rank : string → nat) :
  (∀ a b, depends_on tasks a b → rank b < rank a) → ¬ has_cycle tasks.
Proof.
  intros Hrank [a Hcyc].
  assert (∀ x y, tc (depends_on tasks) x y → rank y < rank x) as Htc.
  { induction 1 as [x y Hxy|x y z Hxy _ IH]; [by apply Hrank |].
    apply Hrank in Hxy. lia. }
  apply Htc in Hcyc. lia.
Qed.

Lemma created_acyclic wid doc path tpl :
  ¬ has_cycle (wf_tasks (created_workflow wid doc path tpl)).
Proof.
  apply (acyclic_by_rank _ (stage_rank wid)).
  intros a b (t & Ht & <- & Hb). rewrite created_tasks in Ht. cbv zeta in Ht.
  repeat (apply elem_of_cons in Ht as [->|Ht]);
    try (by apply elem_of_nil in Ht); cbn -[String.append] in Hb |- *;
    repeat (apply elem_of_cons in Hb as [->|Hb]);
    try (by apply elem_of_nil in Hb);
    unfold stage_rank; repeat (case_decide; try suffix_neq); try lia; done.
Qed.


(** X18.  Every workflow that [create_workflow] builds is well formed for
    the executor: its eight task ids are distinct, every dependency names
    one of its tasks and the dependencies form no cycle, so
    [_get_execution_order] never raises on it and returns its eight tasks,
    each once. *)
Theorem created_workflow_has_an_execution_order wid doc path tpl :
  NoDup (task_id <$> wf_tasks (created_workflow wid doc path tpl))
  ∧ deps_closed (wf_tasks (created_workflow wid doc path tpl))
  ∧ ¬ has_cycle (wf_tasks (created_workflow wid doc path tpl))
  ∧ ∃ l, _get_execution_order (created_workflow wid doc path tpl) = Ok l
         ∧ l ≡ₚ wf_tasks (created_workflow wid doc path tpl)
         ∧ length l = 8.
Proof.
  pose proof (created_unique_ids wid doc path tpl) as Hnd.
  pose proof (created_closed wid doc path tpl) as Hclosed.
  pose proof (created_acyclic wid doc path tpl) as Hacyc.
  split_and!; [done | done | done |].
  destruct (execution_order_permutation _ Hnd Hclosed Hacyc) as (l & Hok & Hperm).
  exists l. split_and!; [done | done |]. by rewrite Hperm.
Qed.

(** The tasks of a created workflow at any later time: the columns the
    engine never writes are as created. *)
Lemma created_shape wid doc path tpl (tasks : list Task) :
  static <$> tasks = static <$> wf_tasks (created_workflow wid doc path tpl) →
  ∃ t1 t2 t3 t4 t5 t6 t7 t8,
    tasks = [t1; t2; t3; t4; t5; t6; t7; t8]
    ∧ is_stage t1 (wid +:+ "_preprocess") PREPROCESS []
    ∧ is_stage t2 (wid +:+ "_extract_text") EXTRACT_TEXT [wid +:+ "_preprocess"]
    ∧ is_stage t3 (wid +:+ "_analyze_layout") ANALYZE_LAYOUT
        [wid +:+ "_extract_text"]
    ∧ is_stage t4 (wid +:+ "_understand_document") UNDERSTAND_DOCUMENT
        [wid +:+ "_analyze_layout"]
    ∧ is_stage t5 (wid +:+ "_extract_fields") EXTRACT_FIELDS
        [wid +:+ "_understand_document"]
    ∧ is_stage t6 (wid +:+ "_extract_tables") EXTRACT_TABLES
        [wid +:+ "_understand_document"]
    ∧ is_stage t7 (wid +:+ "_validate_results") VALIDATE_RESULTS
        [wid +:+ "_extract_fields"; wid +:+ "_extract_tables"]
    ∧ is_stage t8 (wid +:+ "_postprocess") POSTPROCESS
        [wid +:+ "_validate_results"].
Proof.
  rewrite created_tasks. cbv zeta. intros Heq.
  do 8 (destruct tasks as [|? tasks]; [done |]).
  destruct tasks; [| done].
  csimpl in Heq. injection Heq as ????????.
  eexists _, _, _, _, _, _, _, _. by split_and!.
Qed.

(** A stage finds the rows of the other stages by their ids. *)
Lemma created_find wid doc path tpl (tasks : list Task) t :
  static <$> tasks = static <$> wf_tasks (created_workflow wid doc path tpl) →
  t ∈ tasks → find_task tasks (task_id t) = Some t.
Proof.
  intros Hst. apply find_task_unique.
  rewrite (static_ids _ _ Hst). apply created_unique_ids.
Qed.

Section created_engine.
Variable py_sum : list value → py value.
Variable py_truediv : value → nat → py value.

Local Abbreviation step' := (step py_sum py_truediv).
Local Abbreviation run' := (run py_sum py_truediv).

(** In a created workflow the validation stage depends directly only on
    the two extraction stages, so it never finds the results of document
    understanding. *)
Lemma created_validate_raises wid doc path tpl (tasks : list Task) t llm :
  static <$> tasks = static <$> wf_tasks (created_workflow wid doc path tpl) →
  find_task tasks (wid +:+ "_validate_results") = Some t →
  ∃ m, _execute_validate_results_task py_sum py_truediv tasks t llm
       = Raise (ValueError m)
       ∧ m ∈ validate_messages.
Proof.
  intros Hst Ht.
  destruct (created_shape _ _ _ _ _ Hst)
    as (t1 & t2 & t3 & t4 & t5 & t6 & t7 & t8 & Htasks & _ & _ & _ & _
        & (Hi5 & Hy5 & _) & (Hi6 & Hy6 & _) & (Hi7 & _ & Hd7) & _).
  assert (find_task tasks (wid +:+ "_extract_fields") = Some t5) as Hf5.
  { rewrite <-Hi5. apply (created_find _ _ _ _ _ _ Hst). rewrite Htasks. set_solver. }
  assert (find_task tasks (wid +:+ "_extract_tables") = Some t6) as Hf6.
  { rewrite <-Hi6. apply (created_find _ _ _ _ _ _ Hst). rewrite Htasks. set_solver. }
  assert (t = t7) as ->.
  { rewrite <-Hi7 in Ht. rewrite (created_find _ _ _ _ _ _ Hst) in Ht;
      [congruence | rewrite Htasks; set_solver]. }
  unfold _execute_validate_results_task, dependency_result, _get_dependency_task,
    validate_messages.
  rewrite Hd7. cbn [dependency_of_type]. rewrite Hf5, Hf6, Hy5, Hy6. simpl.
  destruct (result t5) as [[|? ?]|]; simpl; [set_solver | | set_solver].
  destruct (result t6) as [[|? ?]|]; simpl; set_solver.
Qed.

(** A task becomes Completed only by its executor returning. *)
Lemma step_completes s ev s' k :
  step' s ev = Some s' →
  status_of s k ≠ Some COMPLETED →
  status_of s' k = Some COMPLETED →
  ∃ t o r, find_task (tasks_of s) k = Some t
           ∧ run_executor py_sum py_truediv (tasks_of s) t o = Ok r.
Proof.
  intros Hstep Hnot Hdone. unfold status_of, tasks_of in *.
  destruct ev as [tid|tid now|tid o now|tid|now]; step_inv Hstep; try done.
  - match goal with H : find_task _ tid = Some ?t0 |- _ =>
      pose proof (find_task_Some _ _ _ H) as [Hid _]; rename H into Ht0 end.
    exfalso. unfold begin_task in Hdone.
    destruct (can_execute _ _); simpl in Hdone; [| done].
    rewrite status_update in Hdone by done.
    case_decide as Hk; [| done]. subst. rewrite Ht0 in Hdone. done.
  - match goal with H : find_task _ tid = Some ?t0 |- _ =>
      pose proof (find_task_Some _ _ _ H) as [Hid _]; rename H into Ht0 end.
    unfold finish_task in Hdone.
    destruct (run_executor _ _ _ _ _) as [r|e] eqn:Hexec; simpl in Hdone;
      rewrite status_update in Hdone by done;
      (case_decide as Hk; [| done]); subst.
    + by exists t, o, r.
    + rewrite Ht0 in Hdone. done.
Qed.

(** X19.  A workflow built by [create_workflow] never yields extraction
    results: its validation stage depends directly only on the two
    extraction stages, so its executor always fails to find the results of
    document understanding and raises.  In every execution the validation
    task is never Completed, the postprocess task stays Pending, and if
    [execute_workflow] returns, what it returns is the status summary. *)
Theorem created_workflow_never_completes_validation
    db wid doc path tpl max_concurrency now later s0 evs s :
  db !! wid = Some (created_workflow wid doc path tpl) →
  execute_workflow_start db wid max_concurrency now later = Ok s0 →
  run' s0 evs = Some s →
  (∀ t o, find_task (tasks_of s) (wid +:+ "_validate_results") = Some t →
          ∃ m, run_executor py_sum py_truediv (tasks_of s) t o
               = Raise (ValueError m)
               ∧ m ∈ validate_messages)
  ∧ status_of s (wid +:+ "_validate_results") ≠ Some COMPLETED
  ∧ status_of s (wid +:+ "_postprocess") = Some PENDING
  ∧ ∀ v, main s = Returned v →
         v = [ ("status", VStr "completed");
               ("error", opt_str (wf_error (workflow s)));
               ("completed_at", opt_str (wf_completed_at (workflow s))) ].
Proof.
  intros Hw Hstart Hrun.
  set (w := created_workflow wid doc path tpl) in *.
  destruct (start_state _ _ _ _ _ _ Hstart) as (w' & Hw' & Htasks & _).
  assert (w' = w) as -> by congruence.
  assert (Hraise : ∀ x, static <$> tasks_of x = static <$> wf_tasks w →
            ∀ t o, find_task (tasks_of x) (wid +:+ "_validate_results") = Some t →
            ∃ m, run_executor py_sum py_truediv (tasks_of x) t o
                 = Raise (ValueError m) ∧ m ∈ validate_messages).
  { intros x Hx t o Ht.
    destruct (created_shape _ _ _ _ _ Hx)
      as (t1 & t2 & t3 & t4 & t5 & t6 & t7 & t8 & Hl & _ & _ & _ & _ & _ & _
          & (Hi7 & Hy7 & _) & _).
    assert (t = t7) as ->.
    { rewrite <-Hi7 in Ht. rewrite (created_find _ _ _ _ _ _ Hx) in Ht;
        [congruence | rewrite Hl; set_solver]. }
    unfold run_executor. rewrite Hy7. rewrite <-Hi7 in Ht.
    rewrite Hi7 in Ht. by apply (created_validate_raises wid doc path tpl). }
  assert (Hstatic : static <$> tasks_of s = static <$> wf_tasks w).
  { by rewrite (run_static _ _ _ _ _ Hrun), Htasks. }
  assert (Hnever : status_of s (wid +:+ "_validate_results") ≠ Some COMPLETED).
  { apply (run_invariant py_sum py_truediv
             (λ x, static <$> tasks_of x = static <$> wf_tasks w
                   ∧ status_of x (wid +:+ "_validate_results") ≠ Some COMPLETED))
      with (evs := evs) (s := s0); [| done |].
    - intros x ev x' Hstep [Hx Hn]. split.
      + by rewrite (step_static _ _ _ _ _ Hstep).
      + intros Hdone.
        destruct (step_completes _ _ _ _ Hstep Hn Hdone) as (t & o & r & Ht & Hok).
        destruct (Hraise x Hx t o Ht) as (m & Hm & _). congruence.
    - split; [by rewrite Htasks |].
      unfold status_of. rewrite Htasks.
      destruct (find_task _ _) as [t|] eqn:Ht; [| done].
      apply find_task_Some in Ht as [_ Ht]. simpl.
      pose proof (created_fresh wid doc path tpl) as Hfresh.
      unfold fresh in Hfresh. rewrite Forall_forall in Hfresh.
      by rewrite (Hfresh t Ht). }
  destruct (fresh_run_invariants _ _ _ _ _ _ _ _ _ _ _ Hw
              (created_fresh wid doc path tpl) Hstart Hrun)
    as (_ & Hdeps & _ & Hm & _).
  destruct (created_shape _ _ _ _ _ Hstatic)
    as (t1 & t2 & t3 & t4 & t5 & t6 & t7 & t8 & Hl & (_ & Hy1 & _) & (_ & Hy2 & _)
        & (_ & Hy3 & _) & (_ & Hy4 & _) & (_ & Hy5 & _) & (_ & Hy6 & _)
        & (_ & Hy7 & _) & (Hi8 & Hy8 & Hd8)).
  assert (find_task (tasks_of s) (wid +:+ "_postprocess") = Some t8) as Hf8.
  { rewrite <-Hi8. apply (created_find _ _ _ _ _ _ Hstatic). rewrite Hl. set_solver. }
  assert (status t8 = PENDING) as Hp8.
  { destruct (decide (status t8 = PENDING)) as [|Hne]; [done |]. exfalso.
    apply Hnever, (Hdeps _ t8 _ Hf8 Hne). rewrite Hd8. set_solver. }
  split_and!; [by apply Hraise | done | |].
  - unfold status_of. by rewrite Hf8; simpl; f_equal.
  - intros v Hv. unfold main_inv in Hm. rewrite Hv in Hm.
    destruct Hm as (Hs & -> & _). unfold _get_workflow_results.
    change (wf_tasks (workflow s)) with (tasks_of s). rewrite Hl. simpl.
    rewrite Hy1, Hy2, Hy3, Hy4, Hy5, Hy6, Hy7, Hy8, Hp8, Hs. done.
Qed.

End created_engine.

(** X20.  A workflow that [create_workflow] has just stored is reported
    by [get_workflow_status] as pending, with eight tasks, all of them
    pending, and progress 0.0; a document id that is not known makes
    [create_workflow] raise instead. *)
Theorem created_workflow_is_reported_pending
    documents db uuid_hex document_id template_id :
  match create_workflow documents db uuid_hex document_id template_id with
  | Ok (workflow_id, db') =>
      is_Some (documents !! document_id)
      ∧ workflow_id = "wf_" +:+ String.substring 0 10 uuid_hex
      ∧ let report := get_workflow_status db' workflow_id in
        dict_get report "status" = Some (VStr "pending")
        ∧ dict_get report "document_id" = Some (VStr document_id)
        ∧ dict_get report "task_counts"
          = Some (VDict [ ("total", VInt 8); ("pending", VInt 8);
                          ("running", VInt 0); ("completed", VInt 0);
                          ("failed", VInt 0) ])
        ∧ dict_get report "progress" = Some (VFloat 0)
  | Raise e =>
      documents !! document_id = None
      ∧ e = ValueError ("Document not found: " +:+ document_id)
  end.
Proof.
  unfold create_workflow. destruct (documents !! document_id) as [file_path|];
    [| done].
  split; [done |]. split; [done |].
  unfold get_workflow_status. rewrite lookup_insert_eq. cbv zeta.
  split_and!; by vm_compute.
Qed.

(** A lookup of a dependency of a type the task does not depend on
    directly ends with the error of the guard. *)
Lemma dependency_result_absent (tasks : list Task) task ty msg :
  (∀ d, d ∈ dependencies task →
        ∃ t, find_task tasks d = Some t ∧ task_type t ≠ ty) →
  dependency_result tasks task ty msg = Raise (ValueError msg).
Proof.
  intros Hdeps. unfold dependency_result, _get_dependency_task.
  assert (dependency_of_type tasks (dependencies task) ty = Ok None) as ->; [| done].
  induction (dependencies task) as [|d ds IH]; simpl; [done |].
  destruct (Hdeps d) as (t & -> & Hty); [by left |].
  rewrite decide_False by done. apply IH. intros d' Hd'. apply Hdeps. by right.
Qed.

(** X21.  In a workflow built by [create_workflow] each stage depends
    directly on the stage before it only, while the executors of layout
    analysis, document understanding, field extraction and table
    extraction also read the result of an earlier stage through
    [_get_dependency_task].  Whatever the state of the tasks and whatever
    the external processors do, none of the four executors returns a
    result: each raises. *)
Theorem created_workflow_stages_cannot_return
    wid doc path tpl (tasks : list Task) t3 t4 t5 t6 :
  static <$> tasks = static <$> wf_tasks (created_workflow wid doc path tpl) →
  find_task tasks (wid +:+ "_analyze_layout") = Some t3 →
  find_task tasks (wid +:+ "_understand_document") = Some t4 →
  find_task tasks (wid +:+ "_extract_fields") = Some t5 →
  find_task tasks (wid +:+ "_extract_tables") = Some t6 →
  (∀ process, ∃ e, _execute_analyze_layout_task process tasks t3 = Raise e)
  ∧ (∀ understand,
       ∃ e, _execute_understand_document_task understand tasks t4 = Raise e)
  ∧ (∀ extract, ∃ e, _execute_extract_fields_task extract tasks t5 = Raise e)
  ∧ (∀ template_tables extract,
       ∃ e, _execute_extract_tables_task template_tables extract tasks t6
            = Raise e).
Proof.
  intros Hst H3 H4 H5 H6.
  destruct (created_shape _ _ _ _ _ Hst)
    as (u1 & u2 & u3 & u4 & u5 & u6 & u7 & u8 & Htasks & (Hi1 & Hy1 & _)
        & (Hi2 & Hy2 & _) & (Hi3 & Hy3 & Hd3) & (Hi4 & Hy4 & Hd4)
        & (Hi5 & Hy5 & Hd5) & (Hi6 & Hy6 & Hd6) & _).
  assert (Hfind : ∀ u, u ∈ tasks → find_task tasks (task_id u) = Some u)
    by (intros u; apply (created_find _ _ _ _ _ _ Hst)).
  assert (Hin : ∀ u, u ∈ [u1; u2; u3; u4; u5; u6; u7; u8] → u ∈ tasks)
    by (by rewrite Htasks).
  assert (t3 = u3) as -> by (rewrite <-Hi3, Hfind in H3; [congruence | apply Hin; set_solver]).
  assert (t4 = u4) as -> by (rewrite <-Hi4, Hfind in H4; [congruence | apply Hin; set_solver]).
  assert (t5 = u5) as -> by (rewrite <-Hi5, Hfind in H5; [congruence | apply Hin; set_solver]).
  assert (t6 = u6) as -> by (rewrite <-Hi6, Hfind in H6; [congruence | apply Hin; set_solver]).
  assert (F2 : find_task tasks (wid +:+ "_extract_text") = Some u2)
    by (rewrite <-Hi2; apply Hfind, Hin; set_solver).
  assert (F3 : find_task tasks (wid +:+ "_analyze_layout") = Some u3)
    by (rewrite <-Hi3; apply Hfind, Hin; set_solver).
  assert (F4 : find_task tasks (wid +:+ "_understand_document") = Some u4)
    by (rewrite <-Hi4; apply Hfind, Hin; set_solver).
  assert (A3 : ∀ msg, dependency_result tasks u3 PREPROCESS msg = Raise (ValueError msg)).
  { intros msg. apply dependency_result_absent. rewrite Hd3.
    intros d ->%list_elem_of_singleton. exists u2. by rewrite Hy2. }
  assert (A4 : ∀ msg, dependency_result tasks u4 EXTRACT_TEXT msg = Raise (ValueError msg)).
  { intros msg. apply dependency_result_absent. rewrite Hd4.
    intros d ->%list_elem_of_singleton. exists u3. by rewrite Hy3. }
  assert (A5 : ∀ msg, dependency_result tasks u5 ANALYZE_LAYOUT msg = Raise (ValueError msg)).
  { intros msg. apply dependency_result_absent. rewrite Hd5.
    intros d ->%list_elem_of_singleton. exists u4. by rewrite Hy4. }
  assert (A6 : ∀ msg, dependency_result tasks u6 ANALYZE_LAYOUT msg = Raise (ValueError msg)).
  { intros msg. apply dependency_result_absent. rewrite Hd6.
    intros d ->%list_elem_of_singleton. exists u4. by rewrite Hy4. }
  split_and!.
  - intros process. unfold _execute_analyze_layout_task.
    destruct (document_path_of u3) as [p|e]; simpl; [| by eexists].
    destruct (dependency_result tasks u3 EXTRACT_TEXT _) as [x|e]; simpl; [| by eexists].
    destruct (process p x) as [l|e]; simpl; [| by eexists].
    destruct (require_nonempty _ l) as [l'|e]; simpl; [| by eexists].
    rewrite A3. by eexists.
  - intros understand. unfold _execute_understand_document_task.
    destruct (document_path_of u4) as [p|e]; simpl; [| by eexists].
    destruct (dependency_result tasks u4 ANALYZE_LAYOUT _) as [x|e]; simpl; [| by eexists].
    rewrite A4. by eexists.
  - intros extract. unfold _execute_extract_fields_task, extraction_inputs.
    destruct (document_path_of u5) as [p|e]; simpl; [| by eexists].
    destruct (dependency_result tasks u5 UNDERSTAND_DOCUMENT _) as [x|e]; simpl; [| by eexists].
    rewrite A5. by eexists.
  - intros template_tables extract.
    unfold _execute_extract_tables_task, extraction_inputs.
    destruct (document_path_of u6) as [p|e]; simpl; [| by eexists].
    destruct (dependency_result tasks u6 UNDERSTAND_DOCUMENT _) as [x|e]; simpl; [| by eexists].
    rewrite A6. by eexists.
Qed.

(** X22.  The lookup of a dependency's result: when every dependency id
    names a task, [dependency_result] either returns the non-empty result
    of a task that is a direct dependency of the given type, or raises
    [ValueError] with the message of the guard; a dependency that is not
    direct is never used. *)
Theorem dependency_lookup_uses_direct_dependencies
    (tasks : list Task) (task : Task) ty msg :
  (∀ d, d ∈ dependencies task → is_Some (find_task tasks d)) →
  match dependency_result tasks task ty msg with
  | Ok r =>
      r ≠ [] ∧ ∃ t, t ∈ tasks ∧ task_id t ∈ dependencies task
                    ∧ task_type t = ty ∧ result t = Some r
  | Raise e => e = ValueError msg
  end.
Proof.
  intros Hdeps. unfold dependency_result, _get_dependency_task.
  assert (match dependency_of_type tasks (dependencies task) ty with
          | Ok (Some t) => t ∈ tasks ∧ task_id t ∈ dependencies task ∧ task_type t = ty
          | Ok None => True
          | Raise _ => False
          end) as Hdep.
  { induction (dependencies task) as [|d ds IH]; simpl; [done |].
    destruct (Hdeps d) as [t Ht]; [by left |]. rewrite Ht.
    apply find_task_Some in Ht as [<- Hin].
    case_decide; [split_and!; [done | by left | done] |].
    destruct (dependency_of_type tasks ds ty) as [[t'|]|] eqn:Hrest;
      try (specialize (IH ltac:(intros; apply Hdeps; by right)));
      [| done | done].
    destruct IH as (? & ? & ?). split_and!; [done | by right | done]. }
  destruct (dependency_of_type tasks (dependencies task) ty) as [[t|]|];
    simpl; [| done | done].
  destruct Hdep as (Hin & Hid & Hty).
  destruct (result t) as [[|kv r]|] eqn:Hr; [done | | done].
  split; [done |]. by exists t.
Qed.

(** ** Witnesses of the further properties on the example workflows *)

Lemma dangling_dependency_raises_witness :
  postprocess_6 ∈ wf_tasks dangling_workflow
  ∧ "wf_6_validate_results" ∈ dependencies postprocess_6
  ∧ ("wf_6_validate_results" ∉ task_id <$> wf_tasks dangling_workflow)
  ∧ ∃ e, _get_execution_order dangling_workflow = Raise e
         ∧ (e = ValueError circular_msg ∨ ∃ k, e = KeyError k).
Proof.
  assert (H1 : postprocess_6 ∈ wf_tasks dangling_workflow) by (by left).
  assert (H2 : "wf_6_validate_results" ∈ dependencies postprocess_6)
    by (by left).
  assert (H3 : "wf_6_validate_results"
               ∉ task_id <$> wf_tasks dangling_workflow).
  { simpl. intros [=]%list_elem_of_singleton. }
  split_and!; [exact H1 | exact H2 | exact H3 |].
  exact (dangling_dependency_raises dangling_workflow _ _ H1 H2 H3).
Defined.

Lemma semaphore_permits_are_conserved_witness :
  ∃ s0 s,
    execute_workflow_start demo_db "wf_1" 4 "t0" "t0" = Ok s0
    ∧ run example_sum example_truediv s0 failing_schedule = Some s
    ∧ sem_value s + count_pcs is_holder (coros s) = 4
    ∧ (quiescent s = true → sem_value s = 4).
Proof.
  exists_result (execute_workflow_start demo_db "wf_1" 4 "t0" "t0").
  exists_result (run_workflow example_sum example_truediv demo_db "wf_1" 4
                   "t0" "t0" failing_schedule).
  match goal with
  | |- ?start ∧ ?ran ∧ _ =>
      assert (H1 : start) by (by vm_compute);
      assert (H2 : ran) by (by vm_compute)
  end.
  split; [exact H1 |]. split; [exact H2 |].
  exact (semaphore_permits_are_conserved example_sum example_truediv
           _ _ _ _ _ _ _ _ H1 H2).
Defined.

Lemma execution_makes_progress_and_is_bounded_witness :
  ∃ s0 s,
    0 < 4
    ∧ demo_db !! "wf_1" = Some two_stage_workflow
    ∧ execute_workflow_start demo_db "wf_1" 4 "t0" "t0" = Ok s0
    ∧ run example_sum example_truediv s0 (take 4 failing_schedule) = Some s
    ∧ length (take 4 failing_schedule) ≤ 4 * length (wf_tasks two_stage_workflow) + 1
    ∧ (main s = Gathering →
       ∃ ev s', step example_sum example_truediv s ev = Some s').
Proof.
  exists_result (execute_workflow_start demo_db "wf_1" 4 "t0" "t0").
  exists_result (run_workflow example_sum example_truediv demo_db "wf_1" 4
                   "t0" "t0" (take 4 failing_schedule)).
  match goal with
  | |- ?pos ∧ ?db ∧ ?start ∧ ?ran ∧ _ =>
      assert (H0 : pos) by lia;
      assert (H1 : db) by (by vm_compute);
      assert (H2 : start) by (by vm_compute);
      assert (H3 : ran) by (by vm_compute)
  end.
  split_and!; [exact H0 | exact H1 | exact H2 | exact H3 | |];
    apply (execution_makes_progress_and_is_bounded example_sum example_truediv
             _ _ _ _ _ _ _ _ _ H0 H1 H2 H3).
Defined.

Lemma zero_concurrency_blocks_forever_witness :
  demo_db !! "wf_1" = Some two_stage_workflow
  ∧ wf_tasks two_stage_workflow ≠ []
  ∧ deps_closed (wf_tasks two_stage_workflow)
  ∧ ¬ has_cycle (wf_tasks two_stage_workflow)
  ∧ ∃ s0, execute_workflow_start demo_db "wf_1" 0 "t0" "t0" = Ok s0
          ∧ main s0 = Gathering
          ∧ ∀ ev, step example_sum example_truediv s0 ev = None.
Proof.
  assert (H1 : demo_db !! "wf_1" = Some two_stage_workflow) by (by vm_compute).
  assert (H2 : wf_tasks two_stage_workflow ≠ []) by done.
  split_and!; [exact H1 | exact H2 | exact two_stage_closed
              | exact two_stage_acyclic |].
  exact (zero_concurrency_blocks_forever example_sum example_truediv
           demo_db "wf_1" "t0" "t0" _ H1 H2 two_stage_closed two_stage_acyclic).
Defined.

Lemma finished_task_is_never_written_again_witness :
  ∃ s0 s s' t,
    execute_workflow_start demo_db "wf_1" 4 "t0" "t0" = Ok s0
    ∧ run example_sum example_truediv s0 (take 7 failing_schedule) = Some s
    ∧ find_task (tasks_of s) "wf_1_preprocess" = Some t
    ∧ (status t = COMPLETED ∨ status t = FAILED)
    ∧ run example_sum example_truediv s (drop 7 failing_schedule) = Some s'
    ∧ find_task (tasks_of s') "wf_1_preprocess" = Some t.
Proof.
  exists_result (execute_workflow_start demo_db "wf_1" 4 "t0" "t0").
  exists_result (run_workflow example_sum example_truediv demo_db "wf_1" 4
                   "t0" "t0" (take 7 failing_schedule)).
  exists_result (run_workflow example_sum example_truediv demo_db "wf_1" 4
                   "t0" "t0" failing_schedule).
  exists (mark_failed "Document path not specified in task parameters" "t3"
            (mark_running "t2" preprocess_1)).
  match goal with
  | |- ?start ∧ ?ran ∧ ?found ∧ ?st ∧ ?ran' ∧ _ =>
      assert (H1 : start) by (by vm_compute);
      assert (H2 : ran) by (by vm_compute);
      assert (H3 : found) by (by vm_compute);
      assert (H4 : st) by (by right);
      assert (H5 : ran') by (by vm_compute)
  end.
  split_and!; [exact H1 | exact H2 | exact H3 | exact H4 | exact H5 |].
  exact (finished_task_is_never_written_again example_sum example_truediv
           _ _ _ _ _ _ _ _ _ _ _ _ H1 H2 H3 H4 H5).
Defined.

Lemma normal_return_leaves_tasks_completed_or_pending_witness :
  ∃ s0 s,
    demo_db !! "wf_1" = Some two_stage_workflow
    ∧ NoDup (task_id <$> wf_tasks two_stage_workflow)
    ∧ fresh (wf_tasks two_stage_workflow)
    ∧ execute_workflow_start demo_db "wf_1" 4 "t0" "t0" = Ok s0
    ∧ run example_sum example_truediv s0 returning_schedule = Some s
    ∧ main s = Returned [ ("status", VStr "completed"); ("error", VNone);
                          ("completed_at", VStr "t4") ]
    ∧ wf_status (workflow s) = COMPLETED
    ∧ Forall (λ t, status t = COMPLETED ∨ status t = PENDING) (tasks_of s)
    ∧ status_of s "wf_1_extract_text" = Some PENDING.
Proof.
  exists_result (execute_workflow_start demo_db "wf_1" 4 "t0" "t0").
  exists_result (run_workflow example_sum example_truediv demo_db "wf_1" 4
                   "t0" "t0" returning_schedule).
  match goal with
  | |- ?db ∧ _ ∧ _ ∧ ?start ∧ ?ran ∧ ?ret ∧ _ ∧ _ ∧ ?pending =>
      assert (H1 : db) by (by vm_compute);
      assert (H4 : start) by (by vm_compute);
      assert (H5 : ran) by (by vm_compute);
      assert (H6 : ret) by (by vm_compute);
      assert (H7 : pending) by (by vm_compute)
  end.
  destruct (normal_return_leaves_tasks_completed_or_pending
              example_sum example_truediv _ _ _ _ _ _ _ _ _ _
              H1 two_stage_unique_ids two_stage_fresh H4 H5 H6) as [Hs Hall].
  split_and!; [exact H1 | exact two_stage_unique_ids | exact two_stage_fresh
              | exact H4 | exact H5 | exact H6 | exact Hs | exact Hall | exact H7].
Defined.

Lemma currency_rejects_separators_and_signs_witness :
  (has_char "," "1,234.56" = true ∨ has_char "-" "1,234.56" = true)
  ∧ _is_valid_currency (VStr "1,234.56") = Ok false.
Proof.
  assert (H : has_char "," "1,234.56" = true ∨ has_char "-" "1,234.56" = true)
    by (by left).
  split; [exact H |].
  exact (currency_rejects_separators_and_signs "1,234.56" H).
Defined.

(** X10, on the 31st of February, in ASCII digits and in Arabic-Indic
    digits (ten characters, eighteen bytes). *)
Lemma date_check_is_by_shape_only_witness :
  _is_valid_date (VStr "2024-02-31") = Ok true
  ∧ String.length "٢٠٢٤-٠٢-٣١" = 18
  ∧ length (code_points "٢٠٢٤-٠٢-٣١") = 10
  ∧ _is_valid_date (VStr "٢٠٢٤-٠٢-٣١") = Ok true.
Proof.
  destruct date_check_is_by_shape_only as [Hlength Hshape].
  assert (H : _is_valid_date (VStr "٢٠٢٤-٠٢-٣١") = Ok true).
  { apply (Hshape _ 1634 1632 1634 1636 1632 1634 1635 1633)%N; by vm_compute. }
  split_and!.
  - apply (Hshape _ 50 48 50 52 48 50 51 49)%N; by vm_compute.
  - by vm_compute.
  - exact (Hlength _ H).
  - exact H.
Defined.

Lemma basic_validation_fails_only_on_missing_data_witness :
  _validate_extraction_results receipt_fields receipt_tables
    [("document_type", VStr "receipt")]
  = Ok (validation_value receipt_validation)
  ∧ ∃ vr, validation_value receipt_validation = validation_value vr
          ∧ (valid vr = true ↔ errors vr = [])
          ∧ ∀ m, m ∈ errors vr →
                 genuine_error receipt_fields receipt_tables
                   [("document_type", VStr "receipt")] m.
Proof.
  assert (H : _validate_extraction_results receipt_fields receipt_tables
                [("document_type", VStr "receipt")]
              = Ok (validation_value receipt_validation)) by (by vm_compute).
  split; [exact H |].
  exact (basic_validation_fails_only_on_missing_data _ _ _ _ H).
Defined.

Lemma other_document_types_are_always_valid_witness :
  is_str (dict_get_or [("document_type", VStr "letter")] "document_type"
            (VStr "unknown")) "invoice" = false
  ∧ is_str (dict_get_or [("document_type", VStr "letter")] "document_type"
              (VStr "unknown")) "receipt" = false
  ∧ is_str (dict_get_or [("document_type", VStr "letter")] "document_type"
              (VStr "unknown")) "contract" = false
  ∧ _validate_extraction_results
      [("date", VDict [("value", VStr "yesterday")])] []
      [("document_type", VStr "letter")]
    = Ok (validation_value
            (mkValidation true []
               ["Field 'date' has invalid date format: yesterday"]))
  ∧ ∃ vr, validation_value
            (mkValidation true []
               ["Field 'date' has invalid date format: yesterday"])
          = validation_value vr
          ∧ valid vr = true ∧ errors vr = [].
Proof.
  assert (H : _validate_extraction_results
                [("date", VDict [("value", VStr "yesterday")])] []
                [("document_type", VStr "letter")]
              = Ok (validation_value
                      (mkValidation true []
                         ["Field 'date' has invalid date format: yesterday"])))
    by (by vm_compute).
  split_and!; [done | done | done | exact H |].
  exact (other_document_types_are_always_valid
           _ _ [("document_type", VStr "letter")] _ eq_refl eq_refl eq_refl H).
Defined.

Lemma formatting_keeps_the_validation_witness :
  dict_get validation_payload "validation"
  = Some (validation_value receipt_validation)
  ∧ _format_extraction_results validation_payload = Ok formatted_payload
  ∧ dict_keys formatted_payload
    = ["document_type"; "fields"; "tables"; "validation"; "confidence"]
  ∧ dict_get formatted_payload "validation"
    = Some (validation_value receipt_validation).
Proof.
  assert (H1 : dict_get validation_payload "validation"
               = Some (validation_value receipt_validation)) by (by vm_compute).
  assert (H2 : _format_extraction_results validation_payload
               = Ok formatted_payload) by (by vm_compute).
  destruct (formatting_keeps_the_validation _ _ _ H1 H2) as (Hk & Hv & _).
  split_and!; [exact H1 | exact H2 | exact Hk | exact Hv].
Defined.

Lemma status_report_counts_add_up_witness :
  demo_db !! "wf_1" = Some two_stage_workflow
  ∧ ∃ p r c f,
      dict_get (get_workflow_status demo_db "wf_1") "task_counts"
      = Some (VDict [ ("total",
                       VInt (Z.of_nat (length (wf_tasks two_stage_workflow))));
                      ("pending", VInt (Z.of_nat p));
                      ("running", VInt (Z.of_nat r));
                      ("completed", VInt (Z.of_nat c));
                      ("failed", VInt (Z.of_nat f)) ])
      ∧ p + r + c + f = length (wf_tasks two_stage_workflow)
      ∧ (wf_tasks two_stage_workflow = [] →
         dict_get (get_workflow_status demo_db "wf_1") "progress"
         = Some (VInt 0)).
Proof.
  assert (H : demo_db !! "wf_1" = Some two_stage_workflow) by (by vm_compute).
  split; [exact H |].
  exact (status_report_counts_add_up demo_db "wf_1" _ H).
Defined.

Lemma stage_executors_require_document_path_witness :
  truthy (dict_get_or (params preprocess_1) "document_path" VNone) = false
  ∧ ∀ process, _execute_preprocess_task process preprocess_1
               = Raise missing_document_path.
Proof.
  assert (H : truthy (dict_get_or (params preprocess_1) "document_path" VNone)
              = false) by done.
  split; [exact H |].
  exact (proj1 (stage_executors_require_document_path
                  (wf_tasks two_stage_workflow) preprocess_1 H)).
Defined.

Lemma no_tables_to_extract_fails_validation_witness :
  document_path_of tables_7 = Ok (VStr "letter.txt")
  ∧ extraction_inputs letter_tasks tables_7
    = Ok ([("document_type", VStr "letter")], [("pages", VInt 1)],
          [("text", VStr "Dear Sir")])
  ∧ has_tables_to_extract no_template [("document_type", VStr "letter")]
      (dict_get_or (params tables_7) "template_id" VNone) = Ok false
  ∧ dependency_result
      (update_task (task_id tables_7) (mark_completed [] "t2") letter_tasks)
      validate_7 EXTRACT_FIELDS "Field extraction task result not found"
    = Ok letter_fields
  ∧ _get_dependency_task
      (update_task (task_id tables_7) (mark_completed [] "t2") letter_tasks)
      validate_7 EXTRACT_TABLES
    = Ok (Some (mark_completed [] "t2" tables_7))
  ∧ _execute_extract_tables_task no_template no_extraction letter_tasks tables_7
    = Ok []
  ∧ _execute_validate_results_task example_sum example_truediv
      (update_task (task_id tables_7) (mark_completed [] "t2") letter_tasks)
      validate_7 (Raise (ExternalError "model not loaded"))
    = Raise (ValueError "Table extraction task result not found").
Proof.
  match goal with
  | |- ?h1 ∧ ?h2 ∧ ?h3 ∧ ?h4 ∧ ?h5 ∧ _ =>
      assert (H1 : h1) by (by vm_compute);
      assert (H2 : h2) by (by vm_compute);
      assert (H3 : h3) by (by vm_compute);
      assert (H4 : h4) by (by vm_compute);
      assert (H5 : h5) by (by vm_compute)
  end.
  split_and!; [exact H1 | exact H2 | exact H3 | exact H4 | exact H5 | |];
    apply (no_tables_to_extract_fails_validation example_sum example_truediv
             no_template no_extraction letter_tasks tables_7 validate_7
             _ _ _ _ "t2" _ (Raise (ExternalError "model not loaded"))
             H1 H2 H3 H4 H5).
Defined.

Lemma dependency_lookup_uses_direct_dependencies_witness :
  (∀ d, d ∈ dependencies postprocess_3 →
        is_Some (find_task (wf_tasks resumed_workflow) d))
  ∧ dependency_result (wf_tasks resumed_workflow) postprocess_3 VALIDATE_RESULTS
      "Validation task result not found" = Ok validation_payload
  ∧ validation_payload ≠ []
  ∧ ∃ t, t ∈ wf_tasks resumed_workflow
         ∧ task_id t ∈ dependencies postprocess_3
         ∧ task_type t = VALIDATE_RESULTS
         ∧ result t = Some validation_payload.
Proof.
  assert (H : ∀ d, d ∈ dependencies postprocess_3 →
                   is_Some (find_task (wf_tasks resumed_workflow) d)).
  { intros d ->%list_elem_of_singleton. by eexists. }
  pose proof (dependency_lookup_uses_direct_dependencies
                (wf_tasks resumed_workflow) postprocess_3 VALIDATE_RESULTS
                "Validation task result not found" H) as Hres.
  assert (Heq : dependency_result (wf_tasks resumed_workflow) postprocess_3
                  VALIDATE_RESULTS "Validation task result not found"
                = Ok validation_payload) by (by vm_compute).
  rewrite Heq in Hres. destruct Hres as [Hne Ht].
  split_and!; [exact H | exact Heq | exact Hne | exact Ht].
Defined.

Lemma created_workflow_never_completes_validation_witness :
  ∃ s0 s,
    created_db !! "wf_5" = Some (created_workflow "wf_5" "doc_1" "receipt.txt" None)
    ∧ execute_workflow_start created_db "wf_5" 4 "t0" "t0" = Ok s0
    ∧ run example_sum example_truediv s0 created_schedule = Some s
    ∧ status_of s ("wf_5" +:+ "_preprocess") = Some COMPLETED
    ∧ status_of s ("wf_5" +:+ "_validate_results") ≠ Some COMPLETED
    ∧ status_of s ("wf_5" +:+ "_postprocess") = Some PENDING
    ∧ main s = Returned [ ("status", VStr "completed"); ("error", VNone);
                          ("completed_at", VStr "t4") ].
Proof.
  exists_result (execute_workflow_start created_db "wf_5" 4 "t0" "t0").
  exists_result (run_workflow example_sum example_truediv created_db "wf_5" 4
                   "t0" "t0" created_schedule).
  match goal with
  | |- ?db ∧ ?start ∧ ?ran ∧ ?pre ∧ _ ∧ _ ∧ ?ret =>
      assert (H1 : db) by (by vm_compute);
      assert (H2 : start) by (by vm_compute);
      assert (H3 : ran) by (by vm_compute);
      assert (H4 : pre) by (by vm_compute);
      assert (H5 : ret) by (by vm_compute)
  end.
  destruct (created_workflow_never_completes_validation
              example_sum example_truediv _ _ _ _ _ _ _ _ _ _ _ H1 H2 H3)
    as (_ & Hv & Hp & _).
  split_and!; [exact H1 | exact H2 | exact H3 | exact H4 | exact Hv | exact Hp
              | exact H5].
Defined.

Lemma created_workflow_stages_cannot_return_witness :
  ∃ t3 t4 t5 t6,
    static <$> wf_tasks created_5
    = static <$> wf_tasks (created_workflow "wf_5" "doc_1" "receipt.txt" None)
    ∧ find_task (wf_tasks created_5) ("wf_5" +:+ "_analyze_layout") = Some t3
    ∧ find_task (wf_tasks created_5) ("wf_5" +:+ "_understand_document") = Some t4
    ∧ find_task (wf_tasks created_5) ("wf_5" +:+ "_extract_fields") = Some t5
    ∧ find_task (wf_tasks created_5) ("wf_5" +:+ "_extract_tables") = Some t6
    ∧ (∀ process,
         ∃ e, _execute_analyze_layout_task process (wf_tasks created_5) t3
              = Raise e)
    ∧ (∀ template_tables extract,
         ∃ e, _execute_extract_tables_task template_tables extract
                (wf_tasks created_5) t6 = Raise e).
Proof.
  exists_result (find_task (wf_tasks created_5) "wf_5_analyze_layout").
  exists_result (find_task (wf_tasks created_5) "wf_5_understand_document").
  exists_result (find_task (wf_tasks created_5) "wf_5_extract_fields").
  exists_result (find_task (wf_tasks created_5) "wf_5_extract_tables").
  match goal with
  | |- ?h0 ∧ ?h1 ∧ ?h2 ∧ ?h3 ∧ ?h4 ∧ _ =>
      assert (H0 : h0) by done;
      assert (H1 : h1) by (by vm_compute);
      assert (H2 : h2) by (by vm_compute);
      assert (H3 : h3) by (by vm_compute);
      assert (H4 : h4) by (by vm_compute)
  end.
  destruct (created_workflow_stages_cannot_return
              "wf_5" "doc_1" "receipt.txt" None _ _ _ _ _ H0 H1 H2 H3 H4)
    as (Ha & _ & _ & Ht).
  split_and!; [exact H0 | exact H1 | exact H2 | exact H3 | exact H4
              | exact Ha | exact Ht].
Defined.

Lemma only_pending_tasks_are_ever_run_witness :
  ∃ s0 s,
    resumed_db !! "wf_3" = Some resumed_workflow
    ∧ find_task (wf_tasks resumed_workflow) "wf_3_validate_results"
      = Some validate_done
    ∧ status validate_done ≠ PENDING
    ∧ execute_workflow_start resumed_db "wf_3" 4 "t0" "t0" = Ok s0
    ∧ run example_sum example_truediv s0 resumed_schedule = Some s
    ∧ find_task (tasks_of s) "wf_3_validate_results" = Some validate_done
    ∧ dict_get (coros s) "wf_3_validate_results" ≠ Some Awaiting.
Proof.
  exists_result (execute_workflow_start resumed_db "wf_3" 4 "t0" "t0").
  exists_result (run_workflow example_sum example_truediv resumed_db "wf_3" 4
                   "t0" "t0" resumed_schedule).
  match goal with
  | |- ?db ∧ ?found ∧ ?st ∧ ?start ∧ ?ran ∧ _ =>
      assert (H1 : db) by (by vm_compute);
      assert (H2 : found) by (by vm_compute);
      assert (H3 : st) by done;
      assert (H4 : start) by (by vm_compute);
      assert (H5 : ran) by (by vm_compute)
  end.
  split_and!; [exact H1 | exact H2 | exact H3 | exact H4 | exact H5 | |];
    apply (only_pending_tasks_are_ever_run example_sum example_truediv
             _ _ _ _ _ _ _ _ _ _ _ H1 H2 H3 H4 H5).
Defined.
